(** * NSPanel Lovelace UI: message parser and firmware updater

    A shallow embedding of [src/lib/nspanel-message-parser.ts]
    (class [NSPanelMessageParser]) and of the firmware updater
    (class [NSPanelUpdater]), with the properties of the design
    document stated and settled against them.

    Conventions of the embedding:
    - a JavaScript string is a [string], one [ascii] per code unit;
    - [undefined] and [null] are [None] in an [option];
    - an array of strings is a [list string], [parts[k]] is [nth_error];
    - code that can throw returns a [Res];
    - what the JavaScript runtime and libraries outside this repository
      provide ([JSON.parse], [Number], [semver.gt], the color helper, the
      clock) is a field of the class [Runtime]; the string constants of
      [nspanel-constants] that the sources only pass along are fields of
      the class [Constants]. *)

From Stdlib Require Import List String Ascii ZArith Bool Lia Arith.
Import ListNotations.

Open Scope string_scope.
Open Scope list_scope.

Set Implicit Arguments.

(** ** Errors *)

(** The two exceptions the embedded code can meet. *)
Inductive JsError : Type :=
| TypeError
| SyntaxError.

(** The outcome of a call that may throw. *)
Inductive Res (A : Type) : Type :=
| Ok (a : A)
| Throw (e : JsError).

Arguments Ok {A} a.
Arguments Throw {A} e.

Definition bind {A B : Type} (m : Res A) (k : A -> Res B) : Res B :=
  match m with
  | Ok a => k a
  | Throw e => Throw e
  end.

Notation "x <- m ;; k" := (bind m (fun x => k))
  (at level 61, m at next level, right associativity).

(** [try { body } catch (err) { handler }] *)
Definition try_catch {A : Type} (body : Res A) (handler : JsError -> Res A) : Res A :=
  match body with
  | Ok a => Ok a
  | Throw e => handler e
  end.

(** ** Strings *)

(** [s.split(sep)] for a separator of one code unit: never empty, one
    more token than there are separators in [s]. *)
Fixpoint split (sep : ascii) (s : string) : list string :=
  match s with
  | EmptyString => [EmptyString]
  | String c rest =>
      if Ascii.eqb c sep then EmptyString :: split sep rest
      else match split sep rest with
           | [] => [String c EmptyString]
           | tok :: toks => String c tok :: toks
           end
  end.

(** The number of occurrences of [sep] in [s]. *)
Fixpoint count_sep (sep : ascii) (s : string) : nat :=
  match s with
  | EmptyString => 0
  | String c rest => (if Ascii.eqb c sep then 1 else 0) + count_sep sep rest
  end.

Definition is_upper (c : ascii) : bool :=
  let n := nat_of_ascii c in (65 <=? n)%nat && (n <=? 90)%nat.

Definition lower_ascii (c : ascii) : ascii :=
  if is_upper c then ascii_of_nat (nat_of_ascii c + 32) else c.

(** [s.toLowerCase()] on the letters A to Z. Other code units are kept:
    the only one outside A to Z that JavaScript lowers to an ASCII letter
    is the Kelvin sign, to k, which is in none of the action names. *)
Fixpoint toLowerCase (s : string) : string :=
  match s with
  | EmptyString => EmptyString
  | String c rest => String (lower_ascii c) (toLowerCase rest)
  end.

(** Equality of two strings up to the case of their letters, code unit by
    code unit. *)
Fixpoint ci_eqb (a b : string) : bool :=
  match a, b with
  | EmptyString, EmptyString => true
  | String x a', String y b' => Ascii.eqb (lower_ascii x) (lower_ascii y) && ci_eqb a' b'
  | _, _ => false
  end.

(** Modelled from the spec: [NSPanelUtils.stringIsNullOrEmpty] of
    [nspanel-utils], which is not among the sources; by its name and its use it
    holds of [null], [undefined] and the empty string. *)
Definition stringIsNullOrEmpty (s : option string) : bool :=
  match s with
  | None => true
  | Some EmptyString => true
  | Some (String _ _) => false
  end.

(** ** ActionCodeTable *)

(** [NSPanelMessageParser.actionStringToNumber]: [result] is declared and
    assigned in the matching case only, so it is [undefined] otherwise. *)
Definition actionStringToNumber (actionString : string) : option Z :=
  let s := toLowerCase actionString in
  if s =? "single" then Some 1%Z
  else if s =? "double" then Some 2%Z
  else if s =? "triple" then Some 3%Z
  else if s =? "quad" then Some 4%Z
  else if s =? "penta" then Some 5%Z
  else None.

(** The table as the design document gives it. *)
Definition ActionCodeTable : list (string * Z) :=
  [("single", 1%Z); ("double", 2%Z); ("triple", 3%Z); ("quad", 4%Z); ("penta", 5%Z)].

(** The table read case-insensitively: the code of the first name equal to
    [s] up to letter case, no value when there is none. *)
Fixpoint lookup_ci (s : string) (table : list (string * Z)) : option Z :=
  match table with
  | [] => None
  | (name, code) :: table' => if ci_eqb s name then Some code else lookup_ci s table'
  end.

(** ** Values of the host *)

#[local] Set Warnings "-register-all".

(** A value [JSON.parse] returns; an object is the list of its own
    properties, each key once. *)
Inductive json (num : Type) : Type :=
| JNull
| JBool (b : bool)
| JNumber (n : num)
| JString (s : string)
| JArray (items : list (json num))
| JObject (props : list (string * json num)).

Arguments JNull {num}.
Arguments JBool {num} b.
Arguments JNumber {num} n.
Arguments JString {num} s.
Arguments JArray {num} items.
Arguments JObject {num} props.

(** What the embedded code calls and the sources do not define: the
    JavaScript built-ins, the [semver] library, and the helpers
    [NSPanelColorUtils.hmiPosToColor] and [NSPanelMessageUtils.toBoolean]
    of this repository. [JSON_parse] is [None] where [JSON.parse] throws
    its [SyntaxError]; [Number] is applied to a string or to [undefined];
    [semver_gt] is [semver.gt], a comparison of two version strings that
    throws (a [TypeError]) on a string that is no semantic version. *)
Class Runtime : Type := {
  JsNum : Type;
  Number : option string -> JsNum;
  Number_isNaN : JsNum -> bool;
  JSON_parse : string -> option (json JsNum);
  Date : Type;
  new_Date : Date;
  RGB : Type;
  HSV : Type;
  hmiPosToColor : JsNum -> JsNum -> RGB * HSV;
  toBoolean : option string -> bool;
  semver_gt : string -> string -> Res bool
}.

(** Modelled from the spec: [FirmwareType] of [types] and its three values
    [FIRMWARE_TASMOTA], [FIRMWARE_BERRYDRIVER], [FIRMWARE_HMI] of
    [nspanel-constants], neither among the sources; the data model has
    exactly the kinds tasmota, berry-driver and hmi. *)
Inductive FirmwareType : Type :=
| FIRMWARE_TASMOTA
| FIRMWARE_BERRYDRIVER
| FIRMWARE_HMI.

(** The string constants of [nspanel-constants] (not among the sources)
    that the embedded code passes along or compares with payload values;
    [FIRMWARE_string] is the string each [FIRMWARE_] constant holds. *)
Class Constants : Type := {
  STR_BERRYDRIVER_CMD_UPDATEDRIVER : string;
  STR_BERRYDRIVER_CMD_FLASHNEXTION : string;
  STR_BERRYDRIVER_CMD_GETVERSION : string;
  STR_LUI_CMD_SUCCESS : string;
  STR_LUI_CMD_ACTIVATE_STARTUP_PAGE : string;
  STR_TASMOTA_CMD_OTAURL : string;
  STR_TASMOTA_CMD_UPGRADE : string;
  STR_TASMOTA_CMD_BACKLOG : string;
  STR_TASMOTA_CMD_RESTART : string;
  STR_TASMOTA_CMD_STATUS : string;
  STR_TASMOTA_PARAM_RESTART_SAVE_TO_FLASH : string;
  STR_UPDATE_NOTIFY_PREFIX : string;
  STR_UPDATE_NOTIFY_ICON : string;
  STR_UPDATE_FIRMWARE_TASMOTA : string;
  STR_UPDATE_FIRMWARE_BERRYDRIVER : string;
  STR_UPDATE_FIRMWARE_HMI : string;
  STR_LUI_NOTIFY_ACTION_YES : string;
  STR_LUI_LINEBREAK : string;
  STR_LUI_COLOR_RED : string;
  STR_LUI_COLOR_GREEN : string;
  FIRMWARE_string : FirmwareType -> string
}.

(** Modelled from the spec: the event names of [nspanel-constants], which
    is not among the sources; the comma protocol of the design document
    names them [startup], [sleepReached], [buttonPress2], [pageOpenDetail]. *)
Definition STR_LUI_EVENT_STARTUP : string := "startup".
Definition STR_LUI_EVENT_SLEEPREACHED : string := "sleepReached".
Definition STR_LUI_EVENT_BUTTONPRESS2 : string := "buttonPress2".
Definition STR_LUI_EVENT_PAGEOPENDETAIL : string := "pageOpenDetail".

(** The outcome an update event carries: ['success'] or ['failed']. *)
Inductive UpdateStatus : Type :=
| success
| failed.

(** ** Events *)

Section Events.
Context {R : Runtime}.

Definition JsValue : Type := json JsNum.

Record HMIVersion : Type := {
  version : option string;
  internalVersion : option string;
  model : option string
}.

(** The [data] field holds a raw string, the [{ raw: [...] }] object of
    the default case, or a parsed payload. *)
Inductive EventData : Type :=
| DataString (s : string)
| DataRaw (raw : list string)
| DataJson (j : JsValue).

(** [EventArgs] with the fields of its variants [StartupEventArgs] and
    [LightEventArgs] that [parseEvent] writes; an absent field is [None]. *)
Record EventArgs : Type := {
  type : string;
  date : option Date;
  event : option string;
  event2 : option string;
  source : option string;
  entityId : option string;
  active : option bool;
  value : option JsNum;
  data : option EventData;
  rgb : option RGB;
  hsv : option HSV;
  hmiVersion : option HMIVersion
}.

(** [FirmwareEventArgs]; [V] is the type of what [version] holds: the
    parser stores the payload's value as it is, the updater reads it as
    the string its declaration says. *)
Record FirmwareEventArgs (V : Type) : Type := {
  fw_type : string;
  fw_source : FirmwareType;
  fw_event : string;
  fw_version : option V;
  fw_status : option UpdateStatus;
  fw_statusMsg : option string
}.

(** What [parse] returns: an [EventArgs] or one of its firmware variant. *)
Inductive AnyEvent : Type :=
| Generic (e : EventArgs)
| Firmware (f : FirmwareEventArgs JsValue).

(** Field assignments [e.f = v]. *)
Definition set_event2 (v : option string) (e : EventArgs) : EventArgs :=
  {| type := type e; date := date e; event := event e; event2 := v;
     source := source e; entityId := entityId e; active := active e;
     value := value e; data := data e; rgb := rgb e; hsv := hsv e;
     hmiVersion := hmiVersion e |}.

Definition set_source (v : option string) (e : EventArgs) : EventArgs :=
  {| type := type e; date := date e; event := event e; event2 := event2 e;
     source := v; entityId := entityId e; active := active e;
     value := value e; data := data e; rgb := rgb e; hsv := hsv e;
     hmiVersion := hmiVersion e |}.

Definition set_entityId (v : option string) (e : EventArgs) : EventArgs :=
  {| type := type e; date := date e; event := event e; event2 := event2 e;
     source := source e; entityId := v; active := active e;
     value := value e; data := data e; rgb := rgb e; hsv := hsv e;
     hmiVersion := hmiVersion e |}.

Definition set_active (v : option bool) (e : EventArgs) : EventArgs :=
  {| type := type e; date := date e; event := event e; event2 := event2 e;
     source := source e; entityId := entityId e; active := v;
     value := value e; data := data e; rgb := rgb e; hsv := hsv e;
     hmiVersion := hmiVersion e |}.

Definition set_value (v : option JsNum) (e : EventArgs) : EventArgs :=
  {| type := type e; date := date e; event := event e; event2 := event2 e;
     source := source e; entityId := entityId e; active := active e;
     value := v; data := data e; rgb := rgb e; hsv := hsv e;
     hmiVersion := hmiVersion e |}.

Definition set_data (v : option EventData) (e : EventArgs) : EventArgs :=
  {| type := type e; date := date e; event := event e; event2 := event2 e;
     source := source e; entityId := entityId e; active := active e;
     value := value e; data := v; rgb := rgb e; hsv := hsv e;
     hmiVersion := hmiVersion e |}.

Definition set_rgb (v : option RGB) (e : EventArgs) : EventArgs :=
  {| type := type e; date := date e; event := event e; event2 := event2 e;
     source := source e; entityId := entityId e; active := active e;
     value := value e; data := data e; rgb := v; hsv := hsv e;
     hmiVersion := hmiVersion e |}.

Definition set_hsv (v : option HSV) (e : EventArgs) : EventArgs :=
  {| type := type e; date := date e; event := event e; event2 := event2 e;
     source := source e; entityId := entityId e; active := active e;
     value := value e; data := data e; rgb := rgb e; hsv := v;
     hmiVersion := hmiVersion e |}.

Definition set_hmiVersion (v : option HMIVersion) (e : EventArgs) : EventArgs :=
  {| type := type e; date := date e; event := event e; event2 := event2 e;
     source := source e; entityId := entityId e; active := active e;
     value := value e; data := data e; rgb := rgb e; hsv := hsv e;
     hmiVersion := v |}.

End Events.

(** ** NSPanelMessageParser *)

Section Parser.
Context {R : Runtime} {K : Constants}.

(** [obj[key]] on a parsed payload: the own property of an object,
    [undefined] on anything else. *)
Fixpoint assoc (key : string) (props : list (string * JsValue)) : option JsValue :=
  match props with
  | [] => None
  | (k, v) :: props' => if k =? key then Some v else assoc key props'
  end.

Definition get_prop (key : string) (input : JsValue) : option JsValue :=
  match input with
  | JObject props => assoc key props
  | _ => None
  end.

(** Modelled from the spec: [NSPanelMessageUtils.hasProperty] of
    [nspanel-message-utils], which is not among the sources; the design
    document reads it as the parsed object carrying the field. *)
Definition hasProperty (input : JsValue) (key : string) : bool :=
  match get_prop key input with
  | Some _ => true
  | None => false
  end.

(** [key in temp]: a [TypeError] on a primitive, the presence of the key
    on an object; an array has neither of the two keys [parse] asks for. *)
Definition in_operator (key : string) (temp : JsValue) : Res bool :=
  match temp with
  | JObject props => Ok (match assoc key props with Some _ => true | None => false end)
  | JArray _ => Ok false
  | _ => Throw TypeError
  end.

(** [v.split(',')] on a property value: only a string has the method. *)
Definition split_value (sep : ascii) (v : option JsValue) : Res (list string) :=
  match v with
  | Some (JString s) => Ok (split sep s)
  | _ => Throw TypeError
  end.

(** [parseEvent]; the [log.debug] call at its end has no effect on the
    result. *)
Definition parseEvent (parts : list string) : EventArgs :=
  let eventArgs :=
    {| type := "event"; date := Some new_Date;
       event := nth_error parts 1; event2 := None;
       source := nth_error parts 2; entityId := None; active := None;
       value := None; data := None; rgb := None; hsv := None;
       hmiVersion := None |} in
  let default := set_data (Some (DataRaw (skipn 2 parts))) eventArgs in
  match nth_error parts 1 with
  | None => default
  | Some name =>
    if name =? STR_LUI_EVENT_STARTUP then
      set_hmiVersion
        (Some {| version := None; internalVersion := nth_error parts 2;
                 model := nth_error parts 3 |})
        (set_source (Some "hmi") eventArgs)
    else if name =? STR_LUI_EVENT_SLEEPREACHED then eventArgs
    else if name =? STR_LUI_EVENT_BUTTONPRESS2 then
      let eventArgs := set_event2 (nth_error parts 3) eventArgs in
      (* normalize eventArgs *)
      let eventArgs :=
        match nth_error parts 3 with
        | None => eventArgs
        | Some kind =>
          if kind =? "button" then
            set_entityId (nth_error parts 2)
              (set_event2 (nth_error parts 2)
                 (set_source (nth_error parts 3) eventArgs))
          else if kind =? "OnOff" then
            set_active (if toBoolean (nth_error parts 4) then Some true else None)
              (set_entityId (nth_error parts 2)
                 (set_source (nth_error parts 2) eventArgs))
          else if kind =? "number-set" then
            let eventArgs :=
              set_source (nth_error parts 2)
                (set_entityId (nth_error parts 2) eventArgs) in
            let n := Number (nth_error parts 4) in
            if Number_isNaN n
            then set_data (option_map DataString (nth_error parts 4)) eventArgs
            else set_value (Some n) eventArgs
          else if kind =? "colorWheel" then
            let lightEventArgs := set_event2 (Some "color") eventArgs in
            let colorDataStr := nth_error parts 4 in
            let colorDataArr :=
              if stringIsNullOrEmpty colorDataStr then []
              else match colorDataStr with
                   | Some s => split "|" s
                   | None => []
                   end in
            if (List.length colorDataArr =? 3)%nat then
              let colorData := map (fun v => Number (Some v)) colorDataArr in
              let colorTuple :=
                hmiPosToColor (nth 0 colorData (Number None))
                              (nth 1 colorData (Number None)) in
              set_hsv (Some (snd colorTuple))
                (set_rgb (Some (fst colorTuple)) lightEventArgs)
            else lightEventArgs
          else if kind =? "positionSlider" then set_event2 (Some "position") eventArgs
          else if kind =? "tiltSlider" then set_event2 (Some "tilt") eventArgs
          else eventArgs
        end in
      if (List.length parts =? 5)%nat then
        let n := Number (nth_error parts 4) in
        if Number_isNaN n
        then set_data (option_map DataString (nth_error parts 4)) eventArgs
        else set_value (Some n) eventArgs
      else eventArgs
    else if name =? STR_LUI_EVENT_PAGEOPENDETAIL then
      set_entityId (nth_error parts 3) eventArgs
    else default
  end.

(** [parseCustomMessage] *)
Definition parseCustomMessage (parts : list string) : EventArgs :=
  let result :=
    {| type := "event"; date := None; event := Some ""; event2 := Some "";
       source := Some ""; entityId := None; active := None; value := None;
       data := None; rgb := None; hsv := None; hmiVersion := None |} in
  match nth_error parts 0 with
  | Some head => if head =? "event" then parseEvent parts else result
  | None => result
  end.

(** [x != null] on a property value. *)
Definition not_nullish (v : option JsValue) : bool :=
  match v with
  | None => false
  | Some JNull => false
  | Some _ => true
  end.

(** [parseNluiDriverEvent] *)
Definition parseNluiDriverEvent (input : JsValue) : option (FirmwareEventArgs JsValue) :=
  if hasProperty input "nlui_driver_version" then
    let version := get_prop "nlui_driver_version" input in
    if not_nullish version then
      Some {| fw_type := "fw"; fw_source := FIRMWARE_BERRYDRIVER;
              fw_event := "version"; fw_version := version;
              fw_status := None; fw_statusMsg := None |}
    else None
  else None.

(** [STR_LUI_CMD_SUCCESS === cmdResult] *)
Definition is_success_literal (cmdResult : option JsValue) : bool :=
  match cmdResult with
  | Some (JString s) => STR_LUI_CMD_SUCCESS =? s
  | _ => false
  end.

(** [parseBerryDriverUpdateEvent]; [key] and [source] are [null] until
    one of the two branches sets both. *)
Definition parseBerryDriverUpdateEvent (input : JsValue) : option (FirmwareEventArgs JsValue) :=
  let key_source : option (string * FirmwareType) :=
    if hasProperty input STR_BERRYDRIVER_CMD_UPDATEDRIVER
    then Some (STR_BERRYDRIVER_CMD_UPDATEDRIVER, FIRMWARE_BERRYDRIVER)
    else if hasProperty input STR_BERRYDRIVER_CMD_FLASHNEXTION
    then Some (STR_BERRYDRIVER_CMD_FLASHNEXTION, FIRMWARE_HMI)
    else None in
  match key_source with
  | Some (key, source) =>
      let cmdResult := get_prop key input in
      Some {| fw_type := "fw"; fw_source := source; fw_event := "update";
              fw_version := None;
              fw_status := if is_success_literal cmdResult then Some success else None;
              fw_statusMsg := None |}
  | None => None
  end.

(** [ev.data = payloadStr] on an event object; the firmware variant of
    this embedding has no [data] field to show it. *)
Definition assign_data (payloadStr : string) (ev : AnyEvent) : AnyEvent :=
  match ev with
  | Generic e => Generic (set_data (Some (DataString payloadStr)) e)
  | Firmware f => Firmware f
  end.

(** [parse]. The variable [result] is [null] when the [try] block is
    entered and is assigned only by the last step of each branch, so it
    is still [null] whenever the [catch] block runs; the assignment
    [result.data = payloadStr] there is a write through [null]. *)
Definition parse (payloadStr : string) : Res (option AnyEvent) :=
  let result : option AnyEvent := None in
  try_catch
    (temp <- match JSON_parse payloadStr with
             | Some v => Ok v
             | None => Throw SyntaxError
             end ;;
     hasCustomRecv <- in_operator "CustomRecv" temp ;;
     if hasCustomRecv : bool then
       parts <- split_value "," (get_prop "CustomRecv" temp) ;;
       Ok (Some (Generic (parseCustomMessage parts)))
     else
       hasVersion <- in_operator "nlui_driver_version" temp ;;
       if hasVersion : bool then
         Ok (option_map Firmware (parseNluiDriverEvent temp))
       else
         Ok (Some (Generic
           {| type := "unknown"; date := None; event := Some ""; event2 := None;
              source := Some ""; entityId := None; active := None;
              value := None; data := Some (DataJson temp); rgb := None;
              hsv := None; hmiVersion := None |})))
    (fun _ =>
       match result with
       | None => Throw TypeError
       | Some ev => Ok (Some (assign_data payloadStr ev))
       end).

End Parser.

(** ** NSPanelUpdater: data *)

(** The record [{ version }] the updater stores for tasmota and for the
    berry driver. *)
Module VersionData.
Record t : Type := mk { version : string }.
End VersionData.

(** [PanelVersionData]; the [hmi] slot receives an [HMIVersion] from
    [setHmiVersion] and [{ internalVersion, version }] from the fetch. *)
Record PanelVersionData : Type := {
  tasmota : option VersionData.t;
  berryDriver : option VersionData.t;
  hmi : option HMIVersion
}.

(** The enum [VersionAcquisitionStatus], a bit mask. *)
Module VersionAcquisitionStatus.
Definition TasmotaVersionCurrent : Z := 1.
Definition TasmotaVersionLatest : Z := 2.
Definition BerryDriverVersionCurrent : Z := 4.
Definition BerryDriverVersionLatest : Z := 8.
Definition HmiVersionCurrent : Z := 16.
Definition HmiVersionLatest : Z := 32.
Definition AllAcquired : Z := Z.lnot (Z.shiftl (Z.lnot 0) 6).
Definition TasmotaUpdateAvailable : Z := 64.
Definition BerryDriverUpdateAvailable : Z := 128.
Definition HmiUpdateAvailable : Z := 256.
Definition None : Z := 0.
End VersionAcquisitionStatus.

(** [UpdateVersionData], with [versions.current] and [versions.latest]
    side by side. *)
Record UpdateVersionData : Type := {
  current : PanelVersionData;
  latest : PanelVersionData;
  versionAcquisitionStatus : Z
}.

(** The fields of an [NSPanelUpdater]. [_mqttHandler] is [false] for
    [null]; [_updateTaskStack] is the array in its order, [push] and [pop]
    work at its end. *)
Record NSPanelUpdater : Type := {
  _mqttHandler : bool;
  _i18n : string -> string;
  autoUpdate : bool;
  _updateInProgress : bool;
  _updateTaskStack : list FirmwareType;
  _updateVersionData : UpdateVersionData
}.

Record NotifyData : Type := {
  notifyId : string;
  icon : string;
  text : string;
  heading : string;
  headingColor : string;
  timeout : Z;
  fontSize : Z;
  cancelColor : string;
  cancelText : string;
  okColor : string;
  okText : string
}.

(** What a method does to the outside, in the order it does it. *)
Inductive Effect : Type :=
| sendCommandToPanel (cmd payload : string)
| sendToPanel (payload : string)
| axios_get (url : string)
| showNotification (n : NotifyData)
| log_info (msg : string)
| log_error (msg : string) (about : Z + JsError).

Definition set_updateInProgress (v : bool) (self : NSPanelUpdater) : NSPanelUpdater :=
  {| _mqttHandler := _mqttHandler self; _i18n := _i18n self;
     autoUpdate := autoUpdate self; _updateInProgress := v;
     _updateTaskStack := _updateTaskStack self;
     _updateVersionData := _updateVersionData self |}.

Definition set_updateTaskStack (v : list FirmwareType) (self : NSPanelUpdater) : NSPanelUpdater :=
  {| _mqttHandler := _mqttHandler self; _i18n := _i18n self;
     autoUpdate := autoUpdate self; _updateInProgress := _updateInProgress self;
     _updateTaskStack := v;
     _updateVersionData := _updateVersionData self |}.

Definition set_updateVersionData (v : UpdateVersionData) (self : NSPanelUpdater) : NSPanelUpdater :=
  {| _mqttHandler := _mqttHandler self; _i18n := _i18n self;
     autoUpdate := autoUpdate self; _updateInProgress := _updateInProgress self;
     _updateTaskStack := _updateTaskStack self;
     _updateVersionData := v |}.

Definition status (self : NSPanelUpdater) : Z :=
  versionAcquisitionStatus (_updateVersionData self).

Definition set_status (v : Z) (self : NSPanelUpdater) : NSPanelUpdater :=
  let d := _updateVersionData self in
  set_updateVersionData
    {| current := current d; latest := latest d; versionAcquisitionStatus := v |} self.

(** [versionAcquisitionStatus |= flag] *)
Definition or_status (flag : Z) (self : NSPanelUpdater) : NSPanelUpdater :=
  set_status (Z.lor (status self) flag) self.

Definition set_current (v : PanelVersionData) (self : NSPanelUpdater) : NSPanelUpdater :=
  let d := _updateVersionData self in
  set_updateVersionData
    {| current := v; latest := latest d;
       versionAcquisitionStatus := versionAcquisitionStatus d |} self.

Definition set_latest (v : PanelVersionData) (self : NSPanelUpdater) : NSPanelUpdater :=
  let d := _updateVersionData self in
  set_updateVersionData
    {| current := current d; latest := v;
       versionAcquisitionStatus := versionAcquisitionStatus d |} self.

(** [stack.push(task)] *)
Definition push (task : FirmwareType) (self : NSPanelUpdater) : NSPanelUpdater :=
  set_updateTaskStack (_updateTaskStack self ++ [task]) self.

(** [stack.pop()]: the last element and the array without it, [undefined]
    and the array as it is when it is empty. *)
Definition pop (self : NSPanelUpdater) : option FirmwareType * NSPanelUpdater :=
  match rev (_updateTaskStack self) with
  | [] => (None, self)
  | task :: below => (Some task, set_updateTaskStack (rev below) self)
  end.

(** [this._mqttHandler?.f(...)]: nothing is sent without a handler. *)
Definition mqtt (self : NSPanelUpdater) (sent : list Effect) : list Effect :=
  if _mqttHandler self then sent else [].

Definition URL_TASMOTA_RELEASES_LATEST_META : string :=
  "https://api.github.com/repositories/80286288/releases/latest".
Definition URL_BERRYDRIVER_LATEST : string :=
  "https://raw.githubusercontent.com/joBr99/nspanel-lovelace-ui/main/tasmota/autoexec.be".
Definition URL_NLUI_LATEST : string :=
  "https://raw.githubusercontent.com/joBr99/nspanel-lovelace-ui/main/apps/nspanel-lovelace-ui/nspanel-lovelace-ui.py".

(** ** NSPanelUpdater: update tasks *)

Section Updater.
Context {R : Runtime} {K : Constants}.

(** [_updateHmi] *)
Definition _updateHmi (self : NSPanelUpdater) : NSPanelUpdater * list Effect :=
  if _updateInProgress self then (push FIRMWARE_HMI self, [])
  else
    let hmiFirmwareUrl := "http://nspanel.pky.eu/lui-release.tft" in
    (set_updateInProgress true self,
     log_info "Initiating flashing NSPanel HMI firmware"
       :: mqtt self [sendCommandToPanel STR_BERRYDRIVER_CMD_FLASHNEXTION hmiFirmwareUrl]).

(** [_updateBerryDriver] *)
Definition _updateBerryDriver (self : NSPanelUpdater) : NSPanelUpdater * list Effect :=
  if _updateInProgress self then (push FIRMWARE_BERRYDRIVER self, [])
  else
    let updCmd :=
      (STR_TASMOTA_CMD_BACKLOG ++ " " ++ STR_BERRYDRIVER_CMD_UPDATEDRIVER ++ " "
       ++ URL_BERRYDRIVER_LATEST ++ "; " ++ STR_TASMOTA_CMD_RESTART ++ " "
       ++ STR_TASMOTA_PARAM_RESTART_SAVE_TO_FLASH)%string in
    (set_updateInProgress true self,
     log_info "Updating NSPanel BerryDriver "
       :: mqtt self [sendCommandToPanel STR_TASMOTA_CMD_BACKLOG updCmd]).

(** [_updateTasmotaFirmware] *)
Definition _updateTasmotaFirmware (self : NSPanelUpdater) : NSPanelUpdater * list Effect :=
  if _updateInProgress self then (push FIRMWARE_TASMOTA self, [])
  else
    let otaUrl := "http://ota.tasmota.com/tasmota32/release/tasmota32-nspanel.bin" in
    (set_updateInProgress true self,
     mqtt self [sendCommandToPanel STR_TASMOTA_CMD_OTAURL otaUrl]
       ++ mqtt self [sendCommandToPanel STR_TASMOTA_CMD_UPGRADE "1"]).

(** [processUpdateTasks]: [undefined], popped from an empty array,
    matches no case. *)
Definition processUpdateTasks (self : NSPanelUpdater) : NSPanelUpdater * list Effect :=
  let (fwTask, self) := pop self in
  match fwTask with
  | Some FIRMWARE_TASMOTA => _updateTasmotaFirmware self
  | Some FIRMWARE_BERRYDRIVER => _updateBerryDriver self
  | Some FIRMWARE_HMI => _updateHmi self
  | None => (self, [])
  end.

(** [setTasmotaVersion]: the text before the first opening parenthesis,
    when there is one after the first code unit. *)
Definition setTasmotaVersion (tasmotaVersion : option string) (self : NSPanelUpdater) : NSPanelUpdater :=
  match tasmotaVersion with
  | Some tasmotaVersion =>
      let tV :=
        match index 0 "(" tasmotaVersion with
        | Some (S n) => substring 0 (S n) tasmotaVersion
        | _ => tasmotaVersion
        end in
      let c := current (_updateVersionData self) in
      or_status VersionAcquisitionStatus.TasmotaVersionCurrent
        (set_current
           {| tasmota := Some (VersionData.mk tV); berryDriver := berryDriver c;
              hmi := hmi c |} self)
  | None => self
  end.

(** [setBerryDriverVersion] *)
Definition setBerryDriverVersion (version : option string) (self : NSPanelUpdater) : NSPanelUpdater :=
  match version with
  | Some version =>
      let c := current (_updateVersionData self) in
      or_status VersionAcquisitionStatus.BerryDriverVersionCurrent
        (set_current
           {| tasmota := tasmota c; berryDriver := Some (VersionData.mk version);
              hmi := hmi c |} self)
  | None => self
  end.

(** [setHmiVersion] *)
Definition setHmiVersion (hmiVersion : HMIVersion) (self : NSPanelUpdater) : NSPanelUpdater :=
  let c := current (_updateVersionData self) in
  or_status VersionAcquisitionStatus.HmiVersionCurrent
    (set_current
       {| tasmota := tasmota c; berryDriver := berryDriver c;
          hmi := Some hmiVersion |} self).

(** [onFirmwareEvent]; [fwEvent?.event] of a missing event matches no
    case. *)
Definition onFirmwareEvent (fwEvent : option (FirmwareEventArgs string))
    (self : NSPanelUpdater) : NSPanelUpdater * list Effect :=
  match fwEvent with
  | None => (self, [])
  | Some fwEvent =>
    if fw_event fwEvent =? "version" then
      if FIRMWARE_string (fw_source fwEvent) =? STR_UPDATE_FIRMWARE_TASMOTA
      then (setTasmotaVersion (fw_version fwEvent) self, [])
      else if FIRMWARE_string (fw_source fwEvent) =? STR_UPDATE_FIRMWARE_BERRYDRIVER
      then (setBerryDriverVersion (fw_version fwEvent) self, [])
      else (self, [])
    else if fw_event fwEvent =? "update" then
      match fw_status fwEvent with
      | Some success => processUpdateTasks (set_updateInProgress false self)
      | _ => (self, [])
      end
    else (self, [])
  end.

(** [onUpdateNotificationResult] *)
Definition onUpdateNotificationResult (notifyId action : option string)
    (self : NSPanelUpdater) : NSPanelUpdater * list Effect :=
  match notifyId, action with
  | Some id, Some act =>
    if negb (stringIsNullOrEmpty notifyId) && negb (stringIsNullOrEmpty action)
       && (STR_LUI_NOTIFY_ACTION_YES =? act)
    then
      let confirmedFirmware :=
        if prefix STR_UPDATE_NOTIFY_PREFIX id
        then Some (substring (String.length STR_UPDATE_NOTIFY_PREFIX)
                     (String.length id - String.length STR_UPDATE_NOTIFY_PREFIX) id)
        else None in
      let self :=
        match confirmedFirmware with
        | Some fw =>
            if fw =? STR_UPDATE_FIRMWARE_TASMOTA then push FIRMWARE_TASMOTA self
            else if fw =? STR_UPDATE_FIRMWARE_BERRYDRIVER then push FIRMWARE_BERRYDRIVER self
            else if fw =? STR_UPDATE_FIRMWARE_HMI then push FIRMWARE_HMI self
            else self
        | None => self
        end in
      processUpdateTasks self
    else (self, [])
  | _, _ => (self, [])
  end.

End Updater.

(** The commands among the effects, in their order. *)
Fixpoint commands (done : list Effect) : list (string * string) :=
  match done with
  | [] => []
  | sendCommandToPanel cmd payload :: done' => (cmd, payload) :: commands done'
  | _ :: done' => commands done'
  end.

Section UpdateProcedures.
Context {K : Constants}.

(** The update procedure of each firmware as the design document lists
    it: the commands and their payloads. *)
Definition update_procedure (task : FirmwareType) : list (string * string) :=
  match task with
  | FIRMWARE_TASMOTA =>
      [(STR_TASMOTA_CMD_OTAURL, "http://ota.tasmota.com/tasmota32/release/tasmota32-nspanel.bin");
       (STR_TASMOTA_CMD_UPGRADE, "1")]
  | FIRMWARE_BERRYDRIVER =>
      [(STR_TASMOTA_CMD_BACKLOG,
        (STR_TASMOTA_CMD_BACKLOG ++ " " ++ STR_BERRYDRIVER_CMD_UPDATEDRIVER ++ " "
         ++ URL_BERRYDRIVER_LATEST ++ "; " ++ STR_TASMOTA_CMD_RESTART ++ " "
         ++ STR_TASMOTA_PARAM_RESTART_SAVE_TO_FLASH)%string)]
  | FIRMWARE_HMI =>
      [(STR_BERRYDRIVER_CMD_FLASHNEXTION, "http://nspanel.pky.eu/lui-release.tft")]
  end.

End UpdateProcedures.

(** ** NSPanelUpdater: version acquisition *)

(** [a > b] on two strings: the order of their code units, a proper
    prefix before its extensions. *)
Definition string_gt (a b : string) : bool := String.ltb b a.

(** [a > b] where either side may be [undefined], which compares as
    [NaN]: no order holds. *)
Definition js_gt (a b : option string) : bool :=
  match a, b with
  | Some a, Some b => string_gt a b
  | _, _ => false
  end.

(** The state of the promise [_acquireVersions] returns: resolved with
    the status, rejected with the status, or rejected with an exception
    of the executor. *)
Inductive PromiseState : Type :=
| Pending
| Resolved (versionAcquisitionStatus : Z)
| Rejected (versionAcquisitionStatus : Z)
| RejectedWith (e : JsError).

(** One acquisition under way: the updater, the counter [i] of the
    closure, the promise, the updater as it was when the promise settled
    (its reactions run on it), whether a call of
    [waitForDataAcquisition] is scheduled 1000 ms ahead, the status each
    call so far has found, and what was done to the outside. *)
Record Acquisition : Type := {
  self : NSPanelUpdater;
  i : Z;
  promise : PromiseState;
  settled : option NSPanelUpdater;
  timer : bool;
  seen : list Z;
  out : list Effect
}.

(** What reaches the updater while it waits. The two text fetches arrive
    as the groups their regular expression matched, [None] without a
    match. *)
Inductive Incoming : Type :=
| FirmwareEvent (fwEvent : option (FirmwareEventArgs string))
| HmiVersionEvent (hmiVersion : HMIVersion)
| UpdateNotificationResult (notifyId action : option string)
| TasmotaReleaseResponse (tag_name : option string)
| BerryDriverResponse (version : option string)
| NluiResponse (groups : option (string * string)).

Section Acquire.
Context {R : Runtime} {K : Constants}.

(** The body of the [if] that finds all six versions: the three
    comparisons in their order; [semver.gt] may throw, and reading a
    field of a [null] record throws, with the flags set so far kept. *)
Definition computeUpdateAvailable (self : NSPanelUpdater) : NSPanelUpdater * Res unit :=
  match tasmota (latest (_updateVersionData self)),
        tasmota (current (_updateVersionData self)) with
  | Some l, Some c =>
    match semver_gt (VersionData.version l) (VersionData.version c) with
    | Throw e => (self, Throw e)
    | Ok newer =>
      let self :=
        if newer : bool
        then or_status VersionAcquisitionStatus.TasmotaUpdateAvailable self
        else self in
      match berryDriver (latest (_updateVersionData self)),
            berryDriver (current (_updateVersionData self)) with
      | Some l, Some c =>
        let self :=
          if string_gt (VersionData.version l) (VersionData.version c)
          then or_status VersionAcquisitionStatus.BerryDriverUpdateAvailable self
          else self in
        match hmi (latest (_updateVersionData self)),
              hmi (current (_updateVersionData self)) with
        | Some l, Some c =>
          let self :=
            if js_gt (internalVersion l) (internalVersion c)
            then or_status VersionAcquisitionStatus.HmiUpdateAvailable self
            else self in
          (self, Ok tt)
        | _, _ => (self, Throw TypeError)
        end
      | _, _ => (self, Throw TypeError)
      end
    end
  | _, _ => (self, Throw TypeError)
  end.

(** [resolve(v)] and [reject(v)]: a settled promise stays as it is. *)
Definition settle (p : PromiseState) (a : Acquisition) : Acquisition :=
  match promise a with
  | Pending =>
      {| self := self a; i := i a; promise := p; settled := Some (self a);
         timer := timer a; seen := seen a; out := out a |}
  | _ => a
  end.

(** One call of [waitForDataAcquisition]; the second component is the
    exception it ends with, if any. *)
Definition waitForDataAcquisition (a : Acquisition) : Acquisition * Res unit :=
  let found := status (self a) in
  if (Z.land found VersionAcquisitionStatus.AllAcquired =? VersionAcquisitionStatus.AllAcquired)%Z
  then
    let (self', r) := computeUpdateAvailable (self a) in
    let a' := {| self := self'; i := i a; promise := promise a; settled := settled a;
                 timer := false; seen := seen a ++ [found]; out := out a |} in
    match r with
    | Ok _ => (settle (Resolved (status self')) a', Ok tt)
    | Throw e => (a', Throw e)
    end
  else
    let a' := {| self := self a; i := (i a - 1)%Z; promise := promise a;
                 settled := settled a; timer := true;
                 seen := seen a ++ [found]; out := out a |} in
    (if (i a' =? 0)%Z then settle (Rejected (status (self a'))) a' else a', Ok tt).

(** A response of one of the three fetches of [getLatestVersion]. *)
Definition onTasmotaRelease (tag_name : option string) (self : NSPanelUpdater) : NSPanelUpdater :=
  match tag_name with
  | Some tag_name =>
      let tasmotaVersionLatest := substring 1 (String.length tag_name - 1) tag_name in
      let l := latest (_updateVersionData self) in
      or_status VersionAcquisitionStatus.TasmotaVersionLatest
        (set_latest
           {| tasmota := Some (VersionData.mk tasmotaVersionLatest);
              berryDriver := berryDriver l; hmi := hmi l |} self)
  | None => self
  end.

Definition onBerryDriverLatest (version : option string) (self : NSPanelUpdater) : NSPanelUpdater :=
  match version with
  | Some version =>
      let l := latest (_updateVersionData self) in
      or_status VersionAcquisitionStatus.BerryDriverVersionLatest
        (set_latest
           {| tasmota := tasmota l; berryDriver := Some (VersionData.mk version);
              hmi := hmi l |} self)
  | None => self
  end.

(** A string in a condition: every string but the empty one holds. *)
Definition truthy (s : string) : bool :=
  match s with
  | EmptyString => false
  | String _ _ => true
  end.

Definition onNluiLatest (groups : option (string * string)) (self : NSPanelUpdater) : NSPanelUpdater :=
  match groups with
  | Some (internalVersion, version) =>
      if truthy internalVersion then
        let l := latest (_updateVersionData self) in
        or_status VersionAcquisitionStatus.HmiVersionLatest
          (set_latest
             {| tasmota := tasmota l; berryDriver := berryDriver l;
                hmi := Some {| version := Some version;
                               internalVersion := Some internalVersion;
                               model := None |} |} self)
      else self
  | None => self
  end.

(** The updater's handler for each thing that reaches it. *)
Definition deliver (m : Incoming) (self : NSPanelUpdater) : NSPanelUpdater * list Effect :=
  match m with
  | FirmwareEvent fwEvent => onFirmwareEvent fwEvent self
  | HmiVersionEvent hmiVersion => (setHmiVersion hmiVersion self, [])
  | UpdateNotificationResult notifyId action => onUpdateNotificationResult notifyId action self
  | TasmotaReleaseResponse tag_name => (onTasmotaRelease tag_name self, [])
  | BerryDriverResponse version => (onBerryDriverLatest version self, [])
  | NluiResponse groups => (onNluiLatest groups self, [])
  end.

Definition deliver_to (m : Incoming) (a : Acquisition) : Acquisition :=
  let (self', done) := deliver m (self a) in
  {| self := self'; i := i a; promise := promise a; settled := settled a;
     timer := timer a; seen := seen a; out := out a ++ done |}.

(** The timer fires: the scheduled call runs; an exception it ends with
    is caught by no one and leaves the promise as it is. *)
Definition fire (a : Acquisition) : Acquisition :=
  if timer a then fst (waitForDataAcquisition a) else a.

(** The second after a call: what arrives during it, then the timer. *)
Definition second (arriving : list Incoming) (a : Acquisition) : Acquisition :=
  fire (fold_left (fun a m => deliver_to m a) arriving a).

(** The four requests for versions: what each sends. *)
Definition getCurrentTasmotaVersion (self : NSPanelUpdater) : list Effect :=
  mqtt self [sendCommandToPanel STR_TASMOTA_CMD_STATUS "2"].

Definition getCurrentBerryDriverVersion (self : NSPanelUpdater) : list Effect :=
  mqtt self [sendCommandToPanel STR_BERRYDRIVER_CMD_GETVERSION "x"].

Definition getCurrentHmiVersion (self : NSPanelUpdater) : list Effect :=
  mqtt self [sendToPanel STR_LUI_CMD_ACTIVATE_STARTUP_PAGE].

Definition getLatestVersion : list Effect :=
  [axios_get URL_TASMOTA_RELEASES_LATEST_META;
   axios_get URL_BERRYDRIVER_LATEST;
   axios_get URL_NLUI_LATEST].

(** [_acquireVersions], followed for as many seconds as [arriving] has
    entries. The status is reset, the four requests go out, [i] is 10,
    and the executor of the promise makes the first call at once; an
    exception of that call rejects the promise. *)
Definition _acquireVersions (self0 : NSPanelUpdater) (arriving : list (list Incoming)) : Acquisition :=
  let self1 := set_status VersionAcquisitionStatus.None self0 in
  let requests :=
    getCurrentTasmotaVersion self1
    ++ getCurrentBerryDriverVersion self1
    ++ getCurrentHmiVersion self1
    ++ getLatestVersion in
  let a0 := {| self := self1; i := 10%Z; promise := Pending; settled := None;
               timer := false; seen := []; out := requests |} in
  let a1 :=
    match waitForDataAcquisition a0 with
    | (a, Ok _) => a
    | (a, Throw e) => settle (RejectedWith e) a
    end in
  fold_left (fun a arr => second arr a) arriving a1.

End Acquire.

(** ** NSPanelUpdater: checkForUpdates *)

Section CheckForUpdates.
Context {R : Runtime} {K : Constants}.

(** [showUpdateNotification]; [_panelController], declared without
    [null] and set by the constructor, is there to show the notification. *)
Definition showUpdateNotification (self : NSPanelUpdater)
    (notifyId notifyTextMain currentVersion latestVersion : string) : list Effect :=
  let instruction : string :=
    (notifyTextMain ++ STR_LUI_LINEBREAK ++ STR_LUI_LINEBREAK
     ++ _i18n self "nspanel-controller.panel.currentFirmwareVersionPrefix"
     ++ currentVersion ++ STR_LUI_LINEBREAK
     ++ _i18n self "nspanel-controller.panel.newFirmwareVersionPrefix"
     ++ latestVersion ++ STR_LUI_LINEBREAK ++ STR_LUI_LINEBREAK
     ++ _i18n self "nspanel-controller.panel.newFirmwarPerformUpdate")%string in
  let notifyData :=
    {| notifyId := (STR_UPDATE_NOTIFY_PREFIX ++ notifyId)%string;
       icon := STR_UPDATE_NOTIFY_ICON;
       text := instruction;
       heading := _i18n self "nspanel-controller.panel.newFirmwareTitle";
       headingColor := STR_LUI_COLOR_RED;
       timeout := 0%Z;
       fontSize := 0%Z;
       cancelColor := STR_LUI_COLOR_RED;
       cancelText := _i18n self "nspanel-controller.panel.btnTextNo";
       okColor := STR_LUI_COLOR_GREEN;
       okText := _i18n self "nspanel-controller.panel.btnTextYes" |} in
  [showNotification notifyData].

(** [status & flag] as a condition. *)
Definition has_flag (flag : Z) (self : NSPanelUpdater) : bool :=
  negb (Z.land (status self) flag =? 0)%Z.

(** A string or [undefined], respectively [null], inside a text. *)
Definition text_of_undefined (s : option string) : string :=
  match s with Some s => s | None => "undefined" end.

Definition text_of_null (s : option string) : string :=
  match s with Some s => s | None => "null" end.

(** The four variables [notifyId], [notifyTextMain], [currentVersion],
    [latestVersion] of the [then] callback, assigned together. *)
Definition Notice : Type := (string * string * string * string)%type.

(** A field of a version record, [TypeError] when the record is [null]. *)
Definition of_record {A B : Type} (r : option A) (f : A -> B) : Res B :=
  match r with
  | Some x => Ok (f x)
  | None => Throw TypeError
  end.

(** The callback [checkForUpdates] passes to [then]: three [if]
    statements in a row assign the four variables, each over the one
    before; at most one notification is shown after them. *)
Definition checkForUpdates_then (self : NSPanelUpdater) : Res (list Effect) :=
  if negb (autoUpdate self) then
    let d := _updateVersionData self in
    let n : option Notice := None in
    n <- (if has_flag VersionAcquisitionStatus.HmiUpdateAvailable self then
            currentVersion <- of_record (hmi (current d)) internalVersion ;;
            latestVersion <- of_record (hmi (latest d))
              (fun l => (text_of_null (version l) ++ " ("
                         ++ text_of_undefined (internalVersion l) ++ ")")%string) ;;
            Ok (Some (STR_UPDATE_FIRMWARE_HMI,
                      _i18n self "nspanel-controller.panel.newHmiTextMain",
                      text_of_undefined currentVersion, latestVersion))
          else Ok n) ;;
    n <- (if has_flag VersionAcquisitionStatus.BerryDriverUpdateAvailable self then
            currentVersion <- of_record (berryDriver (current d)) VersionData.version ;;
            latestVersion <- of_record (berryDriver (latest d)) VersionData.version ;;
            Ok (Some (STR_UPDATE_FIRMWARE_BERRYDRIVER,
                      _i18n self "nspanel-controller.panel.newBerryDriverTextMain",
                      currentVersion, latestVersion))
          else Ok n) ;;
    n <- (if has_flag VersionAcquisitionStatus.TasmotaUpdateAvailable self then
            currentVersion <- of_record (tasmota (current d)) VersionData.version ;;
            latestVersion <- of_record (tasmota (latest d)) VersionData.version ;;
            Ok (Some (STR_UPDATE_FIRMWARE_TASMOTA,
                      _i18n self "nspanel-controller.panel.newFirmwareTasmotaTextMain",
                      currentVersion, latestVersion))
          else Ok n) ;;
    match n with
    | Some (notifyId, notifyTextMain, currentVersion, latestVersion) =>
        Ok (showUpdateNotification self notifyId notifyTextMain currentVersion latestVersion)
    | None => Ok []
    end
  else Ok [].

(** [checkForUpdates], followed for the seconds of [arriving]: the
    requests [_acquireVersions] sends before it returns the promise,
    then what the reactions of the promise do. An exception of the
    [then] callback reaches the [catch] callback like a rejection. *)
Definition checkForUpdates (self0 : NSPanelUpdater) (arriving : list (list Incoming)) : list Effect :=
  let a := _acquireVersions self0 arriving in
  let sent := out (_acquireVersions self0 []) in
  let msg := "Could not acquire version data " in
  sent
  ++ match promise a, settled a with
     | Resolved _, Some self =>
         match checkForUpdates_then self with
         | Ok done => done
         | Throw e => [log_error msg (inr e)]
         end
     | Rejected versionAcquisitionStatus, _ => [log_error msg (inl versionAcquisitionStatus)]
     | RejectedWith e, _ => [log_error msg (inr e)]
     | _, _ => []
     end.

End CheckForUpdates.

(** ** An instance to run the code on

    The theorems below hold for every [Runtime] and every [Constants].
    To evaluate the code on concrete payloads this section fixes one of
    each: numbers are integers, [JSON.parse] reads the JSON texts whose
    strings have no escape and whose numbers are integers and has no
    result on any other text, [semver.gt] orders the versions of three
    dotted numbers and throws on every other string. The strings given
    to the constants are examples. *)

Module Sample.

Inductive num : Type :=
| NaN
| Int (z : Z).

Definition is_digit (c : ascii) : bool :=
  let n := nat_of_ascii c in (48 <=? n)%nat && (n <=? 57)%nat.

Fixpoint digits (acc : Z) (s : string) : Z * string :=
  match s with
  | String c rest =>
      if is_digit c then digits (10 * acc + Z.of_nat (nat_of_ascii c - 48))%Z rest
      else (acc, s)
  | EmptyString => (acc, s)
  end.

(** An optional minus sign, then one digit at least. *)
Definition integer (s : string) : option (Z * string) :=
  let (neg, body) :=
    match s with
    | String "-" rest => (true, rest)
    | _ => (false, s)
    end in
  match body with
  | String c _ =>
      if is_digit c
      then let (z, rest) := digits 0 body in Some (if neg then (- z)%Z else z, rest)
      else None
  | EmptyString => None
  end.

Definition toNumber (s : option string) : num :=
  match s with
  | None => NaN
  | Some EmptyString => Int 0
  | Some s =>
      match integer s with
      | Some (z, EmptyString) => Int z
      | _ => NaN
      end
  end.

Definition isNaN (n : num) : bool :=
  match n with NaN => true | Int _ => false end.

(** A JSON integer: as [integer], without a zero before another digit. *)
Definition json_integer (s : string) : option (Z * string) :=
  let body := match s with String "-" rest => rest | _ => s end in
  match body with
  | String "0" (String c _) => if is_digit c then None else integer s
  | _ => integer s
  end.

Definition quote : ascii := "034"%char.

(** The text of a string literal without escapes. *)
Definition quoted (s : string) : string :=
  String quote (s ++ String quote EmptyString).

Definition is_ws (c : ascii) : bool :=
  let n := nat_of_ascii c in
  (n =? 32)%nat || (n =? 9)%nat || (n =? 10)%nat || (n =? 13)%nat.

Fixpoint skip_ws (s : string) : string :=
  match s with
  | String c rest => if is_ws c then skip_ws rest else s
  | EmptyString => s
  end.

(** The characters of a string literal up to its closing quote. *)
Fixpoint chars (s : string) : option (string * string) :=
  match s with
  | EmptyString => None
  | String c rest =>
      if Ascii.eqb c quote then Some (EmptyString, rest)
      else if Ascii.eqb c "\" || (nat_of_ascii c <? 32)%nat then None
      else match chars rest with
           | Some (body, rest') => Some (String c body, rest')
           | None => None
           end
  end.

(** A later property of the same key replaces the earlier one. *)
Fixpoint put (k : string) (v : json num) (props : list (string * json num)) : list (string * json num) :=
  match props with
  | [] => [(k, v)]
  | (k', v') :: props' => if k' =? k then (k, v) :: props' else (k', v') :: put k v props'
  end.

Fixpoint members (value : string -> option (json num * string)) (fuel : nat)
    (acc : list (string * json num)) (s : string) : option (json num * string) :=
  match fuel with
  | O => None
  | S fuel =>
    match skip_ws s with
    | String c s1 =>
      if Ascii.eqb c quote then
        match chars s1 with
        | Some (k, s2) =>
          match skip_ws s2 with
          | String ":" s3 =>
            match value s3 with
            | Some (v, s4) =>
              match skip_ws s4 with
              | String "," s5 => members value fuel (put k v acc) s5
              | String "}" s5 => Some (JObject (put k v acc), s5)
              | _ => None
              end
            | None => None
            end
          | _ => None
          end
        | None => None
        end
      else None
    | EmptyString => None
    end
  end.

Fixpoint elements (value : string -> option (json num * string)) (fuel : nat)
    (acc : list (json num)) (s : string) : option (json num * string) :=
  match fuel with
  | O => None
  | S fuel =>
    match value s with
    | Some (v, s1) =>
      match skip_ws s1 with
      | String "," s2 => elements value fuel (acc ++ [v]) s2
      | String "]" s2 => Some (JArray (acc ++ [v]), s2)
      | _ => None
      end
    | None => None
    end
  end.

Fixpoint parse_value (fuel : nat) (s : string) : option (json num * string) :=
  match fuel with
  | O => None
  | S fuel =>
    let s := skip_ws s in
    match s with
    | String "{" s1 =>
        match skip_ws s1 with
        | String "}" s2 => Some (JObject [], s2)
        | _ => members (parse_value fuel) (String.length s) [] s1
        end
    | String "[" s1 =>
        match skip_ws s1 with
        | String "]" s2 => Some (JArray [], s2)
        | _ => elements (parse_value fuel) (String.length s) [] s1
        end
    | String c s1 =>
        if Ascii.eqb c quote then
          match chars s1 with
          | Some (body, s2) => Some (JString body, s2)
          | None => None
          end
        else if prefix "true" s then Some (JBool true, substring 4 (String.length s - 4) s)
        else if prefix "false" s then Some (JBool false, substring 5 (String.length s - 5) s)
        else if prefix "null" s then Some (JNull, substring 4 (String.length s - 4) s)
        else match json_integer s with
             | Some (z, s2) => Some (JNumber (Int z), s2)
             | None => None
             end
    | EmptyString => None
    end
  end.

Definition parseJSON (s : string) : option (json num) :=
  match parse_value (S (String.length s)) s with
  | Some (v, rest) =>
      match skip_ws rest with
      | EmptyString => Some v
      | _ => None
      end
  | None => None
  end.

Fixpoint numbers (parts : list string) : option (list Z) :=
  match parts with
  | [] => Some []
  | p :: parts' =>
      match integer p, numbers parts' with
      | Some (z, EmptyString), Some zs => Some (z :: zs)
      | _, _ => None
      end
  end.

Fixpoint list_gt (a b : list Z) : bool :=
  match a, b with
  | x :: a', y :: b' => (y <? x)%Z || ((x =? y)%Z && list_gt a' b')
  | _ :: _, [] => true
  | [], _ => false
  end.

Definition semverGt (a b : string) : Res bool :=
  match numbers (split "." a), numbers (split "." b) with
  | Some [a1; a2; a3], Some [b1; b2; b3] => Ok (list_gt [a1; a2; a3] [b1; b2; b3])
  | _, _ => Throw TypeError
  end.

Definition toBool (s : option string) : bool :=
  match s with
  | Some s => (s =? "1") || (toLowerCase s =? "true")
  | None => false
  end.

#[export] Instance runtime : Runtime := {|
  JsNum := num;
  Number := toNumber;
  Number_isNaN := isNaN;
  JSON_parse := parseJSON;
  Date := unit;
  new_Date := tt;
  RGB := num * num;
  HSV := num * num;
  hmiPosToColor := fun x y => ((x, y), (x, y));
  toBoolean := toBool;
  semver_gt := semverGt
|}.

#[export] Instance constants : Constants := {|
  STR_BERRYDRIVER_CMD_UPDATEDRIVER := "UpdateDriverVersion";
  STR_BERRYDRIVER_CMD_FLASHNEXTION := "FlashNextion";
  STR_BERRYDRIVER_CMD_GETVERSION := "GetDriverVersion";
  STR_LUI_CMD_SUCCESS := "Done";
  STR_LUI_CMD_ACTIVATE_STARTUP_PAGE := "pageType~pageStartup";
  STR_TASMOTA_CMD_OTAURL := "OtaUrl";
  STR_TASMOTA_CMD_UPGRADE := "Upgrade";
  STR_TASMOTA_CMD_BACKLOG := "Backlog";
  STR_TASMOTA_CMD_RESTART := "Restart";
  STR_TASMOTA_CMD_STATUS := "Status";
  STR_TASMOTA_PARAM_RESTART_SAVE_TO_FLASH := "1";
  STR_UPDATE_NOTIFY_PREFIX := "notify.update.";
  STR_UPDATE_NOTIFY_ICON := "system-update";
  STR_UPDATE_FIRMWARE_TASMOTA := "tasmota";
  STR_UPDATE_FIRMWARE_BERRYDRIVER := "nlui";
  STR_UPDATE_FIRMWARE_HMI := "hmi";
  STR_LUI_NOTIFY_ACTION_YES := "yes";
  STR_LUI_LINEBREAK := "\r\n";
  STR_LUI_COLOR_RED := "63488";
  STR_LUI_COLOR_GREEN := "2016";
  FIRMWARE_string := fun fw =>
    match fw with
    | FIRMWARE_TASMOTA => "tasmota"
    | FIRMWARE_BERRYDRIVER => "nlui"
    | FIRMWARE_HMI => "hmi"
    end
|}.

(** A concrete updater: idle, with a handler, asking before it updates. *)
Definition no_versions : PanelVersionData :=
  {| tasmota := None; berryDriver := None; hmi := None |}.

Definition updater : NSPanelUpdater :=
  {| _mqttHandler := true;
     _i18n := fun key => key;
     autoUpdate := false;
     _updateInProgress := false;
     _updateTaskStack := [];
     _updateVersionData :=
       {| current := no_versions; latest := no_versions;
          versionAcquisitionStatus := VersionAcquisitionStatus.None |} |}.

(** What the panel and the three fetches answer: tasmota 13.1.0 against
    13.2.0, driver 9 against 9, display 52 against 53. *)
Definition answers : list Incoming :=
  [ FirmwareEvent (Some {| fw_type := "fw"; fw_source := FIRMWARE_TASMOTA;
                           fw_event := "version"; fw_version := Some "13.1.0(tasmota)";
                           fw_status := None; fw_statusMsg := None |});
    FirmwareEvent (Some {| fw_type := "fw"; fw_source := FIRMWARE_BERRYDRIVER;
                           fw_event := "version"; fw_version := Some "9";
                           fw_status := None; fw_statusMsg := None |});
    HmiVersionEvent {| version := None; internalVersion := Some "52";
                       model := Some "eu" |};
    TasmotaReleaseResponse (Some "v13.2.0");
    BerryDriverResponse (Some "9");
    NluiResponse (Some ("53", "4.3.1")) ].

(** The answers with a development build of tasmota on the panel, whose
    version has four numbers, and driver 8 against 9. *)
Definition answers_of_development_build : list Incoming :=
  [ FirmwareEvent (Some {| fw_type := "fw"; fw_source := FIRMWARE_TASMOTA;
                           fw_event := "version"; fw_version := Some "13.1.0.2(tasmota)";
                           fw_status := None; fw_statusMsg := None |});
    FirmwareEvent (Some {| fw_type := "fw"; fw_source := FIRMWARE_BERRYDRIVER;
                           fw_event := "version"; fw_version := Some "8";
                           fw_status := None; fw_statusMsg := None |});
    HmiVersionEvent {| version := None; internalVersion := Some "52";
                       model := Some "eu" |};
    TasmotaReleaseResponse (Some "v13.2.0");
    BerryDriverResponse (Some "9");
    NluiResponse (Some ("53", "4.3.1")) ].


End Sample.

(** ** Notions the properties are stated with *)

(** All six known flags are set in a status. *)
Definition known (s : Z) : Prop :=
  Z.land s VersionAcquisitionStatus.AllAcquired = VersionAcquisitionStatus.AllAcquired.

(** The plain lexicographic order of strings: a proper prefix comes
    first, otherwise the first differing code unit decides. *)
Inductive lex_lt : string -> string -> Prop :=
| lex_prefix (c : ascii) (s : string) : lex_lt EmptyString (String c s)
| lex_first (c1 c2 : ascii) (s1 s2 : string) :
    (N_of_ascii c1 < N_of_ascii c2)%N -> lex_lt (String c1 s1) (String c2 s2)
| lex_rest (c : ascii) (s1 s2 : string) :
    lex_lt s1 s2 -> lex_lt (String c s1) (String c s2).

(** While versions come in: the status has known flags only, and a
    version whose flag is set is there. *)
Definition data_ok (d : UpdateVersionData) : Prop :=
  let s := versionAcquisitionStatus d in
  Z.land s VersionAcquisitionStatus.AllAcquired = s
  /\ (Z.testbit s 0 = true -> tasmota (current d) <> None)
  /\ (Z.testbit s 1 = true -> tasmota (latest d) <> None)
  /\ (Z.testbit s 2 = true -> berryDriver (current d) <> None)
  /\ (Z.testbit s 3 = true -> berryDriver (latest d) <> None)
  /\ (Z.testbit s 4 = true -> hmi (current d) <> None)
  /\ (Z.testbit s 5 = true -> hmi (latest d) <> None).

Section Notions.
Context {R : Runtime}.

(** The three available flags of [after] are the three comparisons of
    the versions of [before]. *)
Definition flags_computed (before after : NSPanelUpdater) : Prop :=
  exists lt ct lb cb lh ch,
    tasmota (latest (_updateVersionData before)) = Some lt
    /\ tasmota (current (_updateVersionData before)) = Some ct
    /\ berryDriver (latest (_updateVersionData before)) = Some lb
    /\ berryDriver (current (_updateVersionData before)) = Some cb
    /\ hmi (latest (_updateVersionData before)) = Some lh
    /\ hmi (current (_updateVersionData before)) = Some ch
    /\ current (_updateVersionData after) = current (_updateVersionData before)
    /\ latest (_updateVersionData after) = latest (_updateVersionData before)
    /\ autoUpdate after = autoUpdate before
    /\ known (status after)
    /\ semver_gt (VersionData.version lt) (VersionData.version ct)
       = Ok (has_flag VersionAcquisitionStatus.TasmotaUpdateAvailable after)
    /\ has_flag VersionAcquisitionStatus.BerryDriverUpdateAvailable after
       = string_gt (VersionData.version lb) (VersionData.version cb)
    /\ has_flag VersionAcquisitionStatus.HmiUpdateAvailable after
       = js_gt (internalVersion lh) (internalVersion ch).

(** An acquisition that still polls: no call has found the six flags,
    [i] counts the calls down from ten, and the promise is pending
    through the ninth call and rejected with what the tenth found. *)
Definition polling (au : bool) (a : Acquisition) : Prop :=
  timer a = true
  /\ Forall (fun s => ~ known s) (seen a)
  /\ i a = (10 - Z.of_nat (List.length (seen a)))%Z
  /\ data_ok (_updateVersionData (self a))
  /\ autoUpdate (self a) = au
  /\ ((List.length (seen a) < 10)%nat -> promise a = Pending /\ settled a = None)
  /\ ((10 <= List.length (seen a))%nat ->
        exists s, nth_error (seen a) 9 = Some s /\ promise a = Rejected s).

(** [semver.gt] throws on the two tasmota versions of an updater. *)
Definition semver_throws (self : NSPanelUpdater) : Prop :=
  exists lt ct e,
    tasmota (latest (_updateVersionData self)) = Some lt
    /\ tasmota (current (_updateVersionData self)) = Some ct
    /\ semver_gt (VersionData.version lt) (VersionData.version ct) = Throw e.

(** An acquisition that polls no more: its last call found the six
    flags. If that was one of the first ten calls, the promise is
    resolved, or it is pending for good because [semver.gt] threw in
    that call, on the updater [before]; otherwise it is rejected with
    what the tenth found. *)
Definition finished (au : bool) (a : Acquisition) : Prop :=
  timer a = false
  /\ exists l s,
       seen a = l ++ [s]
       /\ Forall (fun s => ~ known s) l
       /\ known s
       /\ ((List.length l < 10)%nat ->
             (exists before st,
                promise a = Resolved (status st) /\ settled a = Some st
                /\ autoUpdate st = au /\ flags_computed before st)
             \/ (promise a = Pending /\ settled a = None
                 /\ exists before, semver_throws before))
       /\ ((10 <= List.length l)%nat ->
             exists s9, nth_error l 9 = Some s9 /\ promise a = Rejected s9).

End Notions.

(** The ids of the notifications among the effects, in their order. *)
Fixpoint notified (done : list Effect) : list string :=
  match done with
  | [] => []
  | showNotification n :: done' => notifyId n :: notified done'
  | _ :: done' => notified done'
  end.

Section Policies.
Context {R : Runtime} {K : Constants}.

(** The comparison policy of the design document: tasmota by the
    semantic-version order, the berry driver and the display by the
    plain lexicographic order of their version strings. [before] holds
    the versions compared, [after] the flags. *)
Definition asymmetric_policy (before after : NSPanelUpdater) : Prop :=
  exists lt ct lb cb lh ch,
    tasmota (latest (_updateVersionData before)) = Some lt
    /\ tasmota (current (_updateVersionData before)) = Some ct
    /\ berryDriver (latest (_updateVersionData before)) = Some lb
    /\ berryDriver (current (_updateVersionData before)) = Some cb
    /\ hmi (latest (_updateVersionData before)) = Some lh
    /\ hmi (current (_updateVersionData before)) = Some ch
    /\ (has_flag VersionAcquisitionStatus.TasmotaUpdateAvailable after = true
        <-> semver_gt (VersionData.version lt) (VersionData.version ct) = Ok true)
    /\ (has_flag VersionAcquisitionStatus.BerryDriverUpdateAvailable after = true
        <-> lex_lt (VersionData.version cb) (VersionData.version lb))
    /\ (has_flag VersionAcquisitionStatus.HmiUpdateAvailable after = true
        <-> exists x y, internalVersion lh = Some x /\ internalVersion ch = Some y
                        /\ lex_lt y x).

(** The firmware whose update is announced, by the flags of [st]:
    tasmota before the berry driver before the display. *)
Definition announced (st : NSPanelUpdater) : option string :=
  if has_flag VersionAcquisitionStatus.TasmotaUpdateAvailable st
  then Some STR_UPDATE_FIRMWARE_TASMOTA
  else if has_flag VersionAcquisitionStatus.BerryDriverUpdateAvailable st
  then Some STR_UPDATE_FIRMWARE_BERRYDRIVER
  else if has_flag VersionAcquisitionStatus.HmiUpdateAvailable st
  then Some STR_UPDATE_FIRMWARE_HMI
  else None.

End Policies.

(** ** NSPanelMessageParser: the other message shapes *)

(** Two helpers the other parsers call and the sources do not define:
    [Number] applied to a parsed value, and
    [NSPanelMessageUtils.toDate], [None] for its [null]. *)
Class Helpers {R : Runtime} : Type := {
  Number_of : JsValue -> JsNum;
  toDate : JsValue -> option Date
}.

(** The three constants of [nspanel-constants] (not among the sources)
    that [parseTasmotaUpgradeEvent] reads: the key of the upgrade
    message, the prefix of a successful result, the marker of a failed
    one. *)
Class UpgradeConstants : Type := {
  STR_TASMOTA_MSG_UPGRADE : string;
  STR_TASMOTA_UPGRADE_SUCCESSFUL : string;
  STR_TASMOTA_UPGRADE_FAILED : string
}.

(** [s.substring(n)] for [n] from zero on: [s] without its first [n]
    code units, empty when it has no more. *)
Fixpoint drop (n : nat) (s : string) : string :=
  match n, s with
  | O, _ => s
  | S n', String _ s' => drop n' s'
  | S _, EmptyString => EmptyString
  end.

Section OtherShapes.
Context {R : Runtime} {K : Constants} {H : Helpers} {U : UpgradeConstants}.

(** [SensorEventArgs] *)
Record SensorEventArgs : Type := {
  s_type : string;
  s_source : string;
  s_event : string;
  temp : JsNum;
  tempUnit : option JsValue;
  s_date : option Date
}.

Definition set_s_date (v : option Date) (e : SensorEventArgs) : SensorEventArgs :=
  {| s_type := s_type e; s_source := s_source e; s_event := s_event e;
     temp := temp e; tempUnit := tempUnit e; s_date := v |}.

(** [HardwareEventArgs]; [hw_value] is the press count of a button. *)
Record HardwareEventArgs : Type := {
  hw_type : string;
  hw_date : Date;
  hw_event : string;
  hw_event2 : option string;
  hw_source : string;
  hw_active : option bool;
  hw_value : option Z;
  hw_data : option JsValue
}.

(** [v[key]] on what a property read gave: a [TypeError] on [undefined]
    and on [null], the own property of an object, [undefined] on any
    other value (none of the keys asked for is an index or [length]). *)
Definition member (key : string) (v : option JsValue) : Res (option JsValue) :=
  match v with
  | None => Throw TypeError
  | Some JNull => Throw TypeError
  | Some w => Ok (get_prop key w)
  end.

(** [x ?? null]: the value, absent when it is nullish. *)
Definition or_null (v : option JsValue) : option JsValue :=
  if not_nullish v then v else None.

(** [Number(v)] on what a property read gave. *)
Definition Number_of_read (v : option JsValue) : JsNum :=
  match v with
  | Some w => Number_of w
  | None => Number None
  end.

(** [parseSensorEvent]; [Number(temp) ?? null] is [Number(temp)], which
    is never nullish. *)
Definition parseSensorEvent (input : JsValue) : Res (option SensorEventArgs) :=
  if hasProperty input "ANALOG" then
    let analogSensorData := get_prop "ANALOG" input in
    t <- member "Temperature1" analogSensorData ;;
    let unit := get_prop "TempUnit" input in
    if not_nullish t then
      let result :=
        {| s_type := "sensor"; s_source := "temperature1"; s_event := "measurement";
           temp := Number_of_read t; tempUnit := or_null unit; s_date := None |} in
      if hasProperty input "Time" then
        match get_prop "Time" input with
        | Some time =>
            match toDate time with
            | Some date => Ok (Some (set_s_date (Some date) result))
            | None => Ok (Some result)
            end
        | None => Ok (Some result)
        end
      else Ok (Some result)
    else Ok None
  else Ok None.

(** [input[property] === 'ON'] *)
Definition is_ON (v : option JsValue) : bool :=
  match v with
  | Some (JString s) => s =? "ON"
  | _ => false
  end.

(** [convertToRelayEvent] *)
Definition convertToRelayEvent (input : JsValue) (property : string) : HardwareEventArgs :=
  {| hw_type := "hw"; hw_date := new_Date; hw_event := "relay";
     hw_event2 := Some "state"; hw_source := toLowerCase property;
     hw_active := Some (is_ON (get_prop property input));
     hw_value := None; hw_data := None |}.

(** [actionStringToNumber] on what the payload holds: only a string has
    [toLowerCase]. *)
Definition actionStringToNumber_of (v : option JsValue) : Res (option Z) :=
  match v with
  | Some (JString actionString) => Ok (actionStringToNumber actionString)
  | _ => Throw TypeError
  end.

(** [convertToButtonEvent] *)
Definition convertToButtonEvent (input : JsValue) (property : string) : Res HardwareEventArgs :=
  action <- member "Action" (get_prop property input) ;;
  value <- actionStringToNumber_of action ;;
  Ok {| hw_type := "hw"; hw_date := new_Date; hw_event := "button";
        hw_event2 := Some "press"; hw_source := toLowerCase property;
        hw_active := None; hw_value := value; hw_data := None |}.

(** [parseHardwareEvent]: four [if] statements push in their order, the
    fallback is pushed on an empty result. *)
Definition parseHardwareEvent (input : JsValue) : Res (list HardwareEventArgs) :=
  let result : list HardwareEventArgs := [] in
  let result :=
    if hasProperty input "POWER1" then result ++ [convertToRelayEvent input "POWER1"]
    else result in
  let result :=
    if hasProperty input "POWER2" then result ++ [convertToRelayEvent input "POWER2"]
    else result in
  result <- (if hasProperty input "Button1"
             then eventArgs <- convertToButtonEvent input "Button1" ;;
                  Ok (result ++ [eventArgs])
             else Ok result) ;;
  result <- (if hasProperty input "Button2"
             then eventArgs <- convertToButtonEvent input "Button2" ;;
                  Ok (result ++ [eventArgs])
             else Ok result) ;;
  if (List.length result =? 0)%nat then
    Ok (result ++ [{| hw_type := "hw"; hw_date := new_Date; hw_event := "";
                      hw_event2 := None; hw_source := ""; hw_active := None;
                      hw_value := None; hw_data := Some input |}])
  else Ok result.

(** [parseTasmotaStatus2Event] *)
Definition parseTasmotaStatus2Event (input : JsValue) : Res (option (FirmwareEventArgs JsValue)) :=
  if hasProperty input "StatusFWR" then
    let statusFwr := get_prop "StatusFWR" input in
    version <- member "Version" statusFwr ;;
    if not_nullish version then
      Ok (Some {| fw_type := "fw"; fw_source := FIRMWARE_TASMOTA;
                  fw_event := "version"; fw_version := version;
                  fw_status := None; fw_statusMsg := None |})
    else Ok None
  else Ok None.

(** Modelled from the spec: [NSPanelUtils.isString] of [nspanel-utils],
    which is not among the sources; by its name it holds of the strings
    among the parsed values. *)
Definition isString (v : option JsValue) : bool :=
  match v with
  | Some (JString _) => true
  | _ => false
  end.

(** [s.substring(s.indexOf(marker) + marker.length + 1)]; [indexOf] is
    -1 without an occurrence, and the sum is then [marker.length]. *)
Definition after_marker (marker s : string) : string :=
  match index 0 marker s with
  | Some at_ => drop (at_ + String.length marker + 1) s
  | None => drop (String.length marker) s
  end.

(** [parseTasmotaUpgradeEvent] *)
Definition parseTasmotaUpgradeEvent (input : JsValue) : option (FirmwareEventArgs JsValue) :=
  if hasProperty input STR_TASMOTA_MSG_UPGRADE then
    let statusValue := get_prop STR_TASMOTA_MSG_UPGRADE input in
    match statusValue with
    | Some (JString text) =>
      if isString statusValue && negb (stringIsNullOrEmpty (Some text)) then
        let statusResult :=
          if prefix STR_TASMOTA_UPGRADE_SUCCESSFUL text then success else failed in
        Some {| fw_type := "fw"; fw_source := FIRMWARE_TASMOTA; fw_event := "update";
                fw_version := None; fw_status := Some statusResult;
                fw_statusMsg :=
                  match statusResult with
                  | failed => Some (after_marker STR_TASMOTA_UPGRADE_FAILED text)
                  | success => None
                  end |}
      else None
    | _ => None
    end
  else None.

End OtherShapes.

Section Decodable.
Context {R : Runtime}.

(** The payloads [parse] returns on: an array, or an object whose
    [CustomRecv], if it has one, is a string. *)
Definition decodable (temp : JsValue) : bool :=
  match temp with
  | JArray _ => true
  | JObject props =>
      match assoc "CustomRecv" props with
      | Some (JString _) => true
      | Some _ => false
      | None => true
      end
  | _ => false
  end.

End Decodable.

Section HardwareNotions.
Context {R : Runtime}.

(** How many of the two relay and two button fields a payload has. *)
Definition hardware_fields (input : JsValue) : nat :=
  List.length
    (filter (hasProperty input) ["POWER1"; "POWER2"; "Button1"; "Button2"]).

(** A button field that can be converted: absent, or a value other than
    [null] whose [Action] is a string. *)
Definition button_ok (input : JsValue) (property : string) : bool :=
  match get_prop property input with
  | None => true
  | Some JNull => false
  | Some button =>
      match get_prop "Action" button with
      | Some (JString _) => true
      | _ => false
      end
  end.

End HardwareNotions.

(** Helpers and constants to run the other parsers on. *)
Module SampleMore.

Definition number_of (v : json Sample.num) : Sample.num :=
  match v with
  | JNumber n => n
  | JString s => Sample.toNumber (Some s)
  | JBool true => Sample.Int 1
  | JBool false => Sample.Int 0
  | JNull => Sample.Int 0
  | _ => Sample.NaN
  end.

Definition to_date (v : json Sample.num) : option unit :=
  match v with
  | JString _ => Some tt
  | _ => None
  end.

#[export] Instance helpers : @Helpers Sample.runtime :=
  @Build_Helpers Sample.runtime number_of to_date.

#[export] Instance upgrade : UpgradeConstants := {|
  STR_TASMOTA_MSG_UPGRADE := "Upgrade";
  STR_TASMOTA_UPGRADE_SUCCESSFUL := "Successful";
  STR_TASMOTA_UPGRADE_FAILED := "Failed"
|}.

End SampleMore.

(** ** NSPanelUpdater: notions for what reaches it in a row *)

Section UpdaterNotions.
Context {R : Runtime} {K : Constants}.

(** The name [checkForUpdates] announces each firmware by. *)
Definition STR_UPDATE_FIRMWARE (task : FirmwareType) : string :=
  match task with
  | FIRMWARE_TASMOTA => STR_UPDATE_FIRMWARE_TASMOTA
  | FIRMWARE_BERRYDRIVER => STR_UPDATE_FIRMWARE_BERRYDRIVER
  | FIRMWARE_HMI => STR_UPDATE_FIRMWARE_HMI
  end.

(** An ['update'] event with status ['success']. *)
Definition is_update_success (m : Incoming) : bool :=
  match m with
  | FirmwareEvent (Some fwEvent) =>
      (fw_event fwEvent =? "update")
      && match fw_status fwEvent with Some success => true | _ => false end
  | _ => false
  end.

(** The handlers run on what arrives, one after the other. *)
Fixpoint deliver_all (arriving : list Incoming) (self : NSPanelUpdater) : NSPanelUpdater * list Effect :=
  match arriving with
  | [] => (self, [])
  | m :: arriving' =>
      let (self', done) := deliver m self in
      let (self'', done') := deliver_all arriving' self' in
      (self'', done ++ done')
  end.

(** The updater [k] seconds into an acquisition, the calls of
    [waitForDataAcquisition] aside: the status is reset, then the
    handlers run on what arrived in those seconds. *)
Definition arrived (self0 : NSPanelUpdater) (arriving : list (list Incoming)) (k : nat) : NSPanelUpdater :=
  fst (deliver_all (List.concat (firstn k arriving))
         (set_status VersionAcquisitionStatus.None self0)).

End UpdaterNotions.

(** ** PageNodeBase *)

(** The fields of an [EventMapping] the page node reads; a field the
    configuration leaves out is [None]. *)
Record EventMapping : Type := {
  em_event : string;
  em_t : option string;
  em_value : option string;
  em_data : option string;
  em_dataType : option string;
  em_msgTopic : option string
}.

(** [SwitchCommandParams] and [CommandData] of a relay command. *)
Record SwitchCommandParams : Type := {
  p_id : Z;
  p_active : option bool
}.

Record CommandData : Type := {
  c_cmd : string;
  c_params : SwitchCommandParams
}.

(** [PageOptions]; [maxEntities] may be missing. *)
Record PageOptions : Type := {
  pageType : string;
  maxEntities : option Z
}.

(** [m.set(key, v)] on a [Map]: the entry of the key is replaced where
    it stands, a new key comes last. *)
Fixpoint Map_set {A : Type} (key : string) (v : A) (m : list (string * A)) : list (string * A) :=
  match m with
  | [] => [(key, v)]
  | (k, v') :: m' => if k =? key then (k, v) :: m' else (k, v') :: Map_set key v m'
  end.

(** [m.get(key)] *)
Fixpoint Map_get {A : Type} (key : string) (m : list (string * A)) : option A :=
  match m with
  | [] => None
  | (k, v) :: m' => if k =? key then Some v else Map_get key m'
  end.

(** [m.has(key)] *)
Definition Map_has {A : Type} (key : string) (m : list (string * A)) : bool :=
  match Map_get key m with
  | Some _ => true
  | None => false
  end.

(** [obj[key] = v] on an object made by a literal, as its own
    properties: the property is replaced where it stands or comes last.
    The key [__proto__] is the accessor of [Object.prototype]: an
    assignment to it creates no own property. *)
Definition Object_set {A : Type} (key : string) (v : A) (props : list (string * A)) : list (string * A) :=
  if key =? "__proto__" then props else Map_set key v props.

(** [array.slice(0, end)] for an integer [end]: a negative one counts
    from the end of the array. *)
Definition slice_0 {A : Type} (end_ : Z) (array : list A) : list A :=
  let len := Z.of_nat (List.length array) in
  let final := if (end_ <? 0)%Z then Z.max (len + end_) 0 else Z.min end_ len in
  firstn (Z.to_nat final) array.

Section PageNodeBase.
Context {R : Runtime}.

(** What the message sent for a mapped event holds under a key:
    [undefined], a string, or a parsed value. *)
Inductive OutData : Type :=
| OutUndefined
| OutString (s : string)
| OutJson (j : JsValue).

(** What a page node does to the outside: the events it emits here, a
    message on its output, by its own properties, and a warning. *)
Inductive PageEffect : Type :=
| emit_nav_pageId (pageId : option string)
| emit_page_cmd (cmdData : CommandData)
| send (outMsg : list (string * OutData))
| warn (message : string).

(** [ConfiguredEventsMap] *)
Definition ConfiguredEventsMap : Type := list (string * EventMapping).

(** The two methods a page may override, by what they answer;
    [PageNodeBase] itself answers [true] and [false]. *)
Variable prePageNavigationEvent : EventArgs -> EventMapping -> bool.
Variable preHandleUiEvent : EventArgs -> bool.

(** The two methods as [PageNodeBase] has them. *)
Definition PageNodeBase_prePageNavigationEvent (_eventArgs : EventArgs) (_eventConfig : EventMapping) : bool :=
  true.

Definition PageNodeBase_preHandleUiEvent (_eventArgs : EventArgs) : bool :=
  false.

(** [handlePageNavigationEvent] *)
Definition handlePageNavigationEvent (_eventArgs : EventArgs) (eventConfig : EventMapping) : list PageEffect :=
  [emit_nav_pageId (em_value eventConfig)].

(** [handlePageMessageEvent]; [JSON.parse] that throws is caught. *)
Definition handlePageMessageEvent (_eventArgs : EventArgs) (eventConfig : EventMapping) : list PageEffect :=
  match em_value eventConfig with
  | None => []
  | Some value =>
      let '(data, warned) :=
        match em_dataType eventConfig with
        | Some dataType =>
            if dataType =? "str" then
              (match em_data eventConfig with
               | Some text => OutString text
               | None => OutUndefined
               end, [])
            else if dataType =? "json" then
              match em_data eventConfig with
              | Some text =>
                  if truthy text then
                    match JSON_parse text with
                    | Some j => (OutJson j, [])
                    | None =>
                        (OutString text, [warn "Data not JSON compliant, sending as string"])
                    end
                  else (OutUndefined, [])
              | None => (OutUndefined, [])
              end
            else (OutUndefined, [])
        | None => (OutUndefined, [])
        end in
      let outMsg := Object_set value data [] in
      let outMsg :=
        if negb (stringIsNullOrEmpty (em_msgTopic eventConfig))
        then Object_set "topic"
               (match em_msgTopic eventConfig with
                | Some msgTopic => OutString msgTopic
                | None => OutUndefined
                end) outMsg
        else outMsg in
      warned ++ [send outMsg]
  end.

(** [initPageNode]: the index of the event mappings. *)
Definition initPageNode (events : option (list EventMapping)) : ConfiguredEventsMap :=
  let allEventsMappings := match events with Some l => l | None => [] end in
  fold_left (fun cfgEvents eventMapping => Map_set (em_event eventMapping) eventMapping cfgEvents)
    allEventsMappings [].

(** [handleDataInputInternal]: the entities it stores and its result;
    [convertToEntityItemData] is not among the sources. *)
Definition handleDataInputInternal {PageEntityData : Type}
    (convertToEntityItemData : option JsValue -> PageEntityData)
    (options : option PageOptions) (payload : option JsValue) : list PageEntityData * bool :=
  let entityInputData :=
    match payload with
    | Some (JArray items) => map Some items
    | _ => [payload]
    end in
  let result := map convertToEntityItemData entityInputData in
  let maxEntities :=
    match options with
    | Some o => match maxEntities o with Some n => n | None => 0%Z end
    | None => 0%Z
    end in
  (slice_0 maxEntities result, true).

(** [handleConfiguredEvent] *)
Definition handleConfiguredEvent (eventArgs : EventArgs) (cfgEvent : option EventMapping) : bool * list PageEffect :=
  match cfgEvent with
  | None => (false, [])
  | Some cfgEvent =>
      match em_t cfgEvent with
      | Some t =>
          if t =? "page" then
            (true,
             if prePageNavigationEvent eventArgs cfgEvent
             then handlePageNavigationEvent eventArgs cfgEvent
             else [])
          else if (t =? "relay1") || (t =? "relay2") then
            let relayNum := if t =? "relay1" then 0%Z else 1%Z in
            let is_value (s : string) :=
              match em_value cfgEvent with Some v => v =? s | None => false end in
            let relayCmd := if is_value "toggle" then "toggle" else "switch" in
            let relayCmdParams :=
              {| p_id := relayNum;
                 p_active := if relayCmd =? "switch" then Some (is_value "on") else None |} in
            (true, [emit_page_cmd {| c_cmd := relayCmd; c_params := relayCmdParams |}])
          else if t =? "msg" then (true, handlePageMessageEvent eventArgs cfgEvent)
          else (false, [])
      | None => (false, [])
      end
  end.

(** [handleUiEventInternal]; a hardware event is looked up by its
    type and source. *)
Definition handleUiEventInternal (configuredEvents : ConfiguredEventsMap)
    (eventArgs : EventArgs) : bool * list PageEffect :=
  let preHandleUiEventResult := preHandleUiEvent eventArgs in
  if preHandleUiEventResult then (preHandleUiEventResult, [])
  else
    let event2 :=
      if type eventArgs =? "hw"
      then Some (type eventArgs ++ "." ++ text_of_undefined (source eventArgs))%string
      else event2 eventArgs in
    match event2 with
    | Some event2 =>
        if Map_has event2 configuredEvents
        then handleConfiguredEvent eventArgs (Map_get event2 configuredEvents)
        else (false, [])
    | None => (false, [])
    end.

End PageNodeBase.

(** The kinds of mapping [handleConfiguredEvent] knows. *)
Definition mapping_kinds : list string := ["page"; "relay1"; "relay2"; "msg"].

(** What a payload holds for [handleDataInputInternal]: the items of an
    array, anything else as the one item. *)
Definition payload_items {R : Runtime} (payload : option JsValue) : list (option JsValue) :=
  match payload with
  | Some (JArray items) => map Some items
  | _ => [payload]
  end.

(** ** PageThermoNode: the action row *)

(** The helpers of [nspanel-utils] and the constant of
    [nspanel-constants] that [generateActions] calls, none among the
    sources; [toHmiIconColor] as the text the template prints for the
    number it returns. *)
Class ThermoHelpers : Type := {
  IconColor : Type;
  getIcon : string -> string;
  toHmiIconColor : IconColor -> string;
  DEFAULT_HMI_COLOR : IconColor
}.

Definition PAGE_TYPE : string := "cardThermo".
Definition MAX_ENTITIES : Z := 8.
Definition ACTION_EMPTY : string := "~~~".

(** The options the constructor of [PageThermoNode] passes on. *)
Definition PageThermoNode_options : option PageOptions :=
  Some {| pageType := PAGE_TYPE; maxEntities := Some MAX_ENTITIES |}.

(** [array.join(sep)] *)
Fixpoint join (sep : string) (array : list string) : string :=
  match array with
  | [] => EmptyString
  | [s] => s
  | s :: array' => (s ++ sep ++ join sep array')%string
  end.

(** [a ?? b] *)
Definition nullish_or {A : Type} (a b : option A) : option A :=
  match a with
  | Some _ => a
  | None => b
  end.

Section PageThermoNode.
Context {T : ThermoHelpers}.

(** The fields of an entity of the configuration and of the data of an
    entity that [generateActions] reads; [value] as the text the
    template prints. *)
Record EntityConfig : Type := {
  ec_type : string;
  ec_entityId : option string;
  ec_icon : option string;
  ec_iconColor : option IconColor
}.

Record PageEntityData : Type := {
  ed_icon : option string;
  ed_iconColor : option IconColor;
  ed_value : option string
}.

(** [getEntityData] of [EntitiesPageNode], which is not among the
    sources: the data stored for an entity, if any. *)
Variable getEntityData : option string -> option PageEntityData.

(** [makeAction] *)
Definition makeAction (type : string) (entityId icon iconColorActive state : option string) : string :=
  if type =? "delete" then ACTION_EMPTY
  else
    let text (s : option string) := match s with Some s => s | None => EmptyString end in
    (text icon ++ "~" ++ text iconColorActive ++ "~" ++ text state ++ "~" ++ text entityId)%string.

(** The body of the first loop of [generateActions]. *)
Definition action_of (entityConfig : EntityConfig) : string :=
  let entityData := getEntityData (ec_entityId entityConfig) in
  let icon :=
    nullish_or (match entityData with Some d => ed_icon d | None => None end)
               (ec_icon entityConfig) in
  let iconColor :=
    nullish_or (match entityData with Some d => ed_iconColor d | None => None end)
               (ec_iconColor entityConfig) in
  let value := match entityData with Some d => ed_value d | None => None end in
  makeAction (ec_type entityConfig) (ec_entityId entityConfig)
    (Some (getIcon (match icon with Some i => i | None => EmptyString end)))
    (Some (toHmiIconColor (match iconColor with Some c => c | None => DEFAULT_HMI_COLOR end)))
    value.

(** The condition [this.options ? i < this.options.maxEntities : true]. *)
Definition below_maxEntities (options : option PageOptions) (i : nat) : bool :=
  match options with
  | Some o =>
      match maxEntities o with
      | Some n => (Z.of_nat i <? n)%Z
      | None => false
      end
  | None => true
  end.

(** The first loop, from index [i] on; [entities] are the entities from
    that index. It returns [i] and [resultActions] as the loop leaves
    them. *)
Fixpoint actions_loop (options : option PageOptions) (i : nat) (entities : list EntityConfig)
    (resultActions : list string) : nat * list string :=
  match entities with
  | [] => (i, resultActions)
  | entityConfig :: entities' =>
      if below_maxEntities options i
      then actions_loop options (S i) entities' (resultActions ++ [action_of entityConfig])
      else (i, resultActions)
  end.

(** [resultActions] at the end of [generateActions]: the second loop
    runs from [i] up to [maxEntities]. *)
Definition resultActions_of (options : option PageOptions) (entities : list EntityConfig) : list string :=
  let (i, resultActions) := actions_loop options 0 entities [] in
  match options with
  | Some o =>
      match maxEntities o with
      | Some n => resultActions ++ repeat ACTION_EMPTY (Z.to_nat (n - Z.of_nat i))
      | None => resultActions
      end
  | None => resultActions
  end.

(** [generateActions] *)
Definition generateActions (options : option PageOptions) (entities : list EntityConfig) : string :=
  join "~" (resultActions_of options entities).

End PageThermoNode.

(** * Properties *)

(** ** Strings *)

Lemma split_not_nil (sep : ascii) (s : string) : split sep s <> [].
Proof.
  induction s as [|c s IH]; simpl.
  - discriminate.
  - destruct (Ascii.eqb c sep); [discriminate|].
    destruct (split sep s); [contradiction | discriminate].
Qed.

(** [split] yields one token more than there are separators. *)
Lemma length_split (sep : ascii) (s : string) :
  List.length (split sep s) = S (count_sep sep s).
Proof.
  induction s as [|c s IH]; simpl; [reflexivity|].
  destruct (Ascii.eqb c sep); simpl.
  - now rewrite IH.
  - destruct (split sep s) as [|tok toks] eqn:E.
    + now apply split_not_nil in E.
    + simpl in *. exact IH.
Qed.

Lemma toLowerCase_eqb_ci (s name : string) :
  toLowerCase name = name -> (toLowerCase s =? name) = ci_eqb s name.
Proof.
  revert name; induction s as [|c s IH]; intros [|d name] Hname; simpl; try reflexivity.
  simpl in Hname. injection Hname as Hd Hn.
  rewrite Hd, (IH _ Hn). reflexivity.
Qed.

(** ** ActionCodeTable *)

Lemma actionStringToNumber_lookup (s : string) :
  actionStringToNumber s = lookup_ci s ActionCodeTable.
Proof.
  unfold actionStringToNumber, ActionCodeTable, lookup_ci.
  rewrite !toLowerCase_eqb_ci by reflexivity.
  reflexivity.
Qed.

Example actionStringToNumber_examples :
  map actionStringToNumber ["single"; "DOUBLE"; "Triple"; "qUaD"; "penta"; "hexa"; ""; " single"]
  = [Some 1%Z; Some 2%Z; Some 3%Z; Some 4%Z; Some 5%Z; None; None; None].
Proof. reflexivity. Qed.

(** C9. [actionStringToNumber] is the case-insensitive reading of the
    table single, double, triple, quad, penta to 1 .. 5: a string equal
    to a name of the table up to letter case gets that name's code, a
    string equal to none of them gets no value, and the result is never
    zero; the function is total, so it never raises. *)
Theorem C9_actionStringToNumber_table (s : string) :
  actionStringToNumber s = lookup_ci s ActionCodeTable
  /\ (forall name code, In (name, code) ActionCodeTable ->
        ci_eqb s name = true -> actionStringToNumber s = Some code)
  /\ ((forall name code, In (name, code) ActionCodeTable -> ci_eqb s name = false) ->
        actionStringToNumber s = None)
  /\ actionStringToNumber s <> Some 0%Z.
Proof.
  split; [apply actionStringToNumber_lookup|].
  split; [|split].
  - intros name code Hin Hci.
    assert (Hlow : toLowerCase s = name).
    { apply String.eqb_eq. rewrite toLowerCase_eqb_ci; [exact Hci|].
      simpl in Hin.
      repeat (destruct Hin as [Hin|Hin]; [injection Hin as <- _; reflexivity|]).
      contradiction. }
    unfold actionStringToNumber. rewrite Hlow.
    simpl in Hin.
    repeat (destruct Hin as [Hin|Hin]; [injection Hin as <- <-; reflexivity|]).
    contradiction.
  - intros Hnone. rewrite actionStringToNumber_lookup.
    unfold ActionCodeTable, lookup_ci.
    rewrite (Hnone "single" 1%Z), (Hnone "double" 2%Z), (Hnone "triple" 3%Z),
      (Hnone "quad" 4%Z), (Hnone "penta" 5%Z) by (simpl; auto 10).
    reflexivity.
  - unfold actionStringToNumber.
    repeat match goal with |- context [if ?b then _ else _] => destruct b end;
      discriminate.
Qed.

(** ** The comma protocol *)

Section ParserProperties.
Context {R : Runtime} {K : Constants}.

(** C4, as the code has it. For [event,buttonPress2,s,button,...] the
    decoded event has [entityId] and [event2] equal to [parts[2]], and its
    [source] is [parts[3]], the string [button]: source and [event2] are
    swapped. *)
Theorem C4_button_swaps_source_and_event2 (s : string) (rest : list string) :
  let ev := parseEvent ("event" :: "buttonPress2" :: s :: "button" :: rest) in
  source ev = Some "button" /\ entityId ev = Some s /\ event2 ev = Some s.
Proof.
  unfold parseEvent; simpl.
  destruct (List.length rest =? 1)%nat; [destruct (Number_isNaN _)|];
    repeat split.
Qed.

(** C2, as the code has it. For [event,buttonPress2,s,colorWheel,c] the
    decoded event carries [rgb] and [hsv] if and only if [c] splits on
    the bar into exactly three tokens; they are then the two halves of
    [hmiPosToColor] at the numbers of the first two tokens. With any
    other number of tokens, two included, neither field is attached. *)
Theorem C2_colorWheel_three_tokens (s c : string) :
  let ev := parseEvent ["event"; "buttonPress2"; s; "colorWheel"; c] in
  ((rgb ev <> None /\ hsv ev <> None) <-> List.length (split "|" c) = 3%nat)
  /\ ((rgb ev = None /\ hsv ev = None) <-> List.length (split "|" c) <> 3%nat)
  /\ (forall x y z, split "|" c = [x; y; z] ->
        rgb ev = Some (fst (hmiPosToColor (Number (Some x)) (Number (Some y))))
        /\ hsv ev = Some (snd (hmiPosToColor (Number (Some x)) (Number (Some y)))))
  /\ event2 ev = Some "color".
Proof.
  unfold parseEvent; simpl.
  destruct c as [|a c].
  - simpl. destruct (Number_isNaN _); simpl;
      (repeat split; try discriminate; try tauto; intros; try easy).
    all: try (destruct H; congruence).
  - change (stringIsNullOrEmpty (Some (String a c))) with false; cbv iota.
    destruct (split "|" (String a c)) as [|x [|y [|z [|w toks]]]] eqn:E; simpl;
      destruct (Number_isNaN _); simpl;
      (repeat split; try discriminate; try tauto; intros; try easy).
    all: try (destruct H; congruence).
    all: try (injection H as <- <- <-; reflexivity).
Qed.

End ParserProperties.

(** The decoder at the two coordinate strings of the design document,
    on the sample runtime. *)
Example colorWheel_three_tokens :
  let ev := parseEvent (R := Sample.runtime)
              ["event"; "buttonPress2"; "light.kitchen"; "colorWheel"; "120|80|0"] in
  rgb ev = Some (Sample.Int 120, Sample.Int 80)
  /\ hsv ev = Some (Sample.Int 120, Sample.Int 80)
  /\ event2 ev = Some "color"
  /\ data ev = Some (DataString "120|80|0").
Proof. repeat split. Qed.

Example colorWheel_two_tokens :
  let ev := parseEvent (R := Sample.runtime)
              ["event"; "buttonPress2"; "light.kitchen"; "colorWheel"; "120|80"] in
  rgb ev = None /\ hsv ev = None /\ event2 ev = Some "color".
Proof. repeat split. Qed.

(** C2 as stated fails: the three-token string [120|80|0] gets both
    fields, the two-token string [120|80] gets neither. *)
Lemma C2_two_tokens_counterexample :
  let three := parseEvent (R := Sample.runtime)
                 ["event"; "buttonPress2"; "light.kitchen"; "colorWheel"; "120|80|0"] in
  let two := parseEvent (R := Sample.runtime)
               ["event"; "buttonPress2"; "light.kitchen"; "colorWheel"; "120|80"] in
  (List.length (split "|" "120|80|0") = 3%nat /\ rgb three <> None /\ hsv three <> None)
  /\ (List.length (split "|" "120|80") = 2%nat /\ rgb two = None /\ hsv two = None).
Proof. repeat split; discriminate. Qed.

(** C4 as stated fails: the source of a [button] event is the string
    [button], not [parts[2]]. *)
Lemma C4_source_counterexample :
  let ev := parseEvent (R := Sample.runtime)
              ["event"; "buttonPress2"; "light.kitchen"; "button"] in
  source ev = Some "button" /\ source ev <> Some "light.kitchen".
Proof. split; [reflexivity | discriminate]. Qed.

(** ** Firmware command echoes *)

Section EchoProperties.
Context {R : Runtime} {K : Constants}.

(** The two branches of [parseBerryDriverUpdateEvent] and its result. *)
Lemma parseBerryDriverUpdateEvent_cases (input : JsValue) :
  parseBerryDriverUpdateEvent input =
  match get_prop STR_BERRYDRIVER_CMD_UPDATEDRIVER input with
  | Some v =>
      Some {| fw_type := "fw"; fw_source := FIRMWARE_BERRYDRIVER; fw_event := "update";
              fw_version := None;
              fw_status := if is_success_literal (Some v) then Some success else None;
              fw_statusMsg := None |}
  | None =>
      match get_prop STR_BERRYDRIVER_CMD_FLASHNEXTION input with
      | Some v =>
          Some {| fw_type := "fw"; fw_source := FIRMWARE_HMI; fw_event := "update";
                  fw_version := None;
                  fw_status := if is_success_literal (Some v) then Some success else None;
                  fw_statusMsg := None |}
      | None => None
      end
  end.
Proof.
  unfold parseBerryDriverUpdateEvent, hasProperty.
  destruct (get_prop STR_BERRYDRIVER_CMD_UPDATEDRIVER input) as [v|] eqn:Eu.
  - rewrite Eu. reflexivity.
  - destruct (get_prop STR_BERRYDRIVER_CMD_FLASHNEXTION input) as [v|] eqn:Ef.
    + rewrite Ef. reflexivity.
    + reflexivity.
Qed.

(** Whatever the input, the status of the result is never ['failed']. *)
Lemma parseBerryDriverUpdateEvent_never_failed (input : JsValue) (f : FirmwareEventArgs JsValue) :
  parseBerryDriverUpdateEvent input = Some f -> fw_status f <> Some failed.
Proof.
  rewrite parseBerryDriverUpdateEvent_cases.
  destruct (get_prop STR_BERRYDRIVER_CMD_UPDATEDRIVER input);
    [|destruct (get_prop STR_BERRYDRIVER_CMD_FLASHNEXTION input)];
    intros H; try discriminate; injection H as <-; cbn [fw_status];
    match goal with
    | |- (if ?b then _ else _) <> _ => destruct b
    end; discriminate.
Qed.


End EchoProperties.


(** ** The top-level decoder *)

Section ParseProperties.
Context {R : Runtime} {K : Constants}.

(** Whatever makes the [try] block throw, [parse] ends with the
    [TypeError] of its [catch] block. *)
Lemma parse_throws_TypeError_only (payloadStr : string) (e : JsError) :
  parse payloadStr = Throw e -> e = TypeError.
Proof.
  unfold parse, try_catch.
  match goal with |- match ?body with _ => _ end = _ -> _ => destruct body end.
  - discriminate.
  - intros H; injection H as <-; reflexivity.
Qed.

(** An ['unknown'] event that [parse] returns wraps the parsed value,
    never the payload string. *)
Lemma parse_unknown_wraps_parsed (payloadStr : string) (ev : EventArgs) :
  parse payloadStr = Ok (Some (Generic ev)) -> type ev = "unknown" ->
  exists temp, JSON_parse payloadStr = Some temp /\ data ev = Some (DataJson temp).
Proof.
  unfold parse, try_catch, bind.
  destruct (JSON_parse payloadStr) as [temp|]; [|discriminate].
  destruct (in_operator "CustomRecv" temp) as [[|]|]; try discriminate.
  - destruct (split_value "," _) as [parts|]; [|discriminate].
    intros H; injection H as <-.
    unfold parseCustomMessage.
    destruct (nth_error parts 0) as [head|]; [destruct (head =? "event")|];
      try discriminate.
    unfold parseEvent.
    destruct (nth_error parts 1) as [name|]; [|discriminate].
    repeat match goal with
           | |- context [if ?b then _ else _] => destruct b
           | |- context [match ?x with Some _ => _ | None => _ end] => destruct x
           end; discriminate.
  - destruct (in_operator "nlui_driver_version" temp) as [[|]|]; try discriminate.
    + destruct (parseNluiDriverEvent temp); discriminate.
    + intros H; injection H as <-. intros _. exists temp. split; reflexivity.
Qed.

(** C1, what the code does. On a payload that [JSON.parse] rejects,
    [parse] does not return: the [catch] block assigns [data] on
    [result], which is still [null], and the [TypeError] of that
    assignment leaves [parse]. No ['unknown'] event is produced. *)
Theorem C1_parse_throws_on_unparseable_payload (payloadStr : string) :
  JSON_parse payloadStr = None -> parse payloadStr = Throw TypeError.
Proof.
  intros H. unfold parse. rewrite H. reflexivity.
Qed.

End ParseProperties.

(** The decoder on the sample runtime: a comma payload, a payload that
    is a JSON number, and a parsed object of no known shape. *)
Example parse_OnOff :
  let payload := ("{" ++ Sample.quoted "CustomRecv" ++ ":"
                  ++ Sample.quoted "event,buttonPress2,light.kitchen,OnOff,1" ++ "}")%string in
  exists ev,
    parse (R := Sample.runtime) payload = Ok (Some (Generic ev))
    /\ type ev = "event" /\ event ev = Some "buttonPress2"
    /\ source ev = Some "light.kitchen" /\ entityId ev = Some "light.kitchen"
    /\ active ev = Some true.
Proof. eexists. split; [reflexivity|]. repeat split. Qed.

Example parse_json_number :
  parse (R := Sample.runtime) "12" = Throw TypeError.
Proof. reflexivity. Qed.

Example parse_other_object :
  let payload := ("{" ++ Sample.quoted "Flashing" ++ ":{}}")%string in
  exists ev,
    parse (R := Sample.runtime) payload = Ok (Some (Generic ev))
    /\ type ev = "unknown" /\ data ev = Some (DataJson (JObject [("Flashing", JObject [])])).
Proof. eexists. split; [reflexivity|]. repeat split. Qed.

(** C1 on the sample instance, at a payload that is not JSON. *)
Lemma C1_parse_throws_witness :
  JSON_parse (Runtime := Sample.runtime) "not json" = None
  /\ parse (R := Sample.runtime) "not json" = Throw TypeError.
Proof.
  split; [reflexivity|].
  exact (@C1_parse_throws_on_unparseable_payload Sample.runtime "not json" eq_refl).
Defined.

(** ** The task stack *)

Lemma pop_push (task : FirmwareType) (self : NSPanelUpdater) :
  pop (push task self) = (Some task, self).
Proof.
  unfold pop, push; simpl.
  rewrite rev_app_distr; simpl. rewrite rev_involutive.
  destruct self; reflexivity.
Qed.

Lemma pop_last (stack : list FirmwareType) (task : FirmwareType) (self : NSPanelUpdater) :
  _updateTaskStack self = stack ++ [task] ->
  pop self = (Some task, set_updateTaskStack stack self).
Proof.
  intros H. unfold pop. rewrite H, rev_app_distr; simpl.
  now rewrite rev_involutive.
Qed.

Lemma pop_empty (self : NSPanelUpdater) :
  _updateTaskStack self = [] -> pop self = (None, self).
Proof. intros H. unfold pop. now rewrite H. Qed.

(** Putting the popped task back gives the updater it was popped from. *)
Lemma push_back (stack : list FirmwareType) (task : FirmwareType) (self : NSPanelUpdater) :
  _updateTaskStack self = stack ++ [task] ->
  push task (set_updateTaskStack stack self) = self.
Proof. destruct self; simpl; intros ->; reflexivity. Qed.

Section TaskProperties.
Context {K : Constants}.

Lemma processUpdateTasks_empty (self : NSPanelUpdater) :
  _updateTaskStack self = [] -> processUpdateTasks self = (self, []).
Proof.
  intros H. unfold processUpdateTasks. now rewrite (pop_empty _ H).
Qed.

Lemma processUpdateTasks_busy (self : NSPanelUpdater)
    (stack : list FirmwareType) (task : FirmwareType) :
  _updateTaskStack self = stack ++ [task] -> _updateInProgress self = true ->
  processUpdateTasks self = (self, []).
Proof.
  intros Hstack Hlatch.
  unfold processUpdateTasks. rewrite (pop_last _ _ _ Hstack).
  destruct task; unfold _updateTasmotaFirmware, _updateBerryDriver, _updateHmi;
    simpl; rewrite Hlatch; now rewrite (push_back _ _ _ Hstack).
Qed.

Lemma processUpdateTasks_idle (self : NSPanelUpdater)
    (stack : list FirmwareType) (task : FirmwareType) :
  _updateTaskStack self = stack ++ [task] -> _updateInProgress self = false ->
  exists done,
    processUpdateTasks self
    = (set_updateInProgress true (set_updateTaskStack stack self), done)
    /\ commands done = (if _mqttHandler self then update_procedure task else []).
Proof.
  intros Hstack Hlatch.
  unfold processUpdateTasks. rewrite (pop_last _ _ _ Hstack).
  destruct task; unfold _updateTasmotaFirmware, _updateBerryDriver, _updateHmi, mqtt;
    simpl; rewrite Hlatch; eexists; (split; [reflexivity|]);
    destruct (_mqttHandler self); reflexivity.
Qed.

(** C5. [processUpdateTasks] takes the task pushed last off the stack.
    With the latch set it pushes that task back on top, so the updater
    is as it was, and nothing is sent. With the latch clear it sets the
    latch, leaves the rest of the stack, and sends the commands of that
    task's update procedure (none for want of a handler). *)
Theorem C5_processUpdateTasks_lifo (self : NSPanelUpdater)
    (stack : list FirmwareType) (task : FirmwareType) :
  _updateTaskStack self = stack ++ [task] ->
  fst (pop self) = Some task
  /\ (_updateInProgress self = true ->
        processUpdateTasks self = (self, []))
  /\ (_updateInProgress self = false ->
        let (self', done) := processUpdateTasks self in
        self' = set_updateInProgress true (set_updateTaskStack stack self)
        /\ _updateInProgress self' = true
        /\ _updateTaskStack self' = stack
        /\ commands done = (if _mqttHandler self then update_procedure task else [])).
Proof.
  intros Hstack.
  split; [now rewrite (pop_last _ _ _ Hstack)|].
  split; intros Hlatch.
  - exact (processUpdateTasks_busy _ _ _ Hstack Hlatch).
  - destruct (processUpdateTasks_idle _ _ _ Hstack Hlatch) as (done & -> & Hdone).
    repeat split. exact Hdone.
Qed.

(** C6. An ['update'] event with status ['success'] clears the latch and
    then processes the next task: with an empty stack the latch stays
    clear, with a task on the stack that task is taken and its commands
    are sent. With any other status, ['failed'] included, the updater
    stays as it is, latch and stack included, and nothing is done. *)
Theorem C6_update_event_clears_latch_on_success_only (self : NSPanelUpdater)
    (ty : string) (source : FirmwareType) (version : option string)
    (st : option UpdateStatus) (msg : option string) :
  let fwEvent := {| fw_type := ty; fw_source := source; fw_event := "update";
                    fw_version := version; fw_status := st; fw_statusMsg := msg |} in
  let result := onFirmwareEvent (Some fwEvent) self in
  (st = Some success ->
     result = processUpdateTasks (set_updateInProgress false self))
  /\ (st = Some success -> _updateTaskStack self = [] ->
        result = (set_updateInProgress false self, []))
  /\ (st = Some success ->
        forall stack task, _updateTaskStack self = stack ++ [task] ->
        exists done,
          result = (set_updateInProgress true (set_updateTaskStack stack self), done)
          /\ commands done = (if _mqttHandler self then update_procedure task else []))
  /\ (st <> Some success -> result = (self, []))
  /\ (st = Some failed ->
        _updateInProgress (fst result) = _updateInProgress self
        /\ _updateTaskStack (fst result) = _updateTaskStack self
        /\ snd result = []).
Proof.
  cbv zeta. unfold onFirmwareEvent; simpl.
  split; [|split; [|split; [|split]]].
  - intros ->. reflexivity.
  - intros -> Hempty. now apply processUpdateTasks_empty.
  - intros -> stack task Hstack.
    destruct (processUpdateTasks_idle (set_updateInProgress false self) stack task Hstack eq_refl)
      as (done & Hrun & Hdone).
    exists done. split; [|exact Hdone].
    rewrite Hrun. destruct self; reflexivity.
  - intros Hst. destruct st as [[|]|]; congruence.
  - intros ->. repeat split.
Qed.

End TaskProperties.

(** C5 on the sample instance: a busy updater with tasmota below the
    berry driver on its stack. *)
Lemma C5_processUpdateTasks_witness :
  let self := set_updateInProgress true
                (set_updateTaskStack [FIRMWARE_TASMOTA; FIRMWARE_BERRYDRIVER]
                   Sample.updater) in
  _updateTaskStack self = [FIRMWARE_TASMOTA] ++ [FIRMWARE_BERRYDRIVER]
  /\ fst (pop self) = Some FIRMWARE_BERRYDRIVER
  /\ (_updateInProgress self = true ->
        processUpdateTasks (K := Sample.constants) self = (self, []))
  /\ (_updateInProgress self = false ->
        let (self', done) := processUpdateTasks (K := Sample.constants) self in
        self' = set_updateInProgress true (set_updateTaskStack [FIRMWARE_TASMOTA] self)
        /\ _updateInProgress self' = true
        /\ _updateTaskStack self' = [FIRMWARE_TASMOTA]
        /\ commands done
           = (if _mqttHandler self
              then update_procedure (K := Sample.constants) FIRMWARE_BERRYDRIVER
              else [])).
Proof.
  split; [reflexivity|].
  exact (@C5_processUpdateTasks_lifo Sample.constants
           (set_updateInProgress true
              (set_updateTaskStack [FIRMWARE_TASMOTA; FIRMWARE_BERRYDRIVER]
                 Sample.updater))
           [FIRMWARE_TASMOTA] FIRMWARE_BERRYDRIVER eq_refl).
Defined.

(** The stack at work, on the sample instance: the tasmota update is
    confirmed and starts; the berry-driver update is confirmed while it
    runs and waits on the stack; the success event of the first starts
    the second. *)
Example confirmations_in_a_row :
  let K := Sample.constants in
  let (s1, d1) := onUpdateNotificationResult (K := K)
                    (Some "notify.update.tasmota") (Some "yes") Sample.updater in
  let (s2, d2) := onUpdateNotificationResult (K := K)
                    (Some "notify.update.nlui") (Some "yes") s1 in
  let (s3, d3) := onFirmwareEvent (K := K)
                    (Some {| fw_type := "fw"; fw_source := FIRMWARE_TASMOTA;
                             fw_event := "update"; fw_version := None;
                             fw_status := Some success; fw_statusMsg := None |}) s2 in
  (_updateInProgress s1 = true /\ _updateTaskStack s1 = []
   /\ commands d1 = update_procedure (K := K) FIRMWARE_TASMOTA)
  /\ (_updateInProgress s2 = true /\ _updateTaskStack s2 = [FIRMWARE_BERRYDRIVER]
      /\ d2 = [])
  /\ (_updateInProgress s3 = true /\ _updateTaskStack s3 = []
      /\ commands d3 = update_procedure (K := K) FIRMWARE_BERRYDRIVER).
Proof. vm_compute. repeat split. Qed.

(** The version of a tasmota report is the text before its first
    opening parenthesis. *)
Example setTasmotaVersion_strips_build :
  tasmota (current (_updateVersionData
             (setTasmotaVersion (Some "13.1.0(some-build)") Sample.updater)))
  = Some (VersionData.mk "13.1.0").
Proof. reflexivity. Qed.

(** ** Version acquisition: the status word *)

Lemma AllAcquired_is_63 : VersionAcquisitionStatus.AllAcquired = 63%Z.
Proof. reflexivity. Qed.

(** A status of known flags only with all six set is 63. *)
Lemma known_exact (s : Z) :
  Z.land s VersionAcquisitionStatus.AllAcquired = s -> known s -> s = 63%Z.
Proof. unfold known. rewrite AllAcquired_is_63. congruence. Qed.

Lemma known_testbit (s : Z) (k : Z) :
  known s -> (0 <= k < 6)%Z -> Z.testbit s k = true.
Proof.
  unfold known. rewrite AllAcquired_is_63. intros H Hk.
  assert (Hb : Z.testbit (Z.land s 63) k = true).
  { rewrite H.
    assert (k = 0 \/ k = 1 \/ k = 2 \/ k = 3 \/ k = 4 \/ k = 5)%Z as Hc by lia.
    destruct Hc as [->|[->|[->|[->|[->| ->]]]]]; reflexivity. }
  rewrite Z.land_spec in Hb. now apply andb_true_iff in Hb.
Qed.

(** Setting a known flag keeps a status of known flags only. *)
Lemma only_known_lor (s f : Z) :
  Z.land s VersionAcquisitionStatus.AllAcquired = s ->
  Z.land f VersionAcquisitionStatus.AllAcquired = f ->
  Z.land (Z.lor s f) VersionAcquisitionStatus.AllAcquired = Z.lor s f.
Proof. intros Hs Hf. now rewrite Z.land_lor_distr_l, Hs, Hf. Qed.

Section AcquisitionInvariant.
Context {R : Runtime} {K : Constants}.

Lemma processUpdateTasks_keeps (self : NSPanelUpdater) :
  _updateVersionData (fst (processUpdateTasks self)) = _updateVersionData self
  /\ autoUpdate (fst (processUpdateTasks self)) = autoUpdate self.
Proof.
  unfold processUpdateTasks, pop.
  destruct (rev (_updateTaskStack self)) as [|[| |] below];
    unfold _updateTasmotaFirmware, _updateBerryDriver, _updateHmi; simpl;
    try destruct (_updateInProgress self); split; reflexivity.
Qed.

(** Each of the six sources keeps [data_ok]: it stores its version and
    sets its own flag. *)
Ltac source_ok :=
  unfold data_ok, or_status, set_status, set_current, set_latest, status,
    set_updateVersionData;
  cbn [_updateVersionData versionAcquisitionStatus current latest
       tasmota berryDriver hmi];
  intros (Hm & H0 & H1 & H2 & H3 & H4 & H5);
  split; [apply only_known_lor; [exact Hm | reflexivity]|];
  repeat split; rewrite Z.lor_spec;
  first [ rewrite orb_false_r; assumption | intros _; discriminate ].

Lemma setTasmotaVersion_ok (v : option string) (self : NSPanelUpdater) :
  data_ok (_updateVersionData self) ->
  data_ok (_updateVersionData (setTasmotaVersion v self)).
Proof. destruct v; [|trivial]. unfold setTasmotaVersion. source_ok. Qed.

Lemma setBerryDriverVersion_ok (v : option string) (self : NSPanelUpdater) :
  data_ok (_updateVersionData self) ->
  data_ok (_updateVersionData (setBerryDriverVersion v self)).
Proof. destruct v; [|trivial]. unfold setBerryDriverVersion. source_ok. Qed.

Lemma setHmiVersion_ok (v : HMIVersion) (self : NSPanelUpdater) :
  data_ok (_updateVersionData self) ->
  data_ok (_updateVersionData (setHmiVersion v self)).
Proof. unfold setHmiVersion. source_ok. Qed.

Lemma onTasmotaRelease_ok (v : option string) (self : NSPanelUpdater) :
  data_ok (_updateVersionData self) ->
  data_ok (_updateVersionData (onTasmotaRelease v self)).
Proof. destruct v; [|trivial]. unfold onTasmotaRelease. source_ok. Qed.

Lemma onBerryDriverLatest_ok (v : option string) (self : NSPanelUpdater) :
  data_ok (_updateVersionData self) ->
  data_ok (_updateVersionData (onBerryDriverLatest v self)).
Proof. destruct v; [|trivial]. unfold onBerryDriverLatest. source_ok. Qed.

Lemma onNluiLatest_ok (g : option (string * string)) (self : NSPanelUpdater) :
  data_ok (_updateVersionData self) ->
  data_ok (_updateVersionData (onNluiLatest g self)).
Proof.
  destruct g as [[iv v]|]; [|trivial]. unfold onNluiLatest.
  destruct (truthy iv); [|trivial]. source_ok.
Qed.

Lemma deliver_keeps (m : Incoming) (self : NSPanelUpdater) :
  data_ok (_updateVersionData self) ->
  data_ok (_updateVersionData (fst (deliver m self)))
  /\ autoUpdate (fst (deliver m self)) = autoUpdate self.
Proof.
  intros Hok. destruct m as [fwEvent|v|notifyId action|v|v|g]; simpl.
  - unfold onFirmwareEvent. destruct fwEvent as [fwEvent|]; [|now split].
    destruct (fw_event fwEvent =? "version").
    + destruct (_ =? STR_UPDATE_FIRMWARE_TASMOTA); [|destruct (_ =? _)]; simpl.
      * split; [now apply setTasmotaVersion_ok|].
        unfold setTasmotaVersion. now destruct (fw_version fwEvent).
      * split; [now apply setBerryDriverVersion_ok|].
        unfold setBerryDriverVersion. now destruct (fw_version fwEvent).
      * now split.
    + destruct (fw_event fwEvent =? "update"); [|now split].
      destruct (fw_status fwEvent) as [[|]|]; try now split.
      destruct (processUpdateTasks_keeps (set_updateInProgress false self)) as [-> ->].
      now split.
  - split; [now apply setHmiVersion_ok | reflexivity].
  - unfold onUpdateNotificationResult.
    destruct notifyId as [id|], action as [act|]; try now split.
    match goal with |- context [if ?b then _ else _] => destruct b end; [|now split].
    match goal with
    | |- context [processUpdateTasks ?x] =>
        destruct (processUpdateTasks_keeps x) as [-> ->];
        assert (Hd : _updateVersionData x = _updateVersionData self
                     /\ autoUpdate x = autoUpdate self)
    end.
    { destruct (prefix _ _); [|now split].
      repeat match goal with |- context [if ?b then _ else _] => destruct b end;
        now split. }
    destruct Hd as [-> ->]. now split.
  - split; [now apply onTasmotaRelease_ok|].
    unfold onTasmotaRelease. now destruct v.
  - split; [now apply onBerryDriverLatest_ok|].
    unfold onBerryDriverLatest. now destruct v.
  - split; [now apply onNluiLatest_ok|].
    unfold onNluiLatest. destruct g as [[iv v]|]; [|reflexivity].
    now destruct (truthy iv).
Qed.

(** With the six versions there, either [semver.gt] throws and the
    updater stays as it is, or the comparisons go through and set the
    three available flags by their outcome. *)
Lemma computeUpdateAvailable_ok (self : NSPanelUpdater) :
  data_ok (_updateVersionData self) -> known (status self) ->
  exists lt ct,
    tasmota (latest (_updateVersionData self)) = Some lt
    /\ tasmota (current (_updateVersionData self)) = Some ct
    /\ match semver_gt (VersionData.version lt) (VersionData.version ct) with
       | Ok _ =>
           exists self',
             computeUpdateAvailable self = (self', Ok tt) /\ flags_computed self self'
       | Throw e => computeUpdateAvailable self = (self, Throw e)
       end.
Proof.
  intros Hok Hknown.
  assert (Hbit := fun k => known_testbit (k := k) Hknown).
  destruct Hok as (Hm & H0 & H1 & H2 & H3 & H4 & H5).
  assert (Hs := known_exact Hm Hknown).
  unfold status in *.
  destruct self as [mq i18n au latch stack [[ct cb ch] [lt lb lh] s]].
  cbn [_updateVersionData versionAcquisitionStatus current latest
       tasmota berryDriver hmi] in *.
  subst s.
  destruct ct as [ct|]; [|now destruct H0].
  destruct lt as [lt|]; [|now destruct H1].
  destruct cb as [cb|]; [|now destruct H2].
  destruct lb as [lb|]; [|now destruct H3].
  destruct ch as [ch|]; [|now destruct H4].
  destruct lh as [lh|]; [|now destruct H5].
  unfold computeUpdateAvailable, or_status, set_status, set_updateVersionData, status.
  cbn [_updateVersionData versionAcquisitionStatus current latest
       tasmota berryDriver hmi].
  exists lt, ct. split; [reflexivity|]. split; [reflexivity|].
  destruct (semver_gt (VersionData.version lt) (VersionData.version ct))
    as [[|]|e] eqn:E1; [| |reflexivity];
    cbn [_updateVersionData versionAcquisitionStatus current latest
         tasmota berryDriver hmi];
    destruct (string_gt (VersionData.version lb) (VersionData.version cb)) eqn:E2;
    cbn [_updateVersionData versionAcquisitionStatus current latest
         tasmota berryDriver hmi];
    destruct (js_gt (internalVersion lh) (internalVersion ch)) eqn:E3;
    (eexists; split; [reflexivity|]);
    exists lt, ct, lb, cb, lh, ch;
    unfold known, has_flag, status;
    cbn [_updateVersionData versionAcquisitionStatus current latest
         tasmota berryDriver hmi];
    rewrite ?E1, ?E2, ?E3; repeat split.
Qed.

Lemma deliver_to_fields (m : Incoming) (a : Acquisition) :
  self (deliver_to m a) = fst (deliver m (self a))
  /\ i (deliver_to m a) = i a /\ promise (deliver_to m a) = promise a
  /\ settled (deliver_to m a) = settled a /\ timer (deliver_to m a) = timer a
  /\ seen (deliver_to m a) = seen a.
Proof. unfold deliver_to. destruct (deliver m (self a)). repeat split. Qed.

Lemma deliver_to_polling (au : bool) (m : Incoming) (a : Acquisition) :
  polling au a -> polling au (deliver_to m a).
Proof.
  intros (Ht & Hseen & Hi & Hok & Hau & Hlt & Hge).
  destruct (deliver_to_fields m a) as (Es & Ei & Ep & Est & Et & Ese).
  destruct (deliver_keeps m _ Hok) as [Hok' Hau'].
  unfold polling. rewrite Es, Ei, Ep, Est, Et, Ese.
  split; [exact Ht|]. split; [exact Hseen|]. split; [exact Hi|].
  split; [exact Hok'|]. split; [congruence|]. split; [exact Hlt | exact Hge].
Qed.

Lemma deliver_to_finished (au : bool) (m : Incoming) (a : Acquisition) :
  finished au a -> finished au (deliver_to m a).
Proof.
  intros (Ht & l & s & Hseen & Hrest).
  destruct (deliver_to_fields m a) as (Es & Ei & Ep & Est & Et & Ese).
  unfold finished. rewrite Ep, Est, Et, Ese.
  split; [assumption|]. exists l, s. split; assumption.
Qed.

Lemma known_dec (s : Z) :
  (Z.land s VersionAcquisitionStatus.AllAcquired =? VersionAcquisitionStatus.AllAcquired)%Z = true
  <-> known s.
Proof. unfold known. apply Z.eqb_eq. Qed.

(** One call of a polling acquisition: it goes on polling, or it found
    the six flags and is finished. *)
Lemma fire_polling (au : bool) (a : Acquisition) :
  polling au a -> polling au (fire a) \/ finished au (fire a).
Proof.
  intros (Ht & Hseen & Hi & Hok & Hau & Hlt & Hge).
  unfold fire. rewrite Ht. unfold waitForDataAcquisition.
  destruct (Z.land (status (self a)) _ =? _)%Z eqn:Ek.
  - right. apply known_dec in Ek.
    destruct (computeUpdateAvailable_ok _ Hok Ek) as (lt & ct & Hlt' & Hct' & Hrun).
    destruct (semver_gt (VersionData.version lt) (VersionData.version ct))
      as [newer|e] eqn:Egt.
    + destruct Hrun as (self' & -> & Hflags).
      cbn [fst]. unfold finished, settle; cbn [promise timer seen settled self].
      destruct (Nat.lt_ge_cases (List.length (seen a)) 10) as [Hn|Hn].
      * destruct (Hlt Hn) as [-> _]. cbn [promise timer seen settled self].
        split; [reflexivity|]. exists (seen a), (status (self a)).
        split; [reflexivity|]. split; [exact Hseen|]. split; [exact Ek|].
        split.
        -- intros _. left. exists (self a), self'.
           split; [reflexivity|]. split; [reflexivity|]. split; [|exact Hflags].
           destruct Hflags as (? & ? & ? & ? & ? & ? & Hf).
           destruct Hf as (_ & _ & _ & _ & _ & _ & _ & _ & Hau' & _). congruence.
        -- intros Hn'. lia.
      * destruct (Hge Hn) as (s9 & Hs9 & ->). cbn [promise timer seen settled self].
        split; [reflexivity|]. exists (seen a), (status (self a)).
        split; [reflexivity|]. split; [exact Hseen|]. split; [exact Ek|].
        split.
        -- intros Hn'. lia.
        -- intros _. now exists s9.
    + rewrite Hrun. cbn [fst]. unfold finished; cbn [promise timer seen settled self].
      split; [reflexivity|]. exists (seen a), (status (self a)).
      split; [reflexivity|]. split; [exact Hseen|]. split; [exact Ek|].
      split.
      * intros Hn. right. destruct (Hlt Hn) as [-> ->].
        split; [reflexivity|]. split; [reflexivity|].
        exists (self a), lt, ct, e. now repeat split.
      * intros Hn. destruct (Hge Hn) as (s9 & Hs9 & ->). now exists s9.
  - left.
    assert (Hnk : ~ known (status (self a))).
    { intros Hk. apply known_dec in Hk. congruence. }
    cbn [fst i self]. unfold settle.
    assert (Hlen : List.length (seen a ++ [status (self a)]) = S (List.length (seen a))).
    { rewrite length_app; simpl; lia. }
    assert (Hall : Forall (fun s => ~ known s) (seen a ++ [status (self a)])).
    { apply Forall_app; split; [assumption | now constructor]. }
    destruct (i a - 1 =? 0)%Z eqn:Ei.
    + apply Z.eqb_eq in Ei.
      assert (Hn : List.length (seen a) = 9%nat) by lia.
      destruct Hlt as [-> _]; [lia|].
      cbn [promise timer seen settled self i].
      unfold polling; cbn [promise timer seen settled self i].
      rewrite Hlen.
      split; [reflexivity|]. split; [exact Hall|]. split; [lia|].
      split; [exact Hok|]. split; [exact Hau|]. split; [intros; lia|].
      intros _. exists (status (self a)). split; [|reflexivity].
      rewrite nth_error_app2 by lia. rewrite Hn. reflexivity.
    + apply Z.eqb_neq in Ei.
      unfold polling; cbn [promise timer seen settled self i].
      rewrite Hlen.
      split; [reflexivity|]. split; [exact Hall|]. split; [lia|].
      split; [exact Hok|]. split; [exact Hau|]. split.
      * intros Hn. apply Hlt; lia.
      * intros Hn. destruct Hge as (s9 & Hs9 & Hp); [lia|].
        exists s9. split; [|assumption].
        rewrite nth_error_app1; [assumption|].
        apply nth_error_Some. congruence.
Qed.

Lemma second_inv (au : bool) (arriving : list Incoming) (a : Acquisition) :
  polling au a \/ finished au a ->
  polling au (second arriving a) \/ finished au (second arriving a).
Proof.
  unfold second. revert a.
  induction arriving as [|m arriving IH]; intros a Ha; simpl.
  - destruct Ha as [Hp|Hf]; [now apply fire_polling|].
    right. unfold fire. destruct Hf as (Ht & Hrest). rewrite Ht.
    split; assumption.
  - apply IH. destruct Ha as [Hp|Hf];
      [left; now apply deliver_to_polling | right; now apply deliver_to_finished].
Qed.

(** However the answers arrive, an acquisition either still polls or is
    finished, with the promise in the state that goes with it. *)
Lemma acquire_inv (self0 : NSPanelUpdater) (arriving : list (list Incoming)) :
  let a := _acquireVersions self0 arriving in
  polling (autoUpdate self0) a \/ finished (autoUpdate self0) a.
Proof.
  unfold _acquireVersions.
  match goal with
  | |- context [fold_left _ arriving ?a1] =>
      assert (H1 : polling (autoUpdate self0) a1 \/ finished (autoUpdate self0) a1);
      [|generalize dependent a1]
  end.
  - left. unfold waitForDataAcquisition, polling, data_ok, known; simpl.
    repeat split; try discriminate; try (intros; lia).
    constructor; [discriminate | constructor].
  - cbv zeta. induction arriving as [|arr arriving IH]; intros a1 H1; simpl.
    + exact H1.
    + apply IH. now apply second_inv.
Qed.

End AcquisitionInvariant.

(** ** The order of version strings *)

(** The comparison of the code is the plain lexicographic order. *)
Lemma ltb_lex (a b : string) : String.ltb a b = true <-> lex_lt a b.
Proof.
  unfold String.ltb. revert b.
  induction a as [|c1 a IH]; intros [|c2 b]; simpl.
  - split; [discriminate | inversion 1].
  - split; [constructor | reflexivity].
  - split; [discriminate | inversion 1].
  - destruct (Ascii.compare c1 c2) eqn:E.
    + apply Ascii.compare_eq_iff in E. subst c2. rewrite IH. split.
      * now constructor.
      * inversion 1; subst; [exfalso; eapply N.lt_irrefl; eassumption | assumption].
    + split; [|reflexivity]. intros _. apply lex_first.
      now apply N.compare_lt_iff.
    + split; [discriminate|]. unfold Ascii.compare in E.
      inversion 1; subst.
      * apply N.compare_gt_iff in E. exfalso. eapply N.lt_asymm; eassumption.
      * rewrite N.compare_refl in E. discriminate.
Qed.

Lemma string_gt_lex (a b : string) : string_gt a b = true <-> lex_lt b a.
Proof. apply ltb_lex. Qed.

Lemma js_gt_lex (a b : option string) :
  js_gt a b = true <-> exists x y, a = Some x /\ b = Some y /\ lex_lt y x.
Proof.
  destruct a as [x|], b as [y|]; simpl.
  - rewrite string_gt_lex. split.
    + intros H. now exists x, y.
    + intros (x' & y' & Hx & Hy & H). congruence.
  - split; [discriminate | intros (x' & y' & _ & Hy & _); discriminate].
  - split; [discriminate | intros (x' & y' & Hx & _); discriminate].
  - split; [discriminate | intros (x' & y' & Hx & _); discriminate].
Qed.

Example version_orders :
  string_gt "53" "52" = true /\ string_gt "10" "9" = false /\ string_gt "9" "10" = true
  /\ js_gt (Some "53") None = false.
Proof. repeat split. Qed.

(** ** Version acquisition: polling *)

Section AcquisitionProperties.
Context {R : Runtime} {K : Constants}.

Lemma settle_fields (p : PromiseState) (a : Acquisition) :
  self (settle p a) = self a /\ timer (settle p a) = timer a
  /\ seen (settle p a) = seen a /\ i (settle p a) = i a.
Proof. unfold settle. destruct (promise a); repeat split. Qed.

(** A call adds one entry to [seen]. *)
Lemma waitForDataAcquisition_seen (a : Acquisition) :
  seen (fst (waitForDataAcquisition a)) = seen a ++ [status (self a)].
Proof.
  unfold waitForDataAcquisition.
  destruct (_ =? _)%Z.
  - destruct (computeUpdateAvailable (self a)) as [self' [[]|e]]; cbn [fst].
    + now destruct (settle_fields (Resolved (status self'))
                      {| self := self'; i := i a; promise := promise a;
                         settled := settled a; timer := false;
                         seen := seen a ++ [status (self a)]; out := out a |})
        as (_ & _ & -> & _).
    + reflexivity.
  - cbn [fst]. destruct (_ =? 0)%Z; [|reflexivity].
    match goal with
    | |- seen (settle ?p ?x) = _ => now destruct (settle_fields p x) as (_ & _ & -> & _)
    end.
Qed.

(** One call per second while the timer is set, none after. *)
Lemma second_counts (arr : list Incoming) (a : Acquisition) :
  (timer a = false ->
     timer (second arr a) = false /\ seen (second arr a) = seen a)
  /\ (timer a = true ->
        List.length (seen (second arr a)) = S (List.length (seen a))).
Proof.
  unfold second.
  assert (Hd : forall a,
             timer (fold_left (fun a m => deliver_to m a) arr a) = timer a
             /\ seen (fold_left (fun a m => deliver_to m a) arr a) = seen a).
  { induction arr as [|m arr IH]; intros b; simpl; [now split|].
    destruct (IH (deliver_to m b)) as [-> ->].
    now destruct (deliver_to_fields m b) as (_ & _ & _ & _ & -> & ->). }
  destruct (Hd a) as [Ht Hs]. unfold fire. rewrite Ht. split; intros E; rewrite E.
  - split; congruence.
  - rewrite waitForDataAcquisition_seen, length_app, Hs. simpl. lia.
Qed.

Lemma seconds_count (arriving : list (list Incoming)) (a : Acquisition) :
  let a' := fold_left (fun a arr => second arr a) arriving a in
  (List.length (seen a') <= List.length (seen a) + List.length arriving)%nat
  /\ (timer a' = true ->
        List.length (seen a') = (List.length (seen a) + List.length arriving)%nat)
  /\ (timer a = false -> timer a' = false).
Proof.
  cbv zeta. revert a.
  induction arriving as [|arr arriving IH]; intros a; simpl.
  - repeat split; try lia; auto.
  - destruct (IH (second arr a)) as (Hle & Heq & Hoff).
    destruct (second_counts arr a) as [Hfalse Htrue].
    destruct (timer a) eqn:Et.
    + rewrite Htrue in * by reflexivity.
      repeat split; [lia | intros H; rewrite (Heq H); lia | discriminate].
    + destruct (Hfalse eq_refl) as [Ht' Hs']. rewrite Hs' in *.
      repeat split; [lia | | auto].
      intros H. rewrite (Hoff Ht') in H. discriminate.
Qed.

End AcquisitionProperties.

(** What has arrived, the calls aside. *)
Section AcquisitionTrace.
Context {R : Runtime} {K : Constants}.

Lemma deliver_all_app (xs ys : list Incoming) (self : NSPanelUpdater) :
  fst (deliver_all (xs ++ ys) self) = fst (deliver_all ys (fst (deliver_all xs self))).
Proof.
  revert self. induction xs as [|m xs IH]; intros self; cbn [app deliver_all].
  - reflexivity.
  - destruct (deliver m self) as [self' done]. specialize (IH self').
    destruct (deliver_all (xs ++ ys) self') as [s1 d1].
    destruct (deliver_all xs self') as [s2 d2]. cbn [fst] in *. exact IH.
Qed.

Lemma deliveries_fields (ms : list Incoming) (a : Acquisition) :
  let a' := fold_left (fun a m => deliver_to m a) ms a in
  self a' = fst (deliver_all ms (self a))
  /\ i a' = i a /\ promise a' = promise a /\ settled a' = settled a
  /\ timer a' = timer a /\ seen a' = seen a.
Proof.
  cbv zeta. revert a. induction ms as [|m ms IH]; intros a; cbn [fold_left deliver_all].
  - repeat split.
  - destruct (IH (deliver_to m a)) as (Es & Ei & Ep & Est & Et & Ese).
    destruct (deliver_to_fields m a) as (Es' & Ei' & Ep' & Est' & Et' & Ese').
    rewrite Es, Ei, Ep, Est, Et, Ese, Es', Ei', Ep', Est', Et', Ese'.
    destruct (deliver m (self a)) as [self' done]. cbn [fst].
    destruct (deliver_all ms self') as [s1 d1]. repeat split.
Qed.

Lemma arrived_snoc (self0 : NSPanelUpdater) (arriving : list (list Incoming))
    (arr : list Incoming) :
  arrived self0 (arriving ++ [arr]) (S (List.length arriving))
  = fst (deliver_all arr (arrived self0 arriving (List.length arriving))).
Proof.
  unfold arrived.
  rewrite firstn_all2 by (rewrite length_app; simpl; lia).
  rewrite firstn_all, concat_app, deliver_all_app. cbn [List.concat].
  now rewrite app_nil_r.
Qed.

Lemma arrived_prefix (self0 : NSPanelUpdater) (arriving more : list (list Incoming))
    (k : nat) :
  (k <= List.length arriving)%nat ->
  arrived self0 (arriving ++ more) k = arrived self0 arriving k.
Proof.
  intros Hk. unfold arrived. rewrite firstn_app.
  replace (k - List.length arriving)%nat with 0%nat by lia.
  cbn [firstn]. now rewrite app_nil_r.
Qed.

Lemma deliver_all_ok (ms : list Incoming) (self : NSPanelUpdater) :
  data_ok (_updateVersionData self) ->
  data_ok (_updateVersionData (fst (deliver_all ms self))).
Proof.
  revert self. induction ms as [|m ms IH]; intros self Hok; cbn [deliver_all].
  - exact Hok.
  - destruct (deliver_keeps m _ Hok) as [Hok' _].
    destruct (deliver m self) as [self' done]. cbn [fst] in Hok'.
    specialize (IH self' Hok').
    destruct (deliver_all ms self') as [s1 d1]. exact IH.
Qed.

Lemma arrived_ok (self0 : NSPanelUpdater) (arriving : list (list Incoming)) (k : nat) :
  data_ok (_updateVersionData (arrived self0 arriving k)).
Proof.
  unfold arrived. apply deliver_all_ok.
  unfold data_ok; simpl. repeat split; discriminate.
Qed.

Lemma map_seq_snoc (found : nat -> Z) (n : nat) :
  map found (seq 0 (S n)) = map found (seq 0 n) ++ [found n].
Proof. now rewrite seq_S, map_app. Qed.

(** A polling acquisition holds the updater as the arrivals alone leave
    it and has seen the status at every second so far; one that polls
    no more has seen the status up to the second of its last call, and
    the outcome of the comparisons in that call decides the promise if
    the call was one of the first ten. *)
Lemma acquire_trace (self0 : NSPanelUpdater) (arriving : list (list Incoming)) :
  let a := _acquireVersions self0 arriving in
  let found k := status (arrived self0 arriving k) in
  (timer a = true ->
     self a = arrived self0 arriving (List.length arriving)
     /\ seen a = map found (seq 0 (S (List.length arriving))))
  /\ (timer a = false ->
        exists n,
          (n <= List.length arriving)%nat
          /\ seen a = map found (seq 0 (S n))
          /\ ((n < 10)%nat ->
                match computeUpdateAvailable (arrived self0 arriving n) with
                | (st, Ok _) => promise a = Resolved (status st) /\ settled a = Some st
                | (_, Throw _) => promise a = Pending /\ settled a = None
                end)).
Proof.
  cbv zeta. induction arriving as [|arr arriving IH] using rev_ind.
  - split; [|discriminate]. intros _. split; reflexivity.
  - destruct IH as [IHon IHoff].
    assert (Hstep : _acquireVersions self0 (arriving ++ [arr])
                    = second arr (_acquireVersions self0 arriving)).
    { unfold _acquireVersions. now rewrite fold_left_app. }
    rewrite Hstep, length_app, Nat.add_1_r.
    assert (Hfound : forall n, (n <= List.length arriving)%nat ->
               map (fun k => status (arrived self0 (arriving ++ [arr]) k)) (seq 0 (S n))
               = map (fun k => status (arrived self0 arriving k)) (seq 0 (S n))).
    { intros n Hn. apply map_ext_in. intros k Hk. apply in_seq in Hk.
      rewrite arrived_prefix by lia. reflexivity. }
    destruct (deliveries_fields arr (_acquireVersions self0 arriving))
      as (Es & Ei & Ep & Est & Et & Ese).
    unfold second.
    set (a := _acquireVersions self0 arriving) in *.
    set (b := fold_left (fun a m => deliver_to m a) arr a) in *.
    unfold fire. rewrite Et.
    destruct (timer a) eqn:Ht.
    + destruct (IHon eq_refl) as [Hself Hseen].
      assert (Hb : self b = arrived self0 (arriving ++ [arr]) (S (List.length arriving))).
      { rewrite Es, Hself. symmetry. apply arrived_snoc. }
      assert (Hpoll : polling (autoUpdate self0) a).
      { destruct (acquire_inv self0 arriving) as [Hp|Hf]; [exact Hp|].
        destruct Hf as (Hoff & _). fold a in Hoff. congruence. }
      destruct Hpoll as (_ & _ & _ & _ & _ & Hlt & _).
      assert (Hseen' : seen b ++ [status (self b)]
                       = map (fun k => status (arrived self0 (arriving ++ [arr]) k))
                           (seq 0 (S (S (List.length arriving))))).
      { rewrite (map_seq_snoc _ (S (List.length arriving))), Hfound by lia.
        now rewrite Ese, Hseen, Hb. }
      unfold waitForDataAcquisition.
      destruct (Z.land (status (self b)) _ =? _)%Z eqn:Ek.
      * destruct (computeUpdateAvailable (self b)) as [self' [[]|e]] eqn:Erun.
        -- cbn [fst]. split.
           { intros Hon. exfalso.
             destruct (settle_fields (Resolved (status self'))
                         {| self := self'; i := i b; promise := promise b;
                            settled := settled b; timer := false;
                            seen := seen b ++ [status (self b)]; out := out b |})
               as (_ & Htm & _). rewrite Htm in Hon. discriminate. }
           intros _. exists (S (List.length arriving)).
           split; [lia|]. split.
           { destruct (settle_fields (Resolved (status self'))
                         {| self := self'; i := i b; promise := promise b;
                            settled := settled b; timer := false;
                            seen := seen b ++ [status (self b)]; out := out b |})
               as (_ & _ & -> & _). exact Hseen'. }
           intros Hn. rewrite <- Hb, Erun.
           destruct Hlt as [Hp Hs]; [rewrite Hseen, length_map, length_seq; lia|].
           unfold settle. cbn [promise settled self]. rewrite Ep, Hp.
           cbn [promise settled]. now split.
        -- cbn [fst timer seen promise settled]. split; [discriminate|].
           intros _. exists (S (List.length arriving)).
           split; [lia|]. split; [exact Hseen'|].
           intros Hn. rewrite <- Hb, Erun.
           destruct Hlt as [Hp Hs]; [rewrite Hseen, length_map, length_seq; lia|].
           rewrite Ep, Est. now split.
      * cbn [fst]. split; [|intros Hoff; exfalso].
        -- intros _.
           match goal with
           | |- context [if ?c then settle ?p ?x else ?x] =>
               assert (Hf : self (if c then settle p x else x) = self b
                            /\ seen (if c then settle p x else x)
                               = seen b ++ [status (self b)]);
               [destruct c; [destruct (settle_fields p x) as (-> & _ & -> & _)|];
                split; reflexivity|]
           end.
           destruct Hf as [-> ->]. split; [exact Hb | exact Hseen'].
        -- match goal with
           | H : timer (if ?c then settle ?p ?x else ?x) = false |- _ =>
               destruct c; [destruct (settle_fields p x) as (_ & Htm & _);
                            rewrite Htm in H|]; cbn [timer] in H; discriminate
           end.
    + split; [intros Hon; rewrite Et in Hon; discriminate|]. intros _.
      destruct (IHoff eq_refl) as (n & Hn & Hseen & Hout).
      exists n. split; [lia|]. split.
      * now rewrite Ese, Hfound.
      * intros Hten. rewrite arrived_prefix by lia. rewrite Ep, Est. now apply Hout.
Qed.

(** C7. [_acquireVersions] calls [waitForDataAcquisition] once at the
    start and then once a second, each call finding the status as the
    arrivals so far have left it, until a call finds the six known
    flags; [n] is the second of the last call so far. While no call has
    found them the promise is pending through the ninth call and
    rejected from the tenth on with the status the tenth found, a
    partial flag set. A call among the first ten that finds them ends
    the polling and resolves the promise with a status of the six
    flags, provided [semver.gt] returns on the two tasmota versions;
    when it throws there, the call ends without resolving, no further
    call is made and the promise stays pending. A later call that finds
    them ends the polling and leaves the promise rejected. *)
Theorem C7_acquire_polls_ten_times (self0 : NSPanelUpdater)
    (arriving : list (list Incoming)) :
  let a := _acquireVersions self0 arriving in
  let found k := status (arrived self0 arriving k) in
  exists n,
    (n <= List.length arriving)%nat
    /\ seen a = map found (seq 0 (S n))
    /\ (forall k, (k < n)%nat -> ~ known (found k))
    /\ (timer a = true <-> ~ known (found n))
    /\ (~ known (found n) -> n = List.length arriving)
    /\ (~ known (found n) -> (n < 9)%nat -> promise a = Pending)
    /\ (~ known (found n) -> (9 <= n)%nat -> promise a = Rejected (found 9))
    /\ (known (found n) -> (10 <= n)%nat -> promise a = Rejected (found 9))
    /\ (known (found n) -> (n < 10)%nat ->
          exists lt ct,
            tasmota (latest (_updateVersionData (arrived self0 arriving n))) = Some lt
            /\ tasmota (current (_updateVersionData (arrived self0 arriving n))) = Some ct
            /\ match semver_gt (VersionData.version lt) (VersionData.version ct) with
               | Ok _ => exists r, promise a = Resolved r /\ known r
               | Throw _ => promise a = Pending
               end).
Proof.
  cbv zeta.
  destruct (acquire_trace self0 arriving) as [Hon Hoff].
  set (a := _acquireVersions self0 arriving) in *.
  set (found := fun k => status (arrived self0 arriving k)) in *.
  assert (Hnth : forall n k, (k <= n)%nat ->
             nth_error (map found (seq 0 (S n))) k = Some (found k)).
  { intros n k Hk. rewrite nth_error_map, nth_error_seq.
    destruct (Nat.ltb_spec k (S n)); [reflexivity | lia]. }
  destruct (acquire_inv self0 arriving) as [Hp|Hf]; fold a in Hp || fold a in Hf.
  - destruct Hp as (Ht & Hseen & _ & _ & _ & Hlt & Hge).
    destruct (Hon Ht) as [_ Hs]. exists (List.length arriving).
    assert (Hnot : forall k, (k <= List.length arriving)%nat -> ~ known (found k)).
    { intros k Hk. rewrite Forall_forall in Hseen. apply Hseen.
      rewrite Hs. eapply nth_error_In. now apply Hnth. }
    assert (Hlen : List.length (seen a) = S (List.length arriving))
      by now rewrite Hs, length_map, length_seq.
    split; [lia|]. split; [exact Hs|].
    split; [intros k Hk; apply Hnot; lia|].
    split; [split; [intros _; now apply Hnot | intros _; exact Ht]|].
    split; [reflexivity|].
    split; [intros _ Hn; apply Hlt; lia|].
    split.
    + intros _ Hn. destruct Hge as (s & Hs9 & ->); [lia|].
      rewrite Hs, Hnth in Hs9 by lia. injection Hs9 as <-. reflexivity.
    + split; intros Hk; exfalso; now apply (Hnot (List.length arriving)).
  - destruct Hf as (Ht & l & s & Hseen & Hl & Hs & _ & Hrej).
    destruct (Hoff Ht) as (n & Hn & Htrace & Hout). exists n.
    rewrite Htrace, map_seq_snoc in Hseen. apply app_inj_tail in Hseen.
    destruct Hseen as [El Es]. subst l s.
    assert (Hlen : List.length (map found (seq 0 n)) = n)
      by now rewrite length_map, length_seq.
    assert (Hbefore : forall k, (k < n)%nat -> ~ known (found k)).
    { intros k Hk. rewrite Forall_forall in Hl. apply Hl.
      apply (nth_error_In _ k). rewrite nth_error_map, nth_error_seq.
      destruct (Nat.ltb_spec k n); [reflexivity | lia]. }
    split; [exact Hn|]. split; [exact Htrace|]. split; [exact Hbefore|].
    split; [split; [congruence | intros Hnk; contradiction]|].
    split; [intros Hnk; contradiction|].
    split; [intros Hnk; contradiction|].
    split; [intros Hnk; contradiction|].
    split.
    + intros _ Hten. destruct Hrej as (s9 & Hs9 & ->); [lia|].
      rewrite nth_error_map, nth_error_seq in Hs9.
      destruct (Nat.ltb_spec 9 n); [|lia]. simpl in Hs9.
      injection Hs9 as <-. reflexivity.
    + intros _ Hten.
      destruct (computeUpdateAvailable_ok _ (arrived_ok self0 arriving n) Hs)
        as (lt & ct & Hlt & Hct & Hrun).
      exists lt, ct. split; [exact Hlt|]. split; [exact Hct|].
      specialize (Hout Hten).
      destruct (semver_gt (VersionData.version lt) (VersionData.version ct)) as [newer|e].
      * destruct Hrun as (self' & Erun & Hflags). rewrite Erun in Hout.
        destruct Hout as [Hp _]. exists (status self'). split; [exact Hp|].
        destruct Hflags as (? & ? & ? & ? & ? & ? & Hf).
        now destruct Hf as (_ & _ & _ & _ & _ & _ & _ & _ & _ & Hk' & _).
      * rewrite Hrun in Hout. now destruct Hout.
Qed.

End AcquisitionTrace.

(** C7 on the sample instance, with a development build on the panel:
    the six answers arrive in the first second, the second call finds
    the six flags, [semver.gt] throws on 13.1.0.2, and two seconds later
    there has been no further call and the promise is still pending. *)
Lemma C7_acquire_polls_witness :
  let arriving := [Sample.answers_of_development_build; []; []] in
  let a := _acquireVersions (R := Sample.runtime) (K := Sample.constants)
             Sample.updater arriving in
  known (status (arrived (K := Sample.constants) Sample.updater arriving 1))
  /\ seen a = [0; 63]%Z /\ timer a = false /\ promise a = Pending.
Proof.
  intros arriving a.
  assert (Hk : known (status (arrived (K := Sample.constants) Sample.updater arriving 1)))
    by reflexivity.
  split; [exact Hk|]. split; [reflexivity|]. split; [reflexivity|].
  destruct (@C7_acquire_polls_ten_times Sample.runtime Sample.constants
              Sample.updater arriving)
    as (n & _ & Hseen & _ & _ & _ & _ & _ & _ & Hfound).
  fold a in Hseen, Hfound.
  assert (Hn : n = 1%nat).
  { apply (f_equal (@List.length Z)) in Hseen.
    rewrite length_map, length_seq in Hseen.
    change (List.length (seen a)) with 2%nat in Hseen. lia. }
  subst n.
  destruct (Hfound Hk ltac:(lia)) as (lt & ct & Hlt & Hct & Hrun).
  assert (El : lt = VersionData.mk "13.2.0")
    by (apply (f_equal (fun o => match o with Some v => v | None => lt end)) in Hlt;
        symmetry; exact Hlt).
  assert (Ec : ct = VersionData.mk "13.1.0.2")
    by (apply (f_equal (fun o => match o with Some v => v | None => ct end)) in Hct;
        symmetry; exact Hct).
  subst lt ct.
  change (semver_gt (VersionData.version (VersionData.mk "13.2.0"))
            (VersionData.version (VersionData.mk "13.1.0.2")))
    with (Throw (A := bool) TypeError) in Hrun.
  exact Hrun.
Defined.


(** ** The available flags *)

Section PolicyProperties.
Context {R : Runtime} {K : Constants}.

Lemma flags_computed_policy (before after : NSPanelUpdater) :
  flags_computed before after -> asymmetric_policy before after.
Proof.
  intros (lt & ct & lb & cb & lh & ch & H1 & H2 & H3 & H4 & H5 & H6
          & _ & _ & _ & _ & Ht & Hb & Hh).
  exists lt, ct, lb, cb, lh, ch.
  rewrite Ht, Hb, Hh, string_gt_lex, js_gt_lex.
  repeat split; auto; congruence.
Qed.

Lemma deliveries_inv (au : bool) (more : list Incoming) (a : Acquisition) :
  polling au a \/ finished au a ->
  let a' := fold_left (fun a m => deliver_to m a) more a in
  polling au a' \/ finished au a'.
Proof.
  cbv zeta. revert a. induction more as [|m more IH]; intros a Ha; simpl; [exact Ha|].
  apply IH. destruct Ha as [Hp|Hf];
    [left; now apply deliver_to_polling | right; now apply deliver_to_finished].
Qed.

(** C8. Whenever a call of [waitForDataAcquisition] finds the six known
    flags, at any point of any acquisition, the two tasmota versions are
    there and the call hands them to [semver.gt]. When that returns,
    the call computes the available flags from the versions it finds:
    the tasmota flag is set if and only if [semver.gt] puts the latest
    version above the current one, the berry-driver flag if and only if
    the current version string is before the latest in the plain
    lexicographic order, the display flag if and only if the current
    internal version string is before the latest in that order. When
    [semver.gt] throws, the call ends there: the updater stays as it is
    and none of the three flags is set, whatever the versions of the
    berry driver and of the display are. *)
Theorem C8_available_flags_asymmetric_policy (self0 : NSPanelUpdater)
    (arriving : list (list Incoming)) (more : list Incoming) :
  let a := fold_left (fun a m => deliver_to m a) more (_acquireVersions self0 arriving) in
  timer a = true -> known (status (self a)) ->
  exists lt ct,
    tasmota (latest (_updateVersionData (self a))) = Some lt
    /\ tasmota (current (_updateVersionData (self a))) = Some ct
    /\ match semver_gt (VersionData.version lt) (VersionData.version ct) with
       | Ok _ => asymmetric_policy (self a) (self (fire a))
       | Throw _ =>
           self (fire a) = self a
           /\ has_flag VersionAcquisitionStatus.TasmotaUpdateAvailable (self (fire a)) = false
           /\ has_flag VersionAcquisitionStatus.BerryDriverUpdateAvailable (self (fire a)) = false
           /\ has_flag VersionAcquisitionStatus.HmiUpdateAvailable (self (fire a)) = false
       end.
Proof.
  cbv zeta. intros Ht Hk.
  destruct (deliveries_inv more (acquire_inv self0 arriving)) as [Hp|Hf].
  - destruct Hp as (_ & _ & _ & Hok & _).
    destruct (computeUpdateAvailable_ok _ Hok Hk) as (lt & ct & Hlt & Hct & Hrun).
    exists lt, ct. split; [exact Hlt|]. split; [exact Hct|].
    unfold fire. rewrite Ht. unfold waitForDataAcquisition.
    pose proof Hk as Hk'. apply known_dec in Hk'. rewrite Hk'.
    destruct (semver_gt (VersionData.version lt) (VersionData.version ct)) as [newer|e].
    + destruct Hrun as (self' & -> & Hflags). cbn [fst].
      match goal with
      | |- asymmetric_policy _ (self (settle ?p ?x)) =>
          destruct (settle_fields p x) as (-> & _)
      end.
      cbn [self]. now apply flags_computed_policy.
    + rewrite Hrun. cbn [fst self]. split; [reflexivity|].
      destruct Hok as (Hm & _). pose proof (known_exact Hm Hk) as Hs.
      unfold has_flag, status. rewrite Hs. repeat split.
  - destruct Hf as (Hoff & _). congruence.
Qed.

(** The promise is resolved with flags that follow the policy. *)
Lemma resolved_policy (self0 : NSPanelUpdater) (arriving : list (list Incoming)) (r : Z) :
  promise (_acquireVersions self0 arriving) = Resolved r ->
  exists before st,
    settled (_acquireVersions self0 arriving) = Some st
    /\ status st = r /\ autoUpdate st = autoUpdate self0
    /\ flags_computed before st.
Proof.
  intros Hr. destruct (acquire_inv self0 arriving) as [Hp|Hf].
  - destruct Hp as (_ & _ & _ & _ & _ & Hlt & Hge).
    destruct (Nat.lt_ge_cases (List.length (seen (_acquireVersions self0 arriving))) 10)
      as [Hn|Hn].
    + destruct (Hlt Hn) as [Hpend _]. congruence.
    + destruct (Hge Hn) as (s & _ & Hrej). congruence.
  - destruct Hf as (_ & l & s & _ & _ & _ & Hres & Hrej).
    destruct (Nat.lt_ge_cases (List.length l) 10) as [Hn|Hn].
    + destruct (Hres Hn) as [(before & st & Hp & Hs & Hau & Hflags) | (Hp & _)];
        [|congruence].
      exists before, st. repeat split; try assumption. congruence.
    + destruct (Hrej Hn) as (s9 & _ & Hp). congruence.
Qed.

End PolicyProperties.

(** C8 on the sample instance, with a development build on the panel:
    the six answers arrive after the second call, the third call finds
    them, [semver.gt] throws on 13.1.0.2, and the flag of the berry
    driver is not set although 9 is above 8. *)
Lemma C8_available_flags_witness :
  let a := fold_left (fun a m => deliver_to (K := Sample.constants) m a)
             Sample.answers_of_development_build
             (_acquireVersions (R := Sample.runtime) (K := Sample.constants)
                Sample.updater [[]]) in
  timer a = true /\ known (status (self a))
  /\ berryDriver (latest (_updateVersionData (self a))) = Some (VersionData.mk "9")
  /\ berryDriver (current (_updateVersionData (self a))) = Some (VersionData.mk "8")
  /\ string_gt "9" "8" = true
  /\ self (fire (R := Sample.runtime) a) = self a
  /\ has_flag VersionAcquisitionStatus.BerryDriverUpdateAvailable
       (self (fire (R := Sample.runtime) a)) = false.
Proof.
  intros a.
  split; [reflexivity|]. split; [reflexivity|].
  split; [reflexivity|]. split; [reflexivity|]. split; [reflexivity|].
  destruct (@C8_available_flags_asymmetric_policy Sample.runtime Sample.constants
              Sample.updater [[]] Sample.answers_of_development_build eq_refl eq_refl)
    as (lt & ct & Hlt & Hct & Hrun).
  fold a in Hlt, Hct, Hrun.
  assert (El : lt = VersionData.mk "13.2.0")
    by (apply (f_equal (fun o => match o with Some v => v | None => lt end)) in Hlt;
        symmetry; exact Hlt).
  assert (Ec : ct = VersionData.mk "13.1.0.2")
    by (apply (f_equal (fun o => match o with Some v => v | None => ct end)) in Hct;
        symmetry; exact Hct).
  subst lt ct.
  change (semver_gt (VersionData.version (VersionData.mk "13.2.0"))
            (VersionData.version (VersionData.mk "13.1.0.2")))
    with (Throw (A := bool) TypeError) in Hrun.
  destruct Hrun as (Hsame & _ & Hberry & _). split; assumption.
Defined.

(** The two acquisitions of the design document, on the sample instance:
    with five of the six answers the promise is pending after nine calls
    and rejected at the tenth with the five flags; with all six answers
    in the second second it is resolved at the third call. *)
Example acquire_five_of_six :
  let five := [ nth 0 Sample.answers (BerryDriverResponse None);
                nth 1 Sample.answers (BerryDriverResponse None);
                nth 3 Sample.answers (BerryDriverResponse None);
                nth 4 Sample.answers (BerryDriverResponse None);
                nth 5 Sample.answers (BerryDriverResponse None) ] in
  let nine := _acquireVersions (R := Sample.runtime) (K := Sample.constants)
                Sample.updater [five; []; []; []; []; []; []; []] in
  let ten := _acquireVersions (R := Sample.runtime) (K := Sample.constants)
               Sample.updater [five; []; []; []; []; []; []; []; []] in
  (promise nine = Pending /\ List.length (seen nine) = 9%nat)
  /\ (promise ten = Rejected 47 /\ List.length (seen ten) = 10%nat)
  /\ checkForUpdates (R := Sample.runtime) (K := Sample.constants)
       Sample.updater [five; []; []; []; []; []; []; []; []]
     = [sendCommandToPanel "Status" "2";
        sendCommandToPanel "GetDriverVersion" "x";
        sendToPanel "pageType~pageStartup";
        axios_get URL_TASMOTA_RELEASES_LATEST_META;
        axios_get URL_BERRYDRIVER_LATEST;
        axios_get URL_NLUI_LATEST;
        log_error "Could not acquire version data " (inl 47%Z)].
Proof. vm_compute. repeat split. Qed.

Example acquire_all_six_at_third_call :
  let a := _acquireVersions (R := Sample.runtime) (K := Sample.constants)
             Sample.updater [[]; Sample.answers; []; []; []] in
  promise a = Resolved 383 /\ seen a = [0; 0; 63]%Z /\ timer a = false.
Proof. vm_compute. repeat split. Qed.

(** ** checkForUpdates *)

Section NotificationProperties.
Context {R : Runtime} {K : Constants}.

(** With the six versions there and automatic updates off, the [then]
    callback shows the notification of the last of its three [if]
    statements whose flag is set. *)
Lemma checkForUpdates_then_last_wins (st : NSPanelUpdater)
    (lt ct lb cb : VersionData.t) (lh ch : HMIVersion) :
  tasmota (latest (_updateVersionData st)) = Some lt ->
  tasmota (current (_updateVersionData st)) = Some ct ->
  berryDriver (latest (_updateVersionData st)) = Some lb ->
  berryDriver (current (_updateVersionData st)) = Some cb ->
  hmi (latest (_updateVersionData st)) = Some lh ->
  hmi (current (_updateVersionData st)) = Some ch ->
  autoUpdate st = false ->
  checkForUpdates_then st
  = Ok (if has_flag VersionAcquisitionStatus.TasmotaUpdateAvailable st then
          showUpdateNotification st STR_UPDATE_FIRMWARE_TASMOTA
            (_i18n st "nspanel-controller.panel.newFirmwareTasmotaTextMain")
            (VersionData.version ct) (VersionData.version lt)
        else if has_flag VersionAcquisitionStatus.BerryDriverUpdateAvailable st then
          showUpdateNotification st STR_UPDATE_FIRMWARE_BERRYDRIVER
            (_i18n st "nspanel-controller.panel.newBerryDriverTextMain")
            (VersionData.version cb) (VersionData.version lb)
        else if has_flag VersionAcquisitionStatus.HmiUpdateAvailable st then
          showUpdateNotification st STR_UPDATE_FIRMWARE_HMI
            (_i18n st "nspanel-controller.panel.newHmiTextMain")
            (text_of_undefined (internalVersion ch))
            (text_of_null (version lh) ++ " ("
             ++ text_of_undefined (internalVersion lh) ++ ")")%string
        else []).
Proof.
  intros H1 H2 H3 H4 H5 H6 Hau.
  unfold checkForUpdates_then. rewrite Hau, H1, H2, H3, H4, H5, H6. simpl.
  destruct (has_flag VersionAcquisitionStatus.HmiUpdateAvailable st);
    destruct (has_flag VersionAcquisitionStatus.BerryDriverUpdateAvailable st);
    destruct (has_flag VersionAcquisitionStatus.TasmotaUpdateAvailable st);
    reflexivity.
Qed.

(** What [_acquireVersions] sends before it returns the promise: the
    four requests, none of them a notification. *)
Lemma acquire_requests (self0 : NSPanelUpdater) :
  let self1 := set_status VersionAcquisitionStatus.None self0 in
  out (_acquireVersions self0 [])
  = getCurrentTasmotaVersion self1 ++ getCurrentBerryDriverVersion self1
    ++ getCurrentHmiVersion self1 ++ getLatestVersion
  /\ notified (out (_acquireVersions self0 [])) = [].
Proof.
  cbv zeta. split; [reflexivity|].
  unfold _acquireVersions, getCurrentTasmotaVersion, getCurrentBerryDriverVersion,
    getCurrentHmiVersion, getLatestVersion, mqtt; simpl.
  now destruct (_mqttHandler self0).
Qed.

(** C3, as the code has it. When automatic updates are off and the
    acquisition resolves, [checkForUpdates], after the requests it
    starts with, presents exactly one notification if an available flag
    is set, none otherwise; the one presented is the tasmota one if its
    flag is set, else the berry-driver one if its flag is set, else the
    display one: of several available updates the last of the three
    [if] statements wins. *)
Theorem C3_one_notification_tasmota_first (self0 : NSPanelUpdater)
    (arriving : list (list Incoming)) (r : Z) :
  autoUpdate self0 = false ->
  promise (_acquireVersions self0 arriving) = Resolved r ->
  exists st,
    settled (_acquireVersions self0 arriving) = Some st /\ status st = r
    /\ match announced st with
       | Some firmware =>
           exists n,
             checkForUpdates self0 arriving
             = out (_acquireVersions self0 []) ++ [showNotification n]
             /\ notifyId n = (STR_UPDATE_NOTIFY_PREFIX ++ firmware)%string
             /\ notified (checkForUpdates self0 arriving) = [notifyId n]
       | None =>
           checkForUpdates self0 arriving = out (_acquireVersions self0 [])
           /\ notified (checkForUpdates self0 arriving) = []
       end.
Proof.
  intros Hau Hr.
  destruct (resolved_policy _ _ Hr) as (before & st & Hst & Hs & Hau' & Hflags).
  exists st. split; [assumption|]. split; [assumption|].
  destruct Hflags as (lt & ct & lb & cb & lh & ch & H1 & H2 & H3 & H4 & H5 & H6
                      & Hc & Hl & _).
  rewrite <- Hc in H2, H4, H6. rewrite <- Hl in H1, H3, H5.
  destruct (acquire_requests self0) as [_ Hnone].
  assert (Hshown : forall n,
             notified (out (_acquireVersions self0 []) ++ [showNotification n])
             = [notifyId n]).
  { intros n. clear - Hnone.
    induction (out (_acquireVersions self0 [])) as [|[cmd p|p|u|n'|m|m e] l IH];
      cbn [app notified] in *; try discriminate; auto. }
  unfold checkForUpdates. rewrite Hr, Hst.
  rewrite (checkForUpdates_then_last_wins st H1 H2 H3 H4 H5 H6) by congruence.
  unfold announced, showUpdateNotification.
  destruct (has_flag VersionAcquisitionStatus.TasmotaUpdateAvailable st);
    [|destruct (has_flag VersionAcquisitionStatus.BerryDriverUpdateAvailable st);
      [|destruct (has_flag VersionAcquisitionStatus.HmiUpdateAvailable st)]];
    try (eexists; split; [reflexivity|]; split; [reflexivity|]; apply Hshown).
  rewrite app_nil_r. split; [reflexivity | exact Hnone].
Qed.

End NotificationProperties.

(** C3 on the sample instance: the acquisition resolves with the tasmota
    and the display update available. *)
Lemma C3_one_notification_witness :
  let a := _acquireVersions (R := Sample.runtime) (K := Sample.constants)
             Sample.updater [[]; Sample.answers] in
  autoUpdate Sample.updater = false /\ promise a = Resolved 383
  /\ exists st,
       settled a = Some st /\ status st = 383%Z
       /\ match announced (K := Sample.constants) st with
          | Some firmware =>
              exists n,
                checkForUpdates (R := Sample.runtime) (K := Sample.constants)
                  Sample.updater [[]; Sample.answers]
                = out (_acquireVersions (R := Sample.runtime) (K := Sample.constants)
                         Sample.updater [])
                  ++ [showNotification n]
                /\ notifyId n = ("notify.update." ++ firmware)%string
                /\ notified (checkForUpdates (R := Sample.runtime) (K := Sample.constants)
                               Sample.updater [[]; Sample.answers])
                   = [notifyId n]
          | None =>
              checkForUpdates (R := Sample.runtime) (K := Sample.constants)
                Sample.updater [[]; Sample.answers]
              = out (_acquireVersions (R := Sample.runtime) (K := Sample.constants)
                       Sample.updater [])
              /\ notified (checkForUpdates (R := Sample.runtime) (K := Sample.constants)
                             Sample.updater [[]; Sample.answers])
                 = []
          end.
Proof.
  split; [reflexivity|]. split; [reflexivity|].
  exact (@C3_one_notification_tasmota_first Sample.runtime Sample.constants
           Sample.updater [[]; Sample.answers] 383%Z eq_refl eq_refl).
Defined.

(** C3 as stated fails: with the display update and the tasmota update
    both available (status 383 has the flags 256 and 64), the one
    notification shown is the tasmota one, not the display one. *)
Lemma C3_hmi_first_counterexample :
  let a := _acquireVersions (R := Sample.runtime) (K := Sample.constants)
             Sample.updater [[]; Sample.answers] in
  promise a = Resolved 383
  /\ Z.land 383 VersionAcquisitionStatus.HmiUpdateAvailable
     = VersionAcquisitionStatus.HmiUpdateAvailable
  /\ Z.land 383 VersionAcquisitionStatus.TasmotaUpdateAvailable
     = VersionAcquisitionStatus.TasmotaUpdateAvailable
  /\ notified (checkForUpdates (R := Sample.runtime) (K := Sample.constants)
                 Sample.updater [[]; Sample.answers])
     = ["notify.update.tasmota"]
  /\ "notify.update.tasmota" <> "notify.update.hmi".
Proof. vm_compute. repeat split; discriminate. Qed.

(** * Further properties of the code *)

(** ** parseEvent on any list of fields *)

Section ParseEventProperties.
Context {R : Runtime}.

(** Every path through [parseEvent], one goal each, with the tests that
    led there in the context. *)
Ltac parseEvent_paths parts :=
  unfold parseEvent;
  destruct (nth_error parts 1) as [name|] eqn:Ename;
  [ destruct (name =? STR_LUI_EVENT_STARTUP) eqn:Estartup;
    [| destruct (name =? STR_LUI_EVENT_SLEEPREACHED) eqn:Esleep;
       [| destruct (name =? STR_LUI_EVENT_BUTTONPRESS2) eqn:Epress;
          [ destruct (nth_error parts 3) as [kind|] eqn:Ekind;
            [ destruct (kind =? "button") eqn:Ebutton;
              [| destruct (kind =? "OnOff") eqn:Eonoff;
                 [| destruct (kind =? "number-set") eqn:Enumber;
                    [| destruct (kind =? "colorWheel") eqn:Ewheel;
                       [| destruct (kind =? "positionSlider") eqn:Eposition;
                          [| destruct (kind =? "tiltSlider") eqn:Etilt ]]]]]
            |]
          | destruct (name =? STR_LUI_EVENT_PAGEOPENDETAIL) eqn:Edetail ]]]
  |].

(** X1. [parseEvent] sets [value] or [data], never both, and a [value] it
    sets is [Number(parts[4])] of a button press and not [NaN]; a string
    in [data] is [parts[4]], which [Number] did not read as a number. *)
Theorem parseEvent_value_xor_data (parts : list string) :
  let ev := parseEvent parts in
  (value ev = None \/ data ev = None)
  /\ (forall n, value ev = Some n ->
        n = Number (nth_error parts 4) /\ Number_isNaN n = false
        /\ nth_error parts 1 = Some "buttonPress2")
  /\ (forall s, data ev = Some (DataString s) ->
        nth_error parts 4 = Some s /\ Number_isNaN (Number (Some s)) = true
        /\ nth_error parts 1 = Some "buttonPress2").
Proof.
  cbv zeta. parseEvent_paths parts;
    try (apply String.eqb_eq in Epress; subst name);
    repeat match goal with
           | |- context [if (List.length parts =? 5)%nat then _ else _] =>
               destruct (List.length parts =? 5)%nat
           | |- context [if Number_isNaN ?n then _ else _] =>
               destruct (Number_isNaN n) eqn:?
           | |- context [if toBoolean ?x then _ else _] => destruct (toBoolean x)
           | |- context [if (List.length ?l =? 3)%nat then _ else _] =>
               destruct (List.length l =? 3)%nat
           end;
    cbn [value data set_value set_data set_event2 set_source set_entityId
         set_active set_rgb set_hsv set_hmiVersion];
    (split; [auto|]); split; intros x Hx; try discriminate;
    try (injection Hx as <-; auto);
    destruct (nth_error parts 4) as [p4|]; simpl in Hx;
    first [discriminate | injection Hx as <-; auto].
Qed.

(** The tests of a path as equations and disequations of strings. *)
Ltac string_facts :=
  unfold STR_LUI_EVENT_STARTUP, STR_LUI_EVENT_SLEEPREACHED,
    STR_LUI_EVENT_BUTTONPRESS2, STR_LUI_EVENT_PAGEOPENDETAIL in *;
  repeat match goal with
         | E : (_ =? _) = true |- _ => apply String.eqb_eq in E; subst
         | E : (_ =? _) = false |- _ => apply String.eqb_neq in E
         end.

Ltac event_fields :=
  cbn [type event event2 source entityId active value data rgb hsv hmiVersion
       set_value set_data set_event2 set_source set_entityId
       set_active set_rgb set_hsv set_hmiVersion].

Ltac trailing_rule parts :=
  repeat match goal with
         | |- context [if (List.length parts =? 5)%nat then _ else _] =>
             destruct (List.length parts =? 5)%nat
         | |- context [if Number_isNaN ?n then _ else _] =>
             destruct (Number_isNaN n)
         end.

(** X2. [active] is [true] or absent, never [false]; it is [true] exactly
    for an [OnOff] button press whose fifth field [toBoolean] reads as
    true. *)
Theorem parseEvent_active_true_or_absent (parts : list string) :
  let ev := parseEvent parts in
  active ev <> Some false
  /\ (active ev = Some true <->
        nth_error parts 1 = Some "buttonPress2"
        /\ nth_error parts 3 = Some "OnOff"
        /\ toBoolean (nth_error parts 4) = true).
Proof.
  cbv zeta. parseEvent_paths parts; string_facts;
    try destruct (toBoolean (nth_error parts 4)) eqn:Ebool;
    trailing_rule parts;
    repeat match goal with
           | |- context [if (List.length ?l =? 3)%nat then _ else _] =>
               destruct (List.length l =? 3)%nat
           end;
    event_fields;
    (split; [discriminate|]);
    (split; [try discriminate; auto | intros (H1 & H3 & Hb); congruence]).
Qed.

(** The tokens [parseEvent] finds in the coordinate field. *)
Lemma colorWheel_tokens (p4 : option string) :
  List.length
    (if stringIsNullOrEmpty p4 then []
     else match p4 with Some s => split "|" s | None => [] end) = 3%nat
  <-> exists c, p4 = Some c /\ List.length (split "|" c) = 3%nat.
Proof.
  destruct p4 as [[|a c]|]; simpl.
  - split; [discriminate | intros (c & Hc & Hl); injection Hc as <-; discriminate].
  - split.
    + intros Hl. now exists (String a c).
    + intros (c' & Hc & Hl). now injection Hc as <-.
  - split; [discriminate | intros (c & Hc & _); discriminate].
Qed.

(** X3. [rgb] and [hsv] are attached together, and only to a [colorWheel]
    button press whose fifth field has exactly three tokens, whatever
    the number of fields. *)
Theorem parseEvent_color_only_from_colorWheel (parts : list string) :
  let ev := parseEvent parts in
  let wheel :=
    nth_error parts 1 = Some "buttonPress2"
    /\ nth_error parts 3 = Some "colorWheel"
    /\ exists c, nth_error parts 4 = Some c /\ List.length (split "|" c) = 3%nat in
  (rgb ev <> None <-> wheel) /\ (hsv ev <> None <-> wheel).
Proof.
  cbv zeta. parseEvent_paths parts; string_facts;
    try destruct (toBoolean (nth_error parts 4));
    try match goal with
        | |- context [if (List.length ?l =? 3)%nat then _ else _] =>
            pose proof (colorWheel_tokens (nth_error parts 4)) as Htok;
            destruct (List.length l =? 3)%nat eqn:Elen;
            [apply Nat.eqb_eq in Elen | apply Nat.eqb_neq in Elen]
        end;
    trailing_rule parts; event_fields;
    split; (split; [intros Hset; try congruence | intros (H1 & H3 & Hc)]);
    try congruence;
    try (repeat split; try reflexivity; apply Htok; assumption);
    try (exfalso; apply Elen, Htok; assumption).
Qed.

(** X4. The [source] of a decoded event is [parts[2]], except that a
    startup event comes from [hmi] and a [button] press from
    [parts[3]]; the type is [event] and the event name [parts[1]] on
    every path. *)
Theorem parseEvent_source (parts : list string) :
  let ev := parseEvent parts in
  type ev = "event" /\ event ev = nth_error parts 1
  /\ source ev =
       (if match nth_error parts 1 with Some n => n =? "startup" | None => false end
        then Some "hmi"
        else if match nth_error parts 1, nth_error parts 3 with
                | Some n, Some k => (n =? "buttonPress2") && (k =? "button")
                | _, _ => false
                end
             then nth_error parts 3
             else nth_error parts 2).
Proof.
  cbv zeta. parseEvent_paths parts;
    try destruct (toBoolean (nth_error parts 4));
    repeat match goal with
           | |- context [if (List.length ?l =? 3)%nat then _ else _] =>
               destruct (List.length l =? 3)%nat
           end;
    trailing_rule parts; event_fields;
    (split; [reflexivity|]); (split; [reflexivity|]);
    unfold STR_LUI_EVENT_STARTUP, STR_LUI_EVENT_SLEEPREACHED,
      STR_LUI_EVENT_BUTTONPRESS2, STR_LUI_EVENT_PAGEOPENDETAIL in *;
    cbv beta iota;
    repeat match goal with
           | |- context [?a =? ?b] => destruct (a =? b) eqn:?
           end;
    cbn [andb]; cbv beta iota; string_facts; try reflexivity;
    first [congruence | destruct (nth_error parts 3); reflexivity].
Qed.

End ParseEventProperties.

(** ** parse and parseCustomMessage on any payload *)

Section DecoderProperties.
Context {R : Runtime}.

(** X5. An event whose name is none of the four known ones keeps all its
    fields: the name in [event], the fields after it in [data.raw], so
    that the fields the panel sent can be put together again. *)
Theorem parseCustomMessage_unknown_event_keeps_fields (name : string) (rest : list string) :
  ~ In name [STR_LUI_EVENT_STARTUP; STR_LUI_EVENT_SLEEPREACHED;
             STR_LUI_EVENT_BUTTONPRESS2; STR_LUI_EVENT_PAGEOPENDETAIL] ->
  let ev := parseCustomMessage ("event" :: name :: rest) in
  event ev = Some name
  /\ data ev = Some (DataRaw rest)
  /\ source ev = nth_error rest 0
  /\ event2 ev = None /\ entityId ev = None /\ value ev = None
  /\ (forall raw, data ev = Some (DataRaw raw) ->
        "event" :: name :: raw = "event" :: name :: rest).
Proof.
  intros Hname. cbv zeta.
  assert (Hneq : forall c, In c [STR_LUI_EVENT_STARTUP; STR_LUI_EVENT_SLEEPREACHED;
                                 STR_LUI_EVENT_BUTTONPRESS2; STR_LUI_EVENT_PAGEOPENDETAIL] ->
                           (name =? c) = false).
  { intros c Hc. apply String.eqb_neq. intros ->. contradiction. }
  unfold parseCustomMessage, parseEvent.
  cbn [nth_error]. rewrite String.eqb_refl.
  rewrite !Hneq by (simpl; auto).
  cbn [event data source event2 entityId value set_data skipn nth_error].
  repeat split; try reflexivity.
  intros raw Hraw. now injection Hraw as <-.
Qed.

Lemma parse_outcome (payloadStr : string) (temp : JsValue) :
  JSON_parse payloadStr = Some temp ->
  if decodable temp then exists result, parse payloadStr = Ok result
  else parse payloadStr = Throw TypeError.
Proof.
  intros Ht. unfold parse. rewrite Ht.
  unfold try_catch, bind, in_operator, split_value, get_prop, decodable.
  destruct temp as [| b | n | s | items | props]; try reflexivity.
  - eexists; reflexivity.
  - destruct (assoc "CustomRecv" props) as [[| b | n | s | items | props']|];
      try reflexivity.
    + eexists; reflexivity.
    + destruct (assoc "nlui_driver_version" props); eexists; reflexivity.
Qed.

(** X6. [parse] returns exactly on the payloads that are JSON for an array
    or for an object whose [CustomRecv], if it has one, is a string; on
    every other payload (not JSON, or JSON for [null], a boolean, a
    number, a string, or an object with another [CustomRecv]) it throws
    a [TypeError]. *)
Theorem parse_returns_iff_decodable (payloadStr : string) :
  ((exists result, parse payloadStr = Ok result)
   <-> exists temp, JSON_parse payloadStr = Some temp /\ decodable temp = true)
  /\ (parse payloadStr = Throw TypeError
      <-> forall temp, JSON_parse payloadStr = Some temp -> decodable temp = false).
Proof.
  destruct (JSON_parse payloadStr) as [temp|] eqn:Ht.
  - pose proof (parse_outcome payloadStr Ht) as Hout.
    destruct (decodable temp) eqn:Hd.
    + destruct Hout as (r & Hr). split; split.
      * intros _. now exists temp.
      * intros _. now exists r.
      * rewrite Hr. discriminate.
      * intros Hall. specialize (Hall _ eq_refl). congruence.
    + split; split.
      * intros (r & Hr). congruence.
      * intros (t & Heq & Hdt). injection Heq as <-. congruence.
      * intros _ t Heq. now injection Heq as <-.
      * intros _. exact Hout.
  - assert (Hthrow : parse payloadStr = Throw TypeError).
    { unfold parse. now rewrite Ht. }
    split; split.
    + rewrite Hthrow. intros (r & Hr). discriminate.
    + intros (t & Heq & _). discriminate.
    + intros _ t Heq. discriminate.
    + intros _. exact Hthrow.
Qed.

(** X7. [parse] returns [null] instead of an event on exactly one kind of
    payload: an object without [CustomRecv] whose [nlui_driver_version]
    is [null]. *)
Theorem parse_null_iff_null_driver_version (payloadStr : string) :
  parse payloadStr = Ok None
  <-> exists props,
        JSON_parse payloadStr = Some (JObject props)
        /\ assoc "CustomRecv" props = None
        /\ assoc "nlui_driver_version" props = Some JNull.
Proof.
  unfold parse, try_catch, bind, in_operator, split_value, get_prop,
    parseNluiDriverEvent, hasProperty, get_prop, not_nullish.
  destruct (JSON_parse payloadStr) as [temp|].
  - destruct temp as [| b | n | s | items | props];
      try (split; [discriminate | intros (p & Hp & _); discriminate]).
    destruct (assoc "CustomRecv" props) as [v|] eqn:Ecr.
    + split.
      * destruct v; discriminate.
      * intros (p & Hp & Hc & _). injection Hp as <-. congruence.
    + destruct (assoc "nlui_driver_version" props) as [v|] eqn:Ev.
      * split.
        -- intros Hnull. destruct v; try discriminate.
           exists props. repeat split; assumption.
        -- intros (p & Hp & _ & Hv). injection Hp as <-.
           rewrite Ev in Hv. injection Hv as ->. reflexivity.
      * split; [discriminate|].
        intros (p & Hp & _ & Hv). injection Hp as <-. congruence.
  - split; [discriminate | intros (p & Hp & _); discriminate].
Qed.

End DecoderProperties.

Lemma parseCustomMessage_unknown_event_witness :
  ~ In "renderCurrentPage"
      [STR_LUI_EVENT_STARTUP; STR_LUI_EVENT_SLEEPREACHED;
       STR_LUI_EVENT_BUTTONPRESS2; STR_LUI_EVENT_PAGEOPENDETAIL]
  /\ let ev := parseCustomMessage (R := Sample.runtime)
                 ("event" :: "renderCurrentPage" :: ["a"; "b"]) in
     event ev = Some "renderCurrentPage"
     /\ data ev = Some (DataRaw ["a"; "b"])
     /\ source ev = nth_error ["a"; "b"] 0
     /\ event2 ev = None /\ entityId ev = None /\ value ev = None
     /\ (forall raw, data ev = Some (DataRaw raw) ->
           "event" :: "renderCurrentPage" :: raw
           = "event" :: "renderCurrentPage" :: ["a"; "b"]).
Proof.
  assert (Hname : ~ In "renderCurrentPage"
                      [STR_LUI_EVENT_STARTUP; STR_LUI_EVENT_SLEEPREACHED;
                       STR_LUI_EVENT_BUTTONPRESS2; STR_LUI_EVENT_PAGEOPENDETAIL]).
  { simpl. intros [H|[H|[H|[H|[]]]]]; discriminate. }
  split; [exact Hname|].
  exact (@parseCustomMessage_unknown_event_keeps_fields Sample.runtime
           "renderCurrentPage" ["a"; "b"] Hname).
Defined.

(** ** The hardware, sensor and firmware messages *)

Lemma prefix_append (p s : string) : prefix p (p ++ s)%string = true.
Proof.
  induction p as [|c p IH]; simpl; [now destruct s|].
  destruct (ascii_dec c c) as [_|Hc]; [exact IH | contradiction].
Qed.

Lemma drop_append (p s : string) : drop (String.length p) (p ++ s)%string = s.
Proof. induction p as [|c p IH]; simpl; [reflexivity | exact IH]. Qed.

Lemma drop_append_S (p s : string) (c : ascii) :
  drop (String.length p + 1) (p ++ String c s)%string = s.
Proof. induction p as [|c' p IH]; simpl; [reflexivity | exact IH]. Qed.

Lemma index_prefix (p s : string) (c : ascii) :
  index 0 p (p ++ String c s)%string = Some 0%nat.
Proof.
  destruct p as [|c' p']; [reflexivity|].
  pose proof (prefix_append (String c' p') (String c s)) as Hp.
  cbn [append] in Hp. cbn [append index]. now rewrite Hp.
Qed.


Section OtherShapesProperties.
Context {R : Runtime} {K : Constants} {H : Helpers} {U : UpgradeConstants}.

Lemma member_cases (key : string) (v : option JsValue) :
  (member key v = Throw TypeError /\ (v = None \/ v = Some JNull))
  \/ (exists w, v = Some w /\ w <> JNull /\ member key v = Ok (get_prop key w)).
Proof.
  destruct v as [[| b | n | s | items | props]|]; simpl;
    try (left; split; [reflexivity | auto]);
    right; eexists; (split; [reflexivity|]); split; (discriminate || reflexivity).
Qed.

(** X8. [parseHardwareEvent] returns when each button field there is can be
    converted, and throws a [TypeError] when one cannot: a button that
    is [null], or whose [Action] is missing or not a string. What it
    returns is never empty: one event for each of the four fields the
    payload has, or the one fallback event carrying the payload. *)
Theorem parseHardwareEvent_returns_iff_buttons_ok (input : JsValue) :
  match parseHardwareEvent input with
  | Ok events =>
      button_ok input "Button1" = true /\ button_ok input "Button2" = true
      /\ events <> []
      /\ List.length events = Nat.max 1 (hardware_fields input)
      /\ (List.length events <= 4)%nat
      /\ (hardware_fields input = 0%nat ->
            exists fallback, events = [fallback] /\ hw_data fallback = Some input
                             /\ hw_event fallback = "")
  | Throw e =>
      e = TypeError
      /\ (button_ok input "Button1" = false \/ button_ok input "Button2" = false)
  end.
Proof.
  unfold parseHardwareEvent, hardware_fields, convertToButtonEvent, button_ok,
    hasProperty, actionStringToNumber_of, member, bind.
  cbn [filter].
  destruct (get_prop "POWER1" input) as [p1|];
    destruct (get_prop "POWER2" input) as [p2|];
    destruct (get_prop "Button1" input) as [[| b | n | s | items | props]|];
    try (split; [reflexivity | left; reflexivity]);
    try match goal with
        | |- context [get_prop "Action" ?b1] =>
            destruct (get_prop "Action" b1) as [[| ? | ? | ? | ? | ?]|];
            try (split; [reflexivity | left; reflexivity])
        end;
    destruct (get_prop "Button2" input) as [[| b' | n' | s' | items' | props']|];
    try (split; [reflexivity | right; reflexivity]);
    try match goal with
        | |- context [get_prop "Action" ?b2] =>
            destruct (get_prop "Action" b2) as [[| ? | ? | ? | ? | ?]|];
            try (split; [reflexivity | right; reflexivity])
        end;
    cbn [List.length app Nat.eqb];
    (split; [reflexivity|]); (split; [reflexivity|]);
    (split; [discriminate|]); (split; [reflexivity|]);
    (split; [repeat constructor|]);
    try (intros Hnone; discriminate Hnone);
    intros _; eexists; repeat split.
Qed.

Lemma is_ON_iff (v : option JsValue) :
  is_ON v = true <-> v = Some (JString "ON").
Proof.
  destruct v as [[| b | n | s | items | props]|]; simpl;
    try (split; discriminate).
  rewrite String.eqb_eq. split; [now intros -> | intros E; now injection E as ->].
Qed.

(** Every path of [parseHardwareEvent] that returns, one goal each, with
    the fields read on the way in the context. *)
Ltac hardware_paths input Hok :=
  unfold parseHardwareEvent, convertToButtonEvent, hasProperty,
    actionStringToNumber_of, member, bind in Hok;
  destruct (get_prop "POWER1" input) as [p1|] eqn:E1;
  destruct (get_prop "POWER2" input) as [p2|] eqn:E2;
  destruct (get_prop "Button1" input) as [[| ? | ? | ? | ? | ?]|] eqn:E3;
  try discriminate Hok;
  try match type of Hok with
      | context [get_prop "Action" ?b1] =>
          destruct (get_prop "Action" b1) as [[| ? | ? | a1 | ? | ?]|] eqn:Ea1;
          try discriminate Hok
      end;
  destruct (get_prop "Button2" input) as [[| ? | ? | ? | ? | ?]|] eqn:E4;
  try discriminate Hok;
  try match type of Hok with
      | context [get_prop "Action" ?b2] =>
          destruct (get_prop "Action" b2) as [[| ? | ? | a2 | ? | ?]|] eqn:Ea2;
          try discriminate Hok
      end;
  cbn [List.length app Nat.eqb] in Hok;
  injection Hok as <-.

(** X9. A relay event is there for a relay field of the payload, has the
    field's name in lower case as its source, and is active exactly
    when the field is the string [ON], in capitals; any other value, of
    any kind, gives [false]. *)
Theorem parseHardwareEvent_relay_active_iff_ON (input : JsValue)
    (events : list HardwareEventArgs) (e : HardwareEventArgs) :
  parseHardwareEvent input = Ok events -> In e events -> hw_event e = "relay" ->
  exists property,
    (property = "POWER1" \/ property = "POWER2")
    /\ hasProperty input property = true
    /\ hw_source e = toLowerCase property
    /\ (hw_active e = Some true <-> get_prop property input = Some (JString "ON"))
    /\ (hw_active e = Some false <-> get_prop property input <> Some (JString "ON")).
Proof.
  intros Hok Hin Hrelay.
  assert (Hrel : forall property,
             (property = "POWER1" \/ property = "POWER2") ->
             hasProperty input property = true ->
             e = convertToRelayEvent input property ->
             exists property,
               (property = "POWER1" \/ property = "POWER2")
               /\ hasProperty input property = true
               /\ hw_source e = toLowerCase property
               /\ (hw_active e = Some true <-> get_prop property input = Some (JString "ON"))
               /\ (hw_active e = Some false <-> get_prop property input <> Some (JString "ON"))).
  { intros property Hp Hhas ->. exists property.
    split; [assumption|]. split; [assumption|]. split; [reflexivity|].
    cbn [hw_active convertToRelayEvent].
    pose proof (is_ON_iff (get_prop property input)) as Hon.
    destruct (is_ON (get_prop property input)); split; split;
      try discriminate; try reflexivity.
    - intros _. now apply Hon.
    - intros Hne. exfalso. apply Hne. now apply Hon.
    - intros Heq. apply Hon in Heq. discriminate.
    - intros _ Heq. apply Hon in Heq. discriminate. }
  assert (H1 : hasProperty input "POWER1" = true ->
               e = convertToRelayEvent input "POWER1" -> _) by (apply Hrel; auto).
  assert (H2 : hasProperty input "POWER2" = true ->
               e = convertToRelayEvent input "POWER2" -> _) by (apply Hrel; auto).
  clear Hrel. unfold hasProperty in H1, H2.
  hardware_paths input Hok;
    cbn [In] in Hin;
    repeat match goal with
           | Hin : _ \/ _ |- _ => destruct Hin as [Hin|Hin]
           | Hin : False |- _ => contradiction
           end;
    try (subst e; discriminate Hrelay);
    first [ apply H1; [reflexivity | now symmetry]
          | apply H2; [reflexivity | now symmetry] ].
Qed.

Lemma actionStringToNumber_not_zero (s : string) :
  actionStringToNumber s <> Some 0%Z.
Proof.
  unfold actionStringToNumber.
  repeat match goal with |- context [if ?b then _ else _] => destruct b end;
    discriminate.
Qed.

(** X10. A button event carries the press count of the field's [Action],
    read from the action table without regard to case: 1 to 5, or no
    value for any other action. *)
Theorem parseHardwareEvent_button_value (input : JsValue)
    (events : list HardwareEventArgs) (e : HardwareEventArgs) :
  parseHardwareEvent input = Ok events -> In e events -> hw_event e = "button" ->
  exists property button action,
    (property = "Button1" \/ property = "Button2")
    /\ get_prop property input = Some button
    /\ get_prop "Action" button = Some (JString action)
    /\ hw_source e = toLowerCase property
    /\ hw_value e = lookup_ci action ActionCodeTable
    /\ hw_value e <> Some 0%Z
    /\ hw_active e = None.
Proof.
  intros Hok Hin Hbutton.
  hardware_paths input Hok;
    cbn [In] in Hin;
    repeat match goal with
           | Hin : _ \/ _ |- _ => destruct Hin as [Hin|Hin]
           | Hin : False |- _ => contradiction
           end;
    try (subst e; discriminate Hbutton);
    subst e; cbn [hw_source hw_value hw_active];
    first [ eexists "Button1", _, a1;
            repeat split;
            [ left; reflexivity | eassumption | eassumption
            | apply actionStringToNumber_lookup
            | apply actionStringToNumber_not_zero ]
          | eexists "Button2", _, a2;
            repeat split;
            [ right; reflexivity | eassumption | eassumption
            | apply actionStringToNumber_lookup
            | apply actionStringToNumber_not_zero ] ].
Qed.

(** [parseSensorEvent] by the two fields it reads. *)
Lemma parseSensorEvent_eq (input : JsValue) :
  parseSensorEvent input =
  match get_prop "ANALOG" input with
  | None => Ok None
  | Some JNull => Throw TypeError
  | Some analog =>
      match get_prop "Temperature1" analog with
      | None | Some JNull => Ok None
      | Some t =>
          Ok (Some {| s_type := "sensor"; s_source := "temperature1";
                      s_event := "measurement"; temp := Number_of t;
                      tempUnit := or_null (get_prop "TempUnit" input);
                      s_date := match get_prop "Time" input with
                                | Some time => toDate time
                                | None => None
                                end |})
      end
  end.
Proof.
  unfold parseSensorEvent, hasProperty, bind, member.
  destruct (get_prop "ANALOG" input) as [[| b | n | s | items | props]|];
    try reflexivity;
    cbn [get_prop not_nullish];
    try (destruct (assoc "Temperature1" props) as [[| ? | ? | ? | ? | ?]|]);
    cbn [not_nullish Number_of_read]; try reflexivity;
    destruct (get_prop "Time" input) as [time|];
    try reflexivity; destruct (toDate time); reflexivity.
Qed.

(** X11. [parseSensorEvent] throws a [TypeError] exactly when [ANALOG] is
    [null]. It returns a measurement exactly when [ANALOG] has a
    [Temperature1] other than [null], with the number of that value, and
    with a date only when the payload has a [Time] that [toDate] reads;
    in every other case it returns [null]. *)
Theorem parseSensorEvent_cases (input : JsValue) :
  (parseSensorEvent input = Throw TypeError <-> get_prop "ANALOG" input = Some JNull)
  /\ (forall ev, parseSensorEvent input = Ok (Some ev) <->
        exists analog t,
          get_prop "ANALOG" input = Some analog /\ analog <> JNull
          /\ get_prop "Temperature1" analog = Some t /\ t <> JNull
          /\ ev = {| s_type := "sensor"; s_source := "temperature1";
                     s_event := "measurement"; temp := Number_of t;
                     tempUnit := or_null (get_prop "TempUnit" input);
                     s_date := match get_prop "Time" input with
                               | Some time => toDate time
                               | None => None
                               end |})
  /\ (parseSensorEvent input = Ok None <->
        get_prop "ANALOG" input = None
        \/ exists analog,
             get_prop "ANALOG" input = Some analog /\ analog <> JNull
             /\ (get_prop "Temperature1" analog = None
                 \/ get_prop "Temperature1" analog = Some JNull)).
Proof.
  rewrite parseSensorEvent_eq.
  destruct (get_prop "ANALOG" input) as [analog|].
  - assert (Hn : analog = JNull \/ analog <> JNull).
    { destruct analog; (now left) || (right; discriminate). }
    destruct Hn as [-> | Hne].
    + split; [split; reflexivity|]. split.
      * intros ev. split; [discriminate|].
        intros (a & t & Ha & Hna & _). congruence.
      * split; [discriminate|].
        intros [Hx | (a & Ha & Hna & _)]; congruence.
    + split.
      { split; [|congruence].
        destruct analog; try contradiction;
          destruct (get_prop "Temperature1" _) as [[| | | | |]|]; discriminate. }
      split.
      * intros ev. split.
        -- intros Hev. exists analog.
           destruct analog; try contradiction;
             destruct (get_prop "Temperature1" _) as [[| | | | |]|] eqn:E;
             try discriminate; injection Hev as <-;
             eexists; repeat split; try reflexivity; try assumption; discriminate.
        -- intros (a & t & Ha & _ & Ht & Htn & ->). injection Ha as <-.
           destruct analog; try contradiction; rewrite Ht;
             destruct t; try contradiction; reflexivity.
      * split.
        -- intros Hnone. right. exists analog. split; [reflexivity|]. split; [assumption|].
           destruct analog; try contradiction;
             destruct (get_prop "Temperature1" _) as [[| | | | |]|];
             try discriminate; auto.
        -- intros [Hx | (a & Ha & _ & Ht)]; [discriminate|]. injection Ha as <-.
           destruct analog; try contradiction;
             destruct Ht as [-> | ->]; reflexivity.
  - split; [split; discriminate|]. split.
    + intros ev. split; [discriminate|]. intros (a & t & Ha & _). discriminate.
    + split; [auto | reflexivity].
Qed.

(** X12. [parseTasmotaUpgradeEvent] answers an upgrade message exactly when
    its value is a string that is not empty. The status is then
    ['success'] if the value starts with the successful prefix and
    ['failed'] if it does not, never [null], and there is a status
    message exactly with ['failed']. *)
Theorem parseTasmotaUpgradeEvent_status (input : JsValue) :
  match parseTasmotaUpgradeEvent input with
  | Some ev =>
      exists text,
        get_prop STR_TASMOTA_MSG_UPGRADE input = Some (JString text)
        /\ text <> EmptyString
        /\ fw_type ev = "fw" /\ fw_source ev = FIRMWARE_TASMOTA /\ fw_event ev = "update"
        /\ (fw_status ev = Some success <-> prefix STR_TASMOTA_UPGRADE_SUCCESSFUL text = true)
        /\ (fw_status ev = Some failed <-> prefix STR_TASMOTA_UPGRADE_SUCCESSFUL text = false)
        /\ fw_status ev <> None
        /\ (fw_statusMsg ev <> None <-> fw_status ev = Some failed)
  | None =>
      forall text, get_prop STR_TASMOTA_MSG_UPGRADE input = Some (JString text) ->
                   text = EmptyString
  end.
Proof.
  unfold parseTasmotaUpgradeEvent, hasProperty.
  destruct (get_prop STR_TASMOTA_MSG_UPGRADE input) as [[| b | n | text | items | props]|];
    try (intros t Ht; discriminate).
  destruct text as [|c text]; cbn [isString stringIsNullOrEmpty negb andb].
  - intros t Ht. now injection Ht as <-.
  - exists (String c text).
    split; [reflexivity|]. split; [discriminate|].
    split; [reflexivity|]. split; [reflexivity|]. split; [reflexivity|].
    destruct (prefix STR_TASMOTA_UPGRADE_SUCCESSFUL (String c text));
      cbn [fw_status fw_statusMsg];
      repeat split; try easy; try congruence.
Qed.

(** X13. The message of a failed upgrade. When the value is the failed
    marker, one more code unit and a text, the message is that text.
    When the marker does not occur in the value, the message is the
    value without as many leading code units as the marker has. *)
Theorem parseTasmotaUpgradeEvent_failed_message (input : JsValue) (text : string) :
  get_prop STR_TASMOTA_MSG_UPGRADE input = Some (JString text) ->
  text <> EmptyString ->
  prefix STR_TASMOTA_UPGRADE_SUCCESSFUL text = false ->
  exists ev,
    parseTasmotaUpgradeEvent input = Some ev
    /\ fw_status ev = Some failed
    /\ (forall c msg, text = (STR_TASMOTA_UPGRADE_FAILED ++ String c msg)%string ->
          fw_statusMsg ev = Some msg)
    /\ (index 0 STR_TASMOTA_UPGRADE_FAILED text = None ->
          fw_statusMsg ev = Some (drop (String.length STR_TASMOTA_UPGRADE_FAILED) text)).
Proof.
  intros Hget Hne Hpre.
  unfold parseTasmotaUpgradeEvent, hasProperty. rewrite Hget.
  destruct text as [|a text]; [contradiction|].
  cbn [isString stringIsNullOrEmpty negb andb]. rewrite Hpre.
  eexists. split; [reflexivity|]. split; [reflexivity|].
  cbn [fw_statusMsg]. unfold after_marker. split.
  - intros c msg ->. rewrite index_prefix. cbn [Nat.add]. now rewrite drop_append_S.
  - intros ->. reflexivity.
Qed.

(** [parseTasmotaStatus2Event] by the two fields it reads. *)
Lemma parseTasmotaStatus2Event_eq (input : JsValue) :
  parseTasmotaStatus2Event input =
  match get_prop "StatusFWR" input with
  | None => Ok None
  | Some JNull => Throw TypeError
  | Some statusFwr =>
      match get_prop "Version" statusFwr with
      | None | Some JNull => Ok None
      | Some version =>
          Ok (Some {| fw_type := "fw"; fw_source := FIRMWARE_TASMOTA;
                      fw_event := "version"; fw_version := Some version;
                      fw_status := None; fw_statusMsg := None |})
      end
  end.
Proof.
  unfold parseTasmotaStatus2Event, hasProperty, bind, member.
  destruct (get_prop "StatusFWR" input) as [[| b | n | s | items | props]|];
    try reflexivity;
    cbn [get_prop not_nullish];
    destruct (assoc "Version" props) as [[| ? | ? | ? | ? | ?]|]; reflexivity.
Qed.

(** X14. [parseTasmotaStatus2Event] throws a [TypeError] exactly when
    [StatusFWR] is [null], and reports a version exactly when
    [StatusFWR] has a [Version] other than [null]: the version event of
    tasmota carrying that value as it is. *)
Theorem parseTasmotaStatus2Event_cases (input : JsValue) :
  (parseTasmotaStatus2Event input = Throw TypeError
   <-> get_prop "StatusFWR" input = Some JNull)
  /\ (forall ev, parseTasmotaStatus2Event input = Ok (Some ev) <->
        exists statusFwr version,
          get_prop "StatusFWR" input = Some statusFwr /\ statusFwr <> JNull
          /\ get_prop "Version" statusFwr = Some version /\ version <> JNull
          /\ ev = {| fw_type := "fw"; fw_source := FIRMWARE_TASMOTA;
                     fw_event := "version"; fw_version := Some version;
                     fw_status := None; fw_statusMsg := None |}).
Proof.
  rewrite parseTasmotaStatus2Event_eq.
  destruct (get_prop "StatusFWR" input) as [statusFwr|].
  - assert (Hn : statusFwr = JNull \/ statusFwr <> JNull).
    { destruct statusFwr; (now left) || (right; discriminate). }
    destruct Hn as [-> | Hne].
    + split; [split; reflexivity|].
      intros ev. split; [discriminate|].
      intros (a & t & Ha & Hna & _). congruence.
    + split.
      { split; [|congruence].
        destruct statusFwr; try contradiction;
          destruct (get_prop "Version" _) as [[| | | | |]|]; discriminate. }
      intros ev. split.
      * intros Hev. exists statusFwr.
        destruct statusFwr; try contradiction;
          destruct (get_prop "Version" _) as [[| | | | |]|] eqn:E;
          try discriminate; injection Hev as <-;
          eexists; repeat split; try reflexivity; try assumption; discriminate.
      * intros (a & t & Ha & _ & Ht & Htn & ->). injection Ha as <-.
        destruct statusFwr; try contradiction; rewrite Ht;
          destruct t; try contradiction; reflexivity.
  - split; [split; discriminate|].
    intros ev. split; [discriminate|]. intros (a & t & Ha & _). discriminate.
Qed.
End OtherShapesProperties.

(** The relay theorem on a payload with both relays, the second one
    reported in small letters. *)
Lemma parseHardwareEvent_relay_witness :
  let input : @JsValue Sample.runtime :=
    JObject [("POWER1", JString "ON"); ("POWER2", JString "on")] in
  let e := @convertToRelayEvent Sample.runtime input "POWER2" in
  exists property,
    (property = "POWER1" \/ property = "POWER2")
    /\ hasProperty (R := Sample.runtime) input property = true
    /\ hw_source e = toLowerCase property
    /\ (hw_active e = Some true <-> get_prop (R := Sample.runtime) property input = Some (JString "ON"))
    /\ (hw_active e = Some false <-> get_prop (R := Sample.runtime) property input <> Some (JString "ON")).
Proof.
  intros input e.
  apply (@parseHardwareEvent_relay_active_iff_ON Sample.runtime input
           [@convertToRelayEvent Sample.runtime input "POWER1"; e] e).
  - reflexivity.
  - right; left; reflexivity.
  - reflexivity.
Defined.

(** The button theorem on a double press, written in mixed case. *)
Lemma parseHardwareEvent_button_witness :
  let input : @JsValue Sample.runtime :=
    JObject [("Button1", JObject [("Action", JString "Double")])] in
  let e : @HardwareEventArgs Sample.runtime :=
    {| hw_type := "hw"; hw_date := new_Date; hw_event := "button";
       hw_event2 := Some "press"; hw_source := "button1"; hw_active := None;
       hw_value := Some 2%Z; hw_data := None |} in
  exists property button action,
    (property = "Button1" \/ property = "Button2")
    /\ get_prop (R := Sample.runtime) property input = Some button
    /\ get_prop (R := Sample.runtime) "Action" button = Some (JString action)
    /\ hw_source e = toLowerCase property
    /\ hw_value e = lookup_ci action ActionCodeTable
    /\ hw_value e <> Some 0%Z
    /\ hw_active e = None.
Proof.
  intros input e.
  apply (@parseHardwareEvent_button_value Sample.runtime input [e] e).
  - reflexivity.
  - left; reflexivity.
  - reflexivity.
Defined.

(** The upgrade theorem on a failure text behind the marker. *)
Lemma parseTasmotaUpgradeEvent_failed_witness :
  let input : @JsValue Sample.runtime := JObject [("Upgrade", JString "Failed to download")] in
  exists ev, @parseTasmotaUpgradeEvent Sample.runtime SampleMore.upgrade input = Some ev
    /\ fw_status ev = Some failed
    /\ fw_statusMsg ev = Some "to download".
Proof.
  intros input.
  destruct (@parseTasmotaUpgradeEvent_failed_message Sample.runtime SampleMore.upgrade
              input "Failed to download" eq_refl ltac:(discriminate) eq_refl)
    as (ev & Hev & Hst & Hmsg & _).
  exists ev. split; [exact Hev|]. split; [exact Hst|].
  exact (Hmsg " "%char "to download" eq_refl).
Defined.

(** ** The updater between two acquisitions *)

Lemma substring_append (p s : string) :
  substring (String.length p) (String.length (p ++ s) - String.length p) (p ++ s)%string = s.
Proof.
  induction p as [|c p IH]; simpl.
  - rewrite Nat.sub_0_r. clear. induction s as [|c s IH]; simpl; [reflexivity|].
    now rewrite IH.
  - exact IH.
Qed.

Lemma substring_prefix (v s : string) :
  substring 0 (String.length v) (v ++ s)%string = v.
Proof. induction v as [|c v IH]; simpl; [now destruct s | now rewrite IH]. Qed.

Lemma index_paren (v rest : string) :
  index 0 "(" v = None ->
  index 0 "(" (v ++ "(" ++ rest)%string = Some (String.length v).
Proof.
  induction v as [|c v IH]; intros Hnone.
  - cbn [append index String.length].
    pose proof (prefix_append "(" rest) as Hp. cbn [append] in Hp.
    now rewrite Hp.
  - cbn [append index] in *.
    destruct (prefix "(" (String c v)) eqn:Ep; [discriminate|].
    assert (Ep' : prefix "(" (String c (v ++ "(" ++ rest)) = false).
    { cbn [prefix] in *. destruct (ascii_dec "("%char c); [|reflexivity].
      now destruct v. }
    cbn [append] in Ep'. rewrite Ep'.
    destruct (index 0 "(" v) eqn:Ei; [discriminate|].
    now rewrite (IH eq_refl).
Qed.

Section UpdaterProperties.
Context {R : Runtime} {K : Constants}.

(** X15. The version tasmota reports is stored up to its first opening
    parenthesis: a version followed by a build suffix in parentheses is
    stored without the suffix, a version without parenthesis as it is,
    and a text starting with the parenthesis as it is, too. *)
Theorem setTasmotaVersion_strips_build_suffix (v rest : string) (self : NSPanelUpdater) :
  index 0 "(" v = None ->
  let stored (reported : string) :=
    tasmota (current (_updateVersionData (setTasmotaVersion (Some reported) self))) in
  stored v = Some (VersionData.mk v)
  /\ stored (v ++ "(" ++ rest)%string
     = Some (VersionData.mk (match v with
                             | EmptyString => ("(" ++ rest)%string
                             | String _ _ => v
                             end)).
Proof.
  intros Hnone stored. subst stored. unfold setTasmotaVersion.
  cbn [or_status set_status set_current set_updateVersionData _updateVersionData
       current tasmota].
  split.
  - now rewrite Hnone.
  - rewrite (index_paren v rest Hnone).
    destruct v as [|c v]; [reflexivity|].
    cbn [String.length]. now rewrite (substring_prefix (String c v)).
Qed.

(** X16. No handler clears a flag of the status: between two acquisitions the
    status only gains flags. *)
Theorem deliver_keeps_flags (m : Incoming) (self : NSPanelUpdater) :
  Z.land (status self) (status (fst (deliver m self))) = status self.
Proof.
  assert (Hsame : forall x, status x = status self ->
                            Z.land (status self) (status x) = status self).
  { intros x ->. apply Z.land_diag. }
  assert (Hor : forall f x, status x = status self ->
                            Z.land (status self) (status (or_status f x)) = status self).
  { intros f x Hx. unfold or_status, set_status, status in *. 
    cbn [_updateVersionData set_updateVersionData versionAcquisitionStatus].
    rewrite Hx. apply Z.bits_inj'. intros n _.
    rewrite Z.land_spec, Z.lor_spec.
    now destruct (Z.testbit _ n). }
  assert (Hproc : forall x, status (fst (processUpdateTasks x)) = status x).
  { intros x. unfold status. now destruct (processUpdateTasks_keeps x) as [-> _]. }
  destruct m as [fwEvent|v|notifyId action|v|v|g]; cbn [deliver fst].
  - unfold onFirmwareEvent. destruct fwEvent as [fwEvent|]; [|now apply Hsame].
    destruct (fw_event fwEvent =? "version").
    + destruct (_ =? STR_UPDATE_FIRMWARE_TASMOTA); [|destruct (_ =? _)]; cbn [fst].
      * unfold setTasmotaVersion. destruct (fw_version fwEvent); [|now apply Hsame].
        now apply Hor.
      * unfold setBerryDriverVersion. destruct (fw_version fwEvent); [|now apply Hsame].
        now apply Hor.
      * now apply Hsame.
    + destruct (fw_event fwEvent =? "update"); [|now apply Hsame].
      destruct (fw_status fwEvent) as [[|]|]; try now apply Hsame.
      apply Hsame. now rewrite Hproc.
  - unfold setHmiVersion. now apply Hor.
  - unfold onUpdateNotificationResult.
    destruct notifyId as [id|], action as [act|]; try now apply Hsame.
    match goal with |- context [if ?b then _ else _] => destruct b end;
      [|now apply Hsame].
    apply Hsame. rewrite Hproc.
    destruct (prefix _ _); [|reflexivity].
    repeat match goal with |- context [if ?b then _ else _] => destruct b end;
      reflexivity.
  - unfold onTasmotaRelease. destruct v; [|now apply Hsame]. now apply Hor.
  - unfold onBerryDriverLatest. destruct v; [|now apply Hsame]. now apply Hor.
  - unfold onNluiLatest. destruct g as [[iv v]|]; [|now apply Hsame].
    destruct (truthy iv); [|now apply Hsame]. now apply Hor.
Qed.


(** The handlers other than the two that run tasks leave latch and stack
    as they are. *)
Lemma version_handlers_keep_tasks (m : Incoming) (self : NSPanelUpdater) :
  _updateInProgress self = true -> is_update_success m = false ->
  exists queued,
    _updateInProgress (fst (deliver m self)) = true
    /\ _updateTaskStack (fst (deliver m self)) = _updateTaskStack self ++ queued
    /\ snd (deliver m self) = [].
Proof.
  intros Hbusy Hm.
  assert (Hsame : forall x : NSPanelUpdater * list Effect,
             x = (self, []) ->
             exists queued,
               _updateInProgress (fst x) = true
               /\ _updateTaskStack (fst x) = _updateTaskStack self ++ queued
               /\ snd x = []).
  { intros x ->. exists []. now rewrite app_nil_r. }
  assert (Hproc : forall x, _updateInProgress x = true ->
                            processUpdateTasks x = (x, [])).
  { intros x Hx. destruct (_updateTaskStack x) as [|t l] eqn:Es using rev_ind.
    - now apply processUpdateTasks_empty.
    - now apply (processUpdateTasks_busy x l t). }
  destruct m as [fwEvent|v|notifyId action|v|v|g]; cbn [deliver].
  - unfold onFirmwareEvent. destruct fwEvent as [fwEvent|]; [|now apply Hsame].
    cbn [is_update_success] in Hm.
    destruct (fw_event fwEvent =? "version").
    + exists []. clear Hm.
      destruct (_ =? STR_UPDATE_FIRMWARE_TASMOTA);
        [|destruct (_ =? STR_UPDATE_FIRMWARE_BERRYDRIVER)]; cbn [fst snd];
        rewrite app_nil_r; unfold setTasmotaVersion, setBerryDriverVersion;
        destruct (fw_version fwEvent); (split; [exact Hbusy|]); split; reflexivity.
    + destruct (fw_event fwEvent =? "update"); [|now apply Hsame].
      destruct (fw_status fwEvent) as [[|]|]; solve [now apply Hsame | discriminate].
  - exists []. rewrite app_nil_r. split; [exact Hbusy|]. split; reflexivity.
  - unfold onUpdateNotificationResult.
    destruct notifyId as [id|], action as [act|]; try now apply Hsame.
    match goal with |- context [if ?b then _ else _] => destruct b end;
      [|now apply Hsame].
    assert (Hpush : forall task,
               exists queued,
                 _updateInProgress (fst (processUpdateTasks (push task self))) = true
                 /\ _updateTaskStack (fst (processUpdateTasks (push task self)))
                    = _updateTaskStack self ++ queued
                 /\ snd (processUpdateTasks (push task self)) = []).
    { intros task. rewrite (Hproc (push task self) Hbusy).
      exists [task]. split; [exact Hbusy|]. split; reflexivity. }
    destruct (prefix _ _); [|apply Hsame; now apply Hproc].
    repeat match goal with |- context [if ?b then _ else _] => destruct b end;
      first [ apply Hpush | apply Hsame; now apply Hproc ].
  - exists []. rewrite app_nil_r. unfold onTasmotaRelease.
    destruct v; (split; [exact Hbusy|]); split; reflexivity.
  - exists []. rewrite app_nil_r. unfold onBerryDriverLatest.
    destruct v; (split; [exact Hbusy|]); split; reflexivity.
  - exists []. rewrite app_nil_r. unfold onNluiLatest.
    destruct g as [[iv v]|]; [destruct (truthy iv)|];
      (split; [exact Hbusy|]); split; reflexivity.
Qed.

(** X17. While an update is in progress nothing is sent and no second update
    starts, whatever reaches the updater, until a successful update is
    reported: version reports, fetched versions, confirmations and
    reports of a failed update leave the latch set, and a confirmed
    update only goes on the stack, above what is there. *)
Theorem update_in_progress_holds_until_success (arriving : list Incoming)
    (self : NSPanelUpdater) :
  _updateInProgress self = true ->
  forallb (fun m => negb (is_update_success m)) arriving = true ->
  exists queued,
    _updateInProgress (fst (deliver_all arriving self)) = true
    /\ _updateTaskStack (fst (deliver_all arriving self)) = _updateTaskStack self ++ queued
    /\ snd (deliver_all arriving self) = [].
Proof.
  revert self.
  induction arriving as [|m arriving IH]; intros self Hbusy Hno; cbn [deliver_all].
  - exists []. now rewrite app_nil_r.
  - cbn [forallb] in Hno. apply andb_true_iff in Hno. destruct Hno as [Hm Hno].
    apply negb_true_iff in Hm.
    destruct (version_handlers_keep_tasks m self Hbusy Hm) as (q & Hl & Hs & Hd).
    destruct (deliver m self) as [self' done]. cbn [fst snd] in *.
    destruct (IH self' Hl Hno) as (q' & Hl' & Hs' & Hd').
    destruct (deliver_all arriving self') as [self'' done']. cbn [fst snd] in *.
    exists (q ++ q'). rewrite Hl', Hs', Hs, Hd, Hd', app_assoc. repeat split.
Qed.

(** X18. The answer yes to the notification [showUpdateNotification] shows for
    a firmware puts that firmware on the stack and processes the tasks:
    with no update in progress the update of that firmware starts, with
    one in progress it waits on the stack. *)
Theorem onUpdateNotificationResult_confirms_shown (self : NSPanelUpdater)
    (task : FirmwareType) (notifyTextMain currentVersion latestVersion : string) :
  NoDup [STR_UPDATE_FIRMWARE_TASMOTA; STR_UPDATE_FIRMWARE_BERRYDRIVER;
         STR_UPDATE_FIRMWARE_HMI] ->
  STR_LUI_NOTIFY_ACTION_YES <> EmptyString ->
  STR_UPDATE_NOTIFY_PREFIX <> EmptyString ->
  exists n,
    showUpdateNotification self (STR_UPDATE_FIRMWARE task) notifyTextMain
      currentVersion latestVersion = [showNotification n]
    /\ onUpdateNotificationResult (Some (notifyId n)) (Some STR_LUI_NOTIFY_ACTION_YES) self
       = processUpdateTasks (push task self)
    /\ (_updateInProgress self = true ->
          processUpdateTasks (push task self) = (push task self, []))
    /\ (_updateInProgress self = false ->
          exists done,
            processUpdateTasks (push task self) = (set_updateInProgress true self, done)
            /\ commands done = (if _mqttHandler self then update_procedure task else [])).
Proof.
  intros Hnames Hyes Hprefix.
  eexists. split; [reflexivity|]. cbn [notifyId].
  split; [|split].
  - unfold onUpdateNotificationResult.
    assert (Hid : stringIsNullOrEmpty
                    (Some (STR_UPDATE_NOTIFY_PREFIX ++ STR_UPDATE_FIRMWARE task)%string) = false).
    { destruct STR_UPDATE_NOTIFY_PREFIX; [contradiction | reflexivity]. }
    assert (Hact : stringIsNullOrEmpty (Some STR_LUI_NOTIFY_ACTION_YES) = false).
    { destruct STR_LUI_NOTIFY_ACTION_YES; [contradiction | reflexivity]. }
    rewrite Hid, Hact, String.eqb_refl, prefix_append, substring_append.
    cbn [negb andb].
    inversion Hnames as [|? ? Ht Hrest]; subst.
    inversion Hrest as [|? ? Hb _]; subst.
    assert (Htb : STR_UPDATE_FIRMWARE_TASMOTA <> STR_UPDATE_FIRMWARE_BERRYDRIVER)
      by (intros E; apply Ht; left; congruence).
    assert (Hth : STR_UPDATE_FIRMWARE_TASMOTA <> STR_UPDATE_FIRMWARE_HMI)
      by (intros E; apply Ht; right; left; congruence).
    assert (Hbh : STR_UPDATE_FIRMWARE_BERRYDRIVER <> STR_UPDATE_FIRMWARE_HMI)
      by (intros E; apply Hb; left; congruence).
    destruct task; cbn [STR_UPDATE_FIRMWARE].
    + now rewrite String.eqb_refl.
    + apply not_eq_sym, String.eqb_neq in Htb. now rewrite Htb, String.eqb_refl.
    + apply not_eq_sym, String.eqb_neq in Hth.
      apply not_eq_sym, String.eqb_neq in Hbh.
      now rewrite Hth, Hbh, String.eqb_refl.
  - intros Hbusy.
    apply (processUpdateTasks_busy (push task self) (_updateTaskStack self) task);
      [reflexivity | exact Hbusy].
  - intros Hidle.
    destruct (processUpdateTasks_idle (push task self) (_updateTaskStack self) task
                eq_refl Hidle) as (done & Hrun & Hdone).
    exists done. split; [|exact Hdone].
    rewrite Hrun. destruct self; reflexivity.
Qed.

(** X19. A promise settles once: from the second on at which the acquisition
    is resolved or rejected, its outcome and the updater its reactions
    see stay what they are, however long the polling goes on. *)
Theorem acquire_promise_settles_once (self0 : NSPanelUpdater)
    (arriving more : list (list Incoming)) :
  let a := _acquireVersions self0 arriving in
  let a' := _acquireVersions self0 (arriving ++ more) in
  promise a = Pending \/ (promise a' = promise a /\ settled a' = settled a).
Proof.
  cbv zeta.
  assert (Hsettle : forall p a, promise a <> Pending -> settle p a = a).
  { intros p a Ha. unfold settle. destruct (promise a); congruence. }
  assert (Hwait : forall a, promise a <> Pending ->
             promise (fst (waitForDataAcquisition a)) = promise a
             /\ settled (fst (waitForDataAcquisition a)) = settled a).
  { intros a Ha. unfold waitForDataAcquisition.
    destruct (_ =? _)%Z.
    - destruct (computeUpdateAvailable (self a)) as [self' [[]|e]]; cbn [fst];
        [rewrite Hsettle by exact Ha|]; now split.
    - cbn [fst]. destruct (_ =? 0)%Z; [rewrite Hsettle by exact Ha|]; now split. }
  assert (Hsecond : forall arr a, promise a <> Pending ->
             promise (second arr a) = promise a /\ settled (second arr a) = settled a).
  { intros arr a Ha. unfold second.
    assert (Hd : forall b,
               promise (fold_left (fun a m => deliver_to m a) arr b) = promise b
               /\ settled (fold_left (fun a m => deliver_to m a) arr b) = settled b).
    { induction arr as [|m arr IH]; intros b; simpl; [now split|].
      destruct (IH (deliver_to m b)) as [-> ->].
      now destruct (deliver_to_fields m b) as (_ & _ & -> & -> & _). }
    destruct (Hd a) as [Hp Hs]. unfold fire.
    destruct (timer _); [|now split].
    destruct (Hwait (fold_left (fun a m => deliver_to m a) arr a)) as [-> ->];
      [congruence | now split]. }
  unfold _acquireVersions. rewrite fold_left_app.
  match goal with
  | |- context [fold_left _ arriving ?a1] =>
      generalize (fold_left (fun a arr => second arr a) arriving a1)
  end.
  intros a. destruct (promise a) eqn:Ep; [now left | right..];
    (assert (Ha : promise a <> Pending) by congruence;
     rewrite <- Ep; clear Ep; revert a Ha;
     induction more as [|arr more IH]; intros a Ha; simpl; [now split|];
     destruct (Hsecond arr a Ha) as [Hp Hs];
     destruct (IH (second arr a)) as [-> ->]; [congruence | now split]).
Qed.

(** X20. The rejection does not end the polling: the timer is set again by
    every call that does not find the six flags, so an acquisition polls
    exactly as long as no call has found them, once a second, also past
    the tenth call that rejected the promise. *)
Theorem acquire_polls_until_all_known (self0 : NSPanelUpdater)
    (arriving : list (list Incoming)) :
  let a := _acquireVersions self0 arriving in
  (timer a = true <-> Forall (fun s => ~ known s) (seen a))
  /\ (timer a = true -> (10 <= List.length arriving)%nat ->
        exists s, nth_error (seen a) 9 = Some s /\ promise a = Rejected s
                  /\ List.length (seen a) = S (List.length arriving)).
Proof.
  cbv zeta.
  assert (Hlen : timer (_acquireVersions self0 arriving) = true ->
                 List.length (seen (_acquireVersions self0 arriving))
                 = S (List.length arriving)).
  { unfold _acquireVersions.
    match goal with
    | |- context [fold_left _ arriving ?a1] =>
        destruct (seconds_count arriving a1) as (_ & Heq & _)
    end.
    intros Ht. simpl in Heq. simpl. now rewrite Heq. }
  destruct (acquire_inv self0 arriving) as [Hp|Hf].
  - destruct Hp as (Ht & Hseen & Hi & Hok & Hau & Hlt & Hge).
    split; [now split|].
    intros _ Hten. specialize (Hlen Ht).
    destruct Hge as (s & Hs & Hrej); [lia|].
    exists s. now repeat split.
  - destruct Hf as (Ht & l & s & Hseen & Hl & Hs & _).
    split; [|congruence].
    split; [congruence|].
    intros Hall. exfalso. rewrite Hseen in Hall.
    apply Forall_app in Hall. destruct Hall as [_ Hall].
    inversion Hall; subst. contradiction.
Qed.

Lemma notified_app (done done' : list Effect) :
  notified (done ++ done') = notified done ++ notified done'.
Proof.
  induction done as [|[cmd p|p|u|n|m|m e] done IH]; cbn [app notified];
    try exact IH; [reflexivity | now rewrite IH].
Qed.

Lemma commands_app (done done' : list Effect) :
  commands (done ++ done') = commands done ++ commands done'.
Proof.
  induction done as [|[cmd p|p|u|n|m|m e] done IH]; cbn [app commands];
    try exact IH; [reflexivity | now rewrite IH].
Qed.

(** X21. With automatic updates switched on, [checkForUpdates] announces
    nothing and starts no update: the only commands it sends are the two
    requests for the current versions it starts with, a resolved
    acquisition adds nothing to the requests, whatever updates it
    found, and a rejected one is only logged. *)
Theorem checkForUpdates_autoUpdate_silent (self0 : NSPanelUpdater)
    (arriving : list (list Incoming)) :
  autoUpdate self0 = true ->
  notified (checkForUpdates self0 arriving) = []
  /\ commands (checkForUpdates self0 arriving)
     = (if _mqttHandler self0
        then [(STR_TASMOTA_CMD_STATUS, "2"); (STR_BERRYDRIVER_CMD_GETVERSION, "x")]
        else [])
  /\ (forall r, promise (_acquireVersions self0 arriving) = Resolved r ->
        checkForUpdates self0 arriving
        = getCurrentTasmotaVersion self0 ++ getCurrentBerryDriverVersion self0
          ++ getCurrentHmiVersion self0 ++ getLatestVersion)
  /\ (forall s, promise (_acquireVersions self0 arriving) = Rejected s ->
        checkForUpdates self0 arriving
        = getCurrentTasmotaVersion self0 ++ getCurrentBerryDriverVersion self0
          ++ getCurrentHmiVersion self0 ++ getLatestVersion
          ++ [log_error "Could not acquire version data " (inl s)]).
Proof.
  intros Hau.
  assert (Hsent : out (_acquireVersions self0 [])
                  = getCurrentTasmotaVersion self0 ++ getCurrentBerryDriverVersion self0
                    ++ getCurrentHmiVersion self0 ++ getLatestVersion) by reflexivity.
  assert (Hrx : checkForUpdates self0 arriving
                = out (_acquireVersions self0 [])
                  ++ match promise (_acquireVersions self0 arriving) with
                     | Rejected s => [log_error "Could not acquire version data " (inl s)]
                     | _ => []
                     end).
  { unfold checkForUpdates. f_equal.
    destruct (acquire_inv self0 arriving) as [Hp|Hf].
    - destruct Hp as (Ht & Hseen & Hi & Hok & _ & Hlt & Hge).
      destruct (Nat.lt_ge_cases (List.length (seen (_acquireVersions self0 arriving))) 10)
        as [Hn|Hn].
      + destruct (Hlt Hn) as [-> _]. reflexivity.
      + destruct (Hge Hn) as (s & _ & ->). reflexivity.
    - destruct Hf as (Ht & l & s & Hseen & Hl & Hs & Hres & Hrej).
      destruct (Nat.lt_ge_cases (List.length l) 10) as [Hn|Hn].
      + destruct (Hres Hn) as [(before & st & -> & -> & Hst & _) | (-> & _)];
          [|reflexivity].
        unfold checkForUpdates_then. now rewrite Hst, Hau.
      + destruct (Hrej Hn) as (s9 & _ & ->). reflexivity. }
  rewrite Hrx.
  destruct (acquire_requests self0) as [_ Hnone].
  rewrite notified_app, commands_app, Hnone.
  assert (Hcmd : commands (out (_acquireVersions self0 []))
                 = (if _mqttHandler self0
                    then [(STR_TASMOTA_CMD_STATUS, "2"); (STR_BERRYDRIVER_CMD_GETVERSION, "x")]
                    else [])).
  { rewrite Hsent.
    unfold getCurrentTasmotaVersion, getCurrentBerryDriverVersion,
      getCurrentHmiVersion, getLatestVersion, mqtt.
    now destruct (_mqttHandler self0). }
  rewrite Hcmd, Hsent.
  split; [|split; [|split]].
  - now destruct (promise (_acquireVersions self0 arriving)).
  - destruct (promise (_acquireVersions self0 arriving)); cbn [commands];
      now rewrite app_nil_r.
  - intros r ->. now rewrite app_nil_r.
  - intros s ->. now rewrite <- !app_assoc.
Qed.

End UpdaterProperties.

(** The theorems with a hypothesis, on the sample instance. *)
Lemma setTasmotaVersion_strips_witness :
  index 0 "(" "13.1.0" = None
  /\ tasmota (current (_updateVersionData
       (setTasmotaVersion (Some "13.1.0(tasmota)") Sample.updater)))
     = Some (VersionData.mk "13.1.0").
Proof.
  split; [reflexivity|].
  exact (proj2 (@setTasmotaVersion_strips_build_suffix "13.1.0" "tasmota)"
                  Sample.updater eq_refl)).
Defined.

Lemma update_in_progress_witness :
  let busy := set_updateInProgress true (push FIRMWARE_HMI Sample.updater) in
  let arriving :=
    [ UpdateNotificationResult (Some "notify.update.tasmota") (Some "yes");
      FirmwareEvent (Some {| fw_type := "fw"; fw_source := FIRMWARE_HMI;
                             fw_event := "update"; fw_version := None;
                             fw_status := Some failed; fw_statusMsg := None |});
      UpdateNotificationResult (Some "notify.update.nlui") (Some "yes") ] in
  exists queued,
    _updateInProgress (fst (deliver_all (K := Sample.constants) arriving busy)) = true
    /\ _updateTaskStack (fst (deliver_all (K := Sample.constants) arriving busy))
       = _updateTaskStack busy ++ queued
    /\ snd (deliver_all (K := Sample.constants) arriving busy) = [].
Proof.
  intros busy arriving.
  exact (@update_in_progress_holds_until_success Sample.constants
           arriving busy eq_refl eq_refl).
Defined.

Lemma onUpdateNotificationResult_confirms_witness :
  exists n,
    showUpdateNotification (K := Sample.constants) Sample.updater
      (STR_UPDATE_FIRMWARE (K := Sample.constants) FIRMWARE_BERRYDRIVER)
      "driver" "8" "9" = [showNotification n]
    /\ onUpdateNotificationResult (K := Sample.constants) (Some (notifyId n))
         (Some (STR_LUI_NOTIFY_ACTION_YES (Constants := Sample.constants))) Sample.updater
       = processUpdateTasks (K := Sample.constants) (push FIRMWARE_BERRYDRIVER Sample.updater)
    /\ (_updateInProgress Sample.updater = true ->
          processUpdateTasks (K := Sample.constants) (push FIRMWARE_BERRYDRIVER Sample.updater)
          = (push FIRMWARE_BERRYDRIVER Sample.updater, []))
    /\ (_updateInProgress Sample.updater = false ->
          exists done,
            processUpdateTasks (K := Sample.constants) (push FIRMWARE_BERRYDRIVER Sample.updater)
            = (set_updateInProgress true Sample.updater, done)
            /\ commands done
               = (if _mqttHandler Sample.updater
                  then update_procedure (K := Sample.constants) FIRMWARE_BERRYDRIVER
                  else [])).
Proof.
  apply (@onUpdateNotificationResult_confirms_shown Sample.constants).
  - repeat constructor; simpl; intros H;
      repeat (destruct H as [H|H]; [discriminate|]); exact H.
  - discriminate.
  - discriminate.
Defined.

Lemma checkForUpdates_autoUpdate_witness :
  let self0 :=
    {| _mqttHandler := true; _i18n := fun key => key; autoUpdate := true;
       _updateInProgress := false; _updateTaskStack := [];
       _updateVersionData := _updateVersionData Sample.updater |} in
  promise (_acquireVersions (R := Sample.runtime) (K := Sample.constants) self0
             [Sample.answers]) = Resolved 383
  /\ checkForUpdates (R := Sample.runtime) (K := Sample.constants) self0 [Sample.answers]
     = [sendCommandToPanel "Status" "2";
        sendCommandToPanel "GetDriverVersion" "x";
        sendToPanel "pageType~pageStartup";
        axios_get URL_TASMOTA_RELEASES_LATEST_META;
        axios_get URL_BERRYDRIVER_LATEST;
        axios_get URL_NLUI_LATEST].
Proof.
  intros self0.
  assert (Hres : promise (_acquireVersions (R := Sample.runtime) (K := Sample.constants)
                            self0 [Sample.answers])
                 = Resolved 383) by reflexivity.
  split; [exact Hres|].
  exact (proj1 (proj2 (proj2 (@checkForUpdates_autoUpdate_silent Sample.runtime
                                Sample.constants self0 [Sample.answers] eq_refl)))
           383%Z Hres).
Defined.

(** ** The page node: configured events *)

Lemma Map_get_set_same {A : Type} (key : string) (v : A) (m : list (string * A)) :
  Map_get key (Map_set key v m) = Some v.
Proof.
  induction m as [|[k v'] m IH]; cbn [Map_set Map_get].
  - now rewrite String.eqb_refl.
  - destruct (k =? key) eqn:E; cbn [Map_get]; now rewrite E.
Qed.

Lemma Map_get_set_other {A : Type} (key key' : string) (v : A) (m : list (string * A)) :
  key' <> key -> Map_get key (Map_set key' v m) = Map_get key m.
Proof.
  intros Hne. induction m as [|[k v'] m IH]; cbn [Map_set Map_get].
  - apply String.eqb_neq in Hne. now rewrite Hne.
  - destruct (k =? key') eqn:E; cbn [Map_get].
    + apply String.eqb_eq in E. subst k.
      apply String.eqb_neq in Hne. now rewrite Hne.
    + destruct (k =? key); [reflexivity | exact IH].
Qed.

Section PageNodeProperties.
Context {R : Runtime}.
Variable prePageNavigationEvent : EventArgs -> EventMapping -> bool.
Variable preHandleUiEvent : EventArgs -> bool.

(** X22. Of several mappings configured for one event the last one is in
    effect: the index [initPageNode] builds answers an event name with
    the last mapping of the configuration that carries it, and has no
    entry for a name no mapping carries. *)
Theorem initPageNode_last_mapping_wins (events : list EventMapping) (key : string) :
  Map_get key (initPageNode (Some events))
  = hd_error (rev (filter (fun eventMapping => em_event eventMapping =? key) events)).
Proof.
  unfold initPageNode.
  assert (Hgen : forall cfgEvents : ConfiguredEventsMap,
             Map_get key
               (fold_left (fun cfgEvents eventMapping =>
                             Map_set (em_event eventMapping) eventMapping cfgEvents)
                  events cfgEvents)
             = match hd_error (rev (filter (fun eventMapping => em_event eventMapping =? key)
                                      events)) with
               | Some eventMapping => Some eventMapping
               | None => Map_get key cfgEvents
               end).
  { induction events as [|e events IH]; intros cfgEvents; cbn [fold_left filter].
    - reflexivity.
    - rewrite IH. destruct (em_event e =? key) eqn:E.
      + apply String.eqb_eq in E. cbn [rev].
        destruct (rev (filter _ events)) as [|l ls]; cbn [app hd_error].
        * rewrite <- E. apply Map_get_set_same.
        * reflexivity.
      + destruct (hd_error _); [reflexivity|].
        apply Map_get_set_other. now apply String.eqb_neq. }
  rewrite Hgen. now destruct (hd_error _).
Qed.

(** X23. A UI event is handled exactly when the page's own pre-handler takes
    it, or its key has a mapping of one of the four kinds page, relay1,
    relay2 and msg. The key of a hardware event is its type and source,
    whatever its event2; the key of any other event is its event2. A
    mapping of another kind, or without kind, has no effect. *)
Theorem handleUiEventInternal_handled_iff (configuredEvents : ConfiguredEventsMap)
    (eventArgs : EventArgs) :
  let key :=
    if type eventArgs =? "hw"
    then Some ("hw." ++ text_of_undefined (source eventArgs))%string
    else event2 eventArgs in
  let result :=
    handleUiEventInternal prePageNavigationEvent preHandleUiEvent configuredEvents eventArgs in
  (fst result = true <->
     preHandleUiEvent eventArgs = true
     \/ exists k cfgEvent t,
          key = Some k /\ Map_get k configuredEvents = Some cfgEvent
          /\ em_t cfgEvent = Some t /\ In t mapping_kinds)
  /\ (fst result = false -> snd result = []).
Proof.
  cbv zeta. unfold handleUiEventInternal.
  destruct (preHandleUiEvent eventArgs) eqn:Epre; cbn [fst snd].
  { split; [split; [now left | reflexivity] | discriminate]. }
  assert (Ekey : (if type eventArgs =? "hw"
                  then Some (type eventArgs ++ "." ++ text_of_undefined (source eventArgs))%string
                  else event2 eventArgs)
                 = (if type eventArgs =? "hw"
                    then Some ("hw." ++ text_of_undefined (source eventArgs))%string
                    else event2 eventArgs)).
  { destruct (type eventArgs =? "hw") eqn:E; [|reflexivity].
    apply String.eqb_eq in E. now rewrite E. }
  rewrite Ekey. clear Ekey.
  destruct (if type eventArgs =? "hw" then _ else _) as [k|].
  2: { split; [|reflexivity]. split; [discriminate|].
       intros [H|(k & c & t & Hk & _)]; discriminate. }
  unfold Map_has. destruct (Map_get k configuredEvents) as [cfgEvent|] eqn:Eget.
  2: { split; [|reflexivity]. split; [discriminate|].
       intros [H|(k' & c & t & Hk & Hget & _)]; [discriminate|].
       injection Hk as <-. congruence. }
  unfold handleConfiguredEvent.
  destruct (em_t cfgEvent) as [t|] eqn:Et.
  2: { split; [|reflexivity]. split; [discriminate|].
       intros [H|(k' & c & t & Hk & Hget & Ht & _)]; [discriminate|].
       injection Hk as <-. congruence. }
  assert (Hin : forall kind, t = kind -> In kind mapping_kinds ->
             true = true <->
             false = true
             \/ (exists (k0 : string) (cfgEvent0 : EventMapping) (t0 : string),
                    Some k = Some k0 /\ Map_get k0 configuredEvents = Some cfgEvent0
                    /\ em_t cfgEvent0 = Some t0 /\ In t0 mapping_kinds)).
  { intros kind <- Hk. split; [|reflexivity]. intros _. right.
    exists k, cfgEvent, t. now repeat split. }
  destruct (t =? "page") eqn:E1.
  { apply String.eqb_eq in E1. cbn [fst snd].
    split; [apply (Hin "page" E1); simpl; tauto | discriminate]. }
  destruct (t =? "relay1") eqn:E2.
  { apply String.eqb_eq in E2. cbn [orb fst snd].
    split; [apply (Hin "relay1" E2); simpl; tauto | discriminate]. }
  destruct (t =? "relay2") eqn:E3.
  { apply String.eqb_eq in E3. cbn [orb fst snd].
    split; [apply (Hin "relay2" E3); simpl; tauto | discriminate]. }
  cbn [orb].
  destruct (t =? "msg") eqn:E4.
  { apply String.eqb_eq in E4. cbn [fst snd].
    split; [apply (Hin "msg" E4); simpl; tauto | discriminate]. }
  cbn [fst snd]. split; [|reflexivity]. split; [discriminate|].
  intros [H|(k' & c & t' & Hk & Hget & Ht & Hkind)]; [discriminate|].
  injection Hk as <-. rewrite Eget in Hget. injection Hget as <-.
  rewrite Et in Ht. injection Ht as <-.
  apply String.eqb_neq in E1, E2, E3, E4.
  simpl in Hkind. intuition congruence.
Qed.

(** X24. A relay mapping sends one command to the relay its kind names:
    toggle for the value toggle, otherwise a switch, which switches the
    relay on for the value on and off for every other value, a missing
    one included. *)
Theorem handleConfiguredEvent_relay_command (eventArgs : EventArgs)
    (cfgEvent : EventMapping) (t : string) :
  em_t cfgEvent = Some t -> t = "relay1" \/ t = "relay2" ->
  exists cmdData,
    handleConfiguredEvent prePageNavigationEvent eventArgs (Some cfgEvent)
    = (true, [emit_page_cmd cmdData])
    /\ (p_id (c_params cmdData) = 0%Z <-> t = "relay1")
    /\ (p_id (c_params cmdData) = 1%Z <-> t = "relay2")
    /\ (em_value cfgEvent = Some "toggle" ->
          c_cmd cmdData = "toggle" /\ p_active (c_params cmdData) = None)
    /\ (em_value cfgEvent = Some "on" ->
          c_cmd cmdData = "switch" /\ p_active (c_params cmdData) = Some true)
    /\ (em_value cfgEvent <> Some "toggle" -> em_value cfgEvent <> Some "on" ->
          c_cmd cmdData = "switch" /\ p_active (c_params cmdData) = Some false).
Proof.
  intros Ht Hkind. unfold handleConfiguredEvent. rewrite Ht.
  assert (Hpage : (t =? "page") = false) by (destruct Hkind; subst t; reflexivity).
  assert (Hrelay : ((t =? "relay1") || (t =? "relay2")) = true)
    by (destruct Hkind; subst t; reflexivity).
  rewrite Hpage, Hrelay.
  eexists. split; [reflexivity|]. cbn [c_cmd c_params p_id p_active].
  split; [|split; [|split; [|split]]].
  - destruct Hkind; subst t; split; intros; (reflexivity || discriminate).
  - destruct Hkind; subst t; split; intros; (reflexivity || discriminate).
  - intros ->. split; reflexivity.
  - intros ->. split; reflexivity.
  - intros Htoggle Hon.
    destruct (em_value cfgEvent) as [v|]; [|split; reflexivity].
    assert (Et : (v =? "toggle") = false) by (apply String.eqb_neq; congruence).
    assert (Eo : (v =? "on") = false) by (apply String.eqb_neq; congruence).
    rewrite Et, Eo. split; reflexivity.
Qed.

(** X25. The message of a msg mapping of data type str holds the
    configured text, [undefined] without one, under the key the
    mapping's value names and, with a topic configured, the topic under
    the key topic. With the value topic and a topic configured the two
    are one key, and the message holds the topic and not the data. The
    value [__proto__] names no property: the message holds no data. *)
Theorem handlePageMessageEvent_topic (eventArgs : EventArgs)
    (eventConfig : EventMapping) (value : string) :
  em_value eventConfig = Some value -> em_dataType eventConfig = Some "str" ->
  let data :=
    match em_data eventConfig with
    | Some text => OutString text
    | None => OutUndefined
    end in
  (stringIsNullOrEmpty (em_msgTopic eventConfig) = true ->
     handlePageMessageEvent eventArgs eventConfig
     = [send (if value =? "__proto__" then [] else [(value, data)])])
  /\ (forall msgTopic,
        em_msgTopic eventConfig = Some msgTopic -> msgTopic <> EmptyString ->
        handlePageMessageEvent eventArgs eventConfig
        = [send (if (value =? "topic") || (value =? "__proto__")
                 then [("topic", OutString msgTopic)]
                 else [(value, data); ("topic", OutString msgTopic)])]).
Proof.
  intros Hvalue Htype. cbv zeta. unfold handlePageMessageEvent.
  rewrite Hvalue, Htype.
  change ("str" =? "str") with true. cbv beta iota.
  split.
  - intros ->. cbn [negb app]. unfold Object_set.
    destruct (value =? "__proto__"); reflexivity.
  - intros msgTopic Htopic Hne. rewrite Htopic.
    assert (E : stringIsNullOrEmpty (Some msgTopic) = false)
      by (destruct msgTopic; [contradiction | reflexivity]).
    rewrite E. cbn [negb app]. unfold Object_set.
    change ("topic" =? "__proto__") with false. cbv beta iota.
    destruct (value =? "__proto__") eqn:Ep.
    + rewrite orb_true_r. reflexivity.
    + rewrite orb_false_r. cbn [Map_set].
      destruct (value =? "topic") eqn:Et; [|reflexivity].
      apply String.eqb_eq in Et. now subst value.
Qed.

(** X26. The data of a msg mapping of type json, sent under the key the
    mapping's value names (under no key for the value [__proto__]): a
    text that [JSON.parse] reads is sent as the value read, without
    warning; a text it rejects is sent as the string it is, after one
    warning; an empty or missing text is sent as [undefined]. The
    method never throws. *)
Theorem handlePageMessageEvent_json (eventArgs : EventArgs)
    (eventConfig : EventMapping) (value : string) :
  em_value eventConfig = Some value -> em_dataType eventConfig = Some "json" ->
  stringIsNullOrEmpty (em_msgTopic eventConfig) = true ->
  let own (data : OutData) :=
    if value =? "__proto__" then [] else [(value, data)] in
  match em_data eventConfig with
  | Some (String c text) =>
      match JSON_parse (String c text) with
      | Some j =>
          handlePageMessageEvent eventArgs eventConfig = [send (own (OutJson j))]
      | None =>
          handlePageMessageEvent eventArgs eventConfig
          = [warn "Data not JSON compliant, sending as string";
             send (own (OutString (String c text)))]
      end
  | _ => handlePageMessageEvent eventArgs eventConfig = [send (own OutUndefined)]
  end.
Proof.
  intros Hvalue Htype Htopic. cbv zeta. unfold handlePageMessageEvent.
  rewrite Hvalue, Htype, Htopic.
  change ("json" =? "str") with false. change ("json" =? "json") with true.
  cbv beta iota. unfold Object_set.
  destruct (em_data eventConfig) as [[|c text]|]; cbn [truthy negb app];
    try (destruct (value =? "__proto__"); reflexivity).
  destruct (JSON_parse (String c text)); destruct (value =? "__proto__"); reflexivity.
Qed.

(** X27. [handleDataInputInternal] always reports the input handled and
    keeps the converted items from the first on, in their order, never
    more than [maxEntities] of them: none without options or without a
    maximum, all of them with a maximum of at least their number. *)
Theorem handleDataInputInternal_keeps_first {PageEntityData : Type}
    (convertToEntityItemData : option JsValue -> PageEntityData)
    (options : option PageOptions) (payload : option JsValue) :
  let result := handleDataInputInternal convertToEntityItemData options payload in
  let converted := map convertToEntityItemData (payload_items payload) in
  snd result = true
  /\ (exists rest, converted = fst result ++ rest)
  /\ (forall o n, options = Some o -> maxEntities o = Some n -> (0 <= n)%Z ->
        List.length (fst result) = Nat.min (Z.to_nat n) (List.length converted))
  /\ ((options = None \/ exists o, options = Some o /\ maxEntities o = None) ->
        fst result = []).
Proof.
  cbv zeta. unfold handleDataInputInternal, payload_items, slice_0. cbn [fst snd].
  split; [reflexivity|]. split; [|split].
  - eexists. symmetry. apply firstn_skipn.
  - intros o n -> -> Hn.
    assert (E : (n <? 0)%Z = false) by (apply Z.ltb_ge; exact Hn).
    rewrite E, length_firstn. lia.
  - intros [-> | (o & -> & ->)]; change (0 <? 0)%Z with false; cbv iota;
      rewrite Z.min_l by lia; reflexivity.
Qed.

End PageNodeProperties.

(** ** The thermo page: the action row *)

Section PageThermoProperties.
Context {T : ThermoHelpers}.
Variable getEntityData : option string -> option PageEntityData.

Lemma actions_loop_eq (o : PageOptions) (n : Z) (entities : list EntityConfig) :
  maxEntities o = Some n ->
  forall (i : nat) (resultActions : list string),
    actions_loop getEntityData (Some o) i entities resultActions
    = ((i + Nat.min (List.length entities) (Z.to_nat n - i))%nat,
       resultActions
       ++ map (action_of getEntityData) (firstn (Z.to_nat n - i) entities)).
Proof.
  intros Hn. induction entities as [|e entities IH]; intros i acc; cbn [actions_loop].
  - rewrite firstn_nil, app_nil_r. cbn [List.length map]. f_equal. lia.
  - unfold below_maxEntities. rewrite Hn.
    destruct (Z.of_nat i <? n)%Z eqn:E.
    + apply Z.ltb_lt in E. rewrite IH.
      replace (Z.to_nat n - i)%nat with (S (Z.to_nat n - S i)) by lia.
      cbn [firstn map List.length]. rewrite <- app_assoc. cbn [app].
      f_equal. lia.
    + apply Z.ltb_ge in E.
      replace (Z.to_nat n - i)%nat with 0%nat by lia.
      cbn [firstn map]. rewrite app_nil_r. f_equal. lia.
Qed.

(** X28. The action row has exactly [maxEntities] actions, eight on the
    thermo page, whatever the number of entities configured: the
    actions of the first [maxEntities] entities in their order, then the
    empty action for every place left. Without options every entity has
    its action and no place is filled up. An entity of type delete has
    the empty action, too. *)
Theorem generateActions_fills_maxEntities (name : string) (n : Z)
    (entities : list EntityConfig) :
  let options := Some {| pageType := name; maxEntities := Some n |} in
  resultActions_of getEntityData options entities
  = map (action_of getEntityData) (firstn (Z.to_nat n) entities)
    ++ repeat ACTION_EMPTY (Z.to_nat n - List.length entities)
  /\ List.length (resultActions_of getEntityData options entities) = Z.to_nat n
  /\ List.length (resultActions_of getEntityData PageThermoNode_options entities) = 8%nat
  /\ resultActions_of getEntityData None entities = map (action_of getEntityData) entities
  /\ (forall entityConfig, ec_type entityConfig = "delete" ->
        action_of getEntityData entityConfig = ACTION_EMPTY).
Proof.
  cbv zeta.
  assert (Heq : resultActions_of getEntityData
                  (Some {| pageType := name; maxEntities := Some n |}) entities
                = map (action_of getEntityData) (firstn (Z.to_nat n) entities)
                  ++ repeat ACTION_EMPTY (Z.to_nat n - List.length entities)).
  { unfold resultActions_of.
    rewrite (@actions_loop_eq {| pageType := name; maxEntities := Some n |} n entities eq_refl).
    cbn [maxEntities app]. rewrite Nat.sub_0_r.
    replace (Z.to_nat (n - Z.of_nat (0 + Nat.min (List.length entities) (Z.to_nat n))))
      with (Z.to_nat n - List.length entities)%nat by lia.
    reflexivity. }
  assert (Hlen : forall name n,
             List.length (resultActions_of getEntityData
                            (Some {| pageType := name; maxEntities := Some n |}) entities)
             = Z.to_nat n).
  { clear. intros name n. unfold resultActions_of.
    rewrite (@actions_loop_eq {| pageType := name; maxEntities := Some n |} n entities eq_refl).
    cbn [maxEntities app].
    rewrite length_app, length_map, length_firstn, repeat_length. lia. }
  split; [exact Heq|]. split; [apply Hlen|]. split; [apply (Hlen PAGE_TYPE MAX_ENTITIES)|].
  split.
  - unfold resultActions_of.
    assert (Hall : forall i acc,
               actions_loop getEntityData None i entities acc
               = ((i + List.length entities)%nat,
                  acc ++ map (action_of getEntityData) entities)).
    { clear Heq Hlen.
      induction entities as [|e es IH]; intros i acc; cbn [actions_loop below_maxEntities].
      - rewrite app_nil_r. cbn [List.length]. f_equal. lia.
      - rewrite IH. cbn [map List.length]. rewrite <- app_assoc.
        f_equal; first [lia | reflexivity]. }
    now rewrite Hall.
  - intros entityConfig Htype. unfold action_of, makeAction. now rewrite Htype.
Qed.

End PageThermoProperties.

(** The theorems on the page node with a hypothesis, on the sample
    instance: a button press mapped to the second relay, and a mapping
    that sends a message. *)
Lemma handleConfiguredEvent_relay_witness :
  let eventArgs : @EventArgs Sample.runtime :=
    {| type := "event"; date := None; event := Some "buttonPress2";
       event2 := Some "button"; source := Some "e1"; entityId := None;
       active := None; value := None; data := None; rgb := None; hsv := None;
       hmiVersion := None |} in
  let cfgEvent :=
    {| em_event := "button"; em_t := Some "relay2"; em_value := Some "off";
       em_data := None; em_dataType := None; em_msgTopic := None |} in
  exists cmdData,
    handleConfiguredEvent (@PageNodeBase_prePageNavigationEvent Sample.runtime)
      eventArgs (Some cfgEvent)
    = (true, [emit_page_cmd cmdData])
    /\ p_id (c_params cmdData) = 1%Z
    /\ c_cmd cmdData = "switch" /\ p_active (c_params cmdData) = Some false.
Proof.
  intros eventArgs cfgEvent.
  destruct (@handleConfiguredEvent_relay_command Sample.runtime
              (@PageNodeBase_prePageNavigationEvent Sample.runtime)
              eventArgs cfgEvent "relay2" eq_refl (or_intror eq_refl))
    as (cmdData & Hrun & _ & Hid & _ & _ & Hoff).
  exists cmdData. split; [exact Hrun|]. split; [now apply Hid|].
  apply Hoff; discriminate.
Defined.

Lemma handlePageMessageEvent_topic_witness :
  let eventArgs : @EventArgs Sample.runtime :=
    {| type := "event"; date := None; event := Some "buttonPress2";
       event2 := Some "button"; source := Some "e1"; entityId := None;
       active := None; value := None; data := None; rgb := None; hsv := None;
       hmiVersion := None |} in
  let eventConfig :=
    {| em_event := "button"; em_t := Some "msg"; em_value := Some "topic";
       em_data := Some "pressed"; em_dataType := Some "str";
       em_msgTopic := Some "panel" |} in
  handlePageMessageEvent eventArgs eventConfig
  = [send [("topic", OutString "panel")]].
Proof.
  intros eventArgs eventConfig.
  exact (proj2 (@handlePageMessageEvent_topic Sample.runtime eventArgs eventConfig
                  "topic" eq_refl eq_refl)
           "panel" eq_refl ltac:(discriminate)).
Defined.

Lemma handlePageMessageEvent_json_witness :
  let eventArgs : @EventArgs Sample.runtime :=
    {| type := "event"; date := None; event := Some "buttonPress2";
       event2 := Some "button"; source := Some "e1"; entityId := None;
       active := None; value := None; data := None; rgb := None; hsv := None;
       hmiVersion := None |} in
  let eventConfig :=
    {| em_event := "button"; em_t := Some "msg"; em_value := Some "payload";
       em_data := Some "not json"; em_dataType := Some "json";
       em_msgTopic := None |} in
  handlePageMessageEvent eventArgs eventConfig
  = [warn "Data not JSON compliant, sending as string";
     send [("payload", OutString "not json")]].
Proof.
  intros eventArgs eventConfig.
  exact (@handlePageMessageEvent_json Sample.runtime eventArgs eventConfig "payload"
           eq_refl eq_refl eq_refl).
Defined.
